(** * LCP gateway: adapter / registry subsystem

    A shallow embedding of the protocol adapters ([MqttAdapter],
    [WebSocketAdapter], [RestAdapter]), of the [AdapterManager] registry and of
    the [DataPoint] model, followed by the properties of the specification
    that concern them.

    Conventions of the embedding.
    - A JavaScript [Map] whose iteration order is irrelevant to the code that
      uses it is a [gmap]; one that is iterated in insertion order is an
      association list.
    - A promise is represented by the way it settles ([Outcome]).
    - Calls into the transport libraries (mqtt, websocket, axios, timers) and
      invocations of the callbacks supplied at construction are recorded in a
      trace kept next to the adapter state; [console] output is not modelled.
    - What the outside world decides (whether a library call throws, whether
      a broker acknowledges) is an explicit argument of the operation. *)

From Stdlib Require Import QArith Qcanon.
From stdpp Require Import base numbers strings list gmap.

Set Warnings "-register-all".
Open Scope string_scope.

(** ** JavaScript values *)

Module Js.

(** The values that flow through the adapters: JSON data, [undefined] and
    [Date] objects.  Finite numbers are rationals in canonical form
    (the numerals of the specification, 20.5 and 40.0, are exact).  A [Date]
    is either an instant, in milliseconds, or the invalid date that
    [new Date(v)] builds from a [v] it cannot read; [new Date()] is always an
    instant. *)
Inductive value : Type :=
| VUndefined
| VNull
| VBool (b : bool)
| VNum (q : Qc)
| VNaN
| VStr (s : string)
| VDate (ms : Z)
| VInvalidDate
| VArr (items : list value)
| VObj (fields : list (string * value)).

(** ToBoolean. *)
Definition truthy (v : value) : bool :=
  match v with
  | VUndefined | VNull | VNaN => false
  | VBool b => b
  | VNum q => negb (bool_decide (q = 0%Qc))
  | VStr s => negb (String.eqb s "")
  | VDate _ | VInvalidDate | VArr _ | VObj _ => true
  end.

(** [a || b]; the right operand is only evaluated when needed, which matters
    for [new Date()], so it is passed as a separate clock reading by the
    callers. *)
Definition or_else (a b : value) : value := if truthy a then a else b.

(** Truthiness of a string that may be absent ([undefined]). *)
Definition truthy_str (o : option string) : bool :=
  match o with
  | Some s => negb (String.eqb s "")
  | None => false
  end.

End Js.

(** ** Promise outcomes and thrown errors *)

Inductive Outcome : Type :=
| Resolved
| Rejected (message : string)
| Pending.

(** ** DataPoint (models/data-point.js) *)

Module DataPoint.
Import Js.

(** The [options] object of the constructor; an absent property reads as
    [VUndefined]. *)
Record Options : Type := mkOptions {
  o_deviceId : value;
  o_protocol : value;
  o_timestamp : value;
  o_parameters : value;
  o_experimentId : value;
  o_createdAt : value
}.

Record t : Type := mk {
  deviceId : value;
  protocol : value;
  timestamp : value;
  parameters : value;
  experimentId : value;
  createdAt : value
}.

(** [constructor(options)].  [now_ts] and [now_created] are the readings of
    the clock that the two [new Date()] expressions would return. *)
Definition new (now_ts now_created : Z) (options : Options) : t :=
  {| deviceId := o_deviceId options;
     protocol := o_protocol options;
     timestamp := or_else (o_timestamp options) (VDate now_ts);
     parameters := or_else (o_parameters options) (VObj []);
     experimentId := or_else (o_experimentId options) VNull;
     createdAt := or_else (o_createdAt options) (VDate now_created) |}.

Record DbObject : Type := mkDb {
  db_device_id : value;
  db_protocol : value;
  db_timestamp : value;
  db_parameters : value;
  db_experiment_id : value;
  db_created_at : value
}.

Definition toDatabase (p : t) : DbObject :=
  {| db_device_id := deviceId p;
     db_protocol := protocol p;
     db_timestamp := timestamp p;
     db_parameters := parameters p;
     db_experiment_id := experimentId p;
     db_created_at := createdAt p |}.

Definition fromDatabase (now_ts now_created : Z) (dbObject : DbObject) : t :=
  new now_ts now_created
    {| o_deviceId := db_device_id dbObject;
       o_protocol := db_protocol dbObject;
       o_timestamp := db_timestamp dbObject;
       o_parameters := db_parameters dbObject;
       o_experimentId := db_experiment_id dbObject;
       o_createdAt := db_created_at dbObject |}.

(** The consumer format.  [sf_timestamp] is the argument of
    [toISOString()], kept as the instant it renders. *)
Record StandardFormat : Type := mkStandard {
  sf_device_id : value;
  sf_timestamp : Z;
  sf_protocol : value;
  sf_parameters : value;
  sf_experiment_id : value
}.

(** [toStandardFormat()]: [this.timestamp.toISOString()] throws ([None]), a
    TypeError unless the timestamp is a [Date] and a RangeError when it is
    the invalid date. *)
Definition toStandardFormat (p : t) : option StandardFormat :=
  match timestamp p with
  | VDate ms =>
      Some {| sf_device_id := deviceId p;
              sf_timestamp := ms;
              sf_protocol := protocol p;
              sf_parameters := parameters p;
              sf_experiment_id := experimentId p |}
  | _ => None
  end.

(** Property read [obj[key]] on a value. *)
Fixpoint assoc (key : string) (fields : list (string * value)) : value :=
  match fields with
  | [] => VUndefined
  | (k, v) :: rest => if String.eqb k key then v else assoc key rest
  end.

Definition getParameter (p : t) (key : string) : value :=
  match parameters p with
  | VObj fields => assoc key fields
  | _ => VUndefined
  end.

End DataPoint.

(** ** Device records, commands and their connection details *)

Record MqttTopics : Type := mkTopics {
  data : option string;
  control : option string
}.

(** [device.connection_details]; a property that is absent is [None]. *)
Record ConnectionDetails : Type := mkDetails {
  mqtt_topics : option MqttTopics;
  websocket_url : option string;
  sub_protocol : option string;        (* connection_details.protocol *)
  base_url : option string;
  health_endpoint : option string;
  data_endpoint : option string;
  control_endpoint : option string;
  auth_token : option string;
  polling_interval : option Z
}.

Record Device : Type := mkDevice {
  device_id : string;
  protocol : option string;
  connection_details : option ConnectionDetails
}.

(** The command envelope [{ device_id, command, parameters }]. *)
Record Command : Type := mkCommand {
  c_device_id : string;
  c_command : Js.value;
  c_parameters : Js.value
}.

(** The message both push adapters send for a command:
    [{ command: commandName, parameters: parameters || {} }]. *)
Definition command_message (command : Command) : Js.value :=
  Js.VObj [("command", c_command command);
           ("parameters", Js.or_else (c_parameters command) (Js.VObj []))].

(** Completion of a block of statements: it runs to its end or throws. *)
Inductive Completion : Type :=
| Normal
| Throw (message : string).

(** [try { body } catch (err) { console.error(...) }]: the state reached by
    the body is kept and the exception goes no further. *)
Definition try_catch {S : Type} (body : S * Completion) : S * Completion :=
  (body.1, Normal).

(** ** MqttAdapter (adapters/mqtt-adapter.js) *)

Module MqttAdapter.
Import Js.

(** Calls into the mqtt library and callbacks invoked, oldest first.
    A client object is named by the rank of the [mqtt.connect] call that
    created it. *)
Inductive Effect : Type :=
| LibConnect (c : nat) (url : string)
| LibSubscribe (c : nat) (topic : string)
| LibPublish (c : nat) (topic message : string)
| LibEnd (c : nat)
| DataCallback (p : DataPoint.t)
| ConnectionCallback (status : string).

Record t : Type := mk {
  brokerUrl : string;
  client : option nat;
  subscriptions : gmap string string;   (* topic -> device_id *)
  deviceMap : gmap string Device;       (* device_id -> device details *)
  clients_created : nat;
  trace : list Effect
}.

Definition new (url : string) : t :=
  {| brokerUrl := url; client := None; subscriptions := ∅; deviceMap := ∅;
     clients_created := 0; trace := [] |}.

Definition log (e : Effect) (a : t) : t :=
  {| brokerUrl := brokerUrl a; client := client a;
     subscriptions := subscriptions a; deviceMap := deviceMap a;
     clients_created := clients_created a; trace := trace a ++ [e] |}.

Definition set_client (c : option nat) (a : t) : t :=
  {| brokerUrl := brokerUrl a; client := c;
     subscriptions := subscriptions a; deviceMap := deviceMap a;
     clients_created := clients_created a; trace := trace a |}.

Definition set_subscriptions (s : gmap string string) (a : t) : t :=
  {| brokerUrl := brokerUrl a; client := client a;
     subscriptions := s; deviceMap := deviceMap a;
     clients_created := clients_created a; trace := trace a |}.

Definition set_deviceMap (d : gmap string Device) (a : t) : t :=
  {| brokerUrl := brokerUrl a; client := client a;
     subscriptions := subscriptions a; deviceMap := d;
     clients_created := clients_created a; trace := trace a |}.

(** What [mqtt.connect] does: return a client or throw. *)
Inductive ConnectBehaviour : Type := ConnectReturns | ConnectThrows.

(** [connect()], up to the return of the promise.  The promise settles in
    [on_connect] or [on_error]. *)
Definition connect (a : t) (lib : ConnectBehaviour) : t * Outcome :=
  match lib with
  | ConnectThrows => (a, Rejected "mqtt.connect")
  | ConnectReturns =>
      let c := clients_created a in
      let a1 :=
        {| brokerUrl := brokerUrl a; client := Some c;
           subscriptions := subscriptions a; deviceMap := deviceMap a;
           clients_created := S c; trace := trace a |} in
      (log (LibConnect c (brokerUrl a)) a1, Pending)
  end.

(** The ['connect'] and ['error'] handlers of a client. *)
Definition on_connect (a : t) : t * Outcome :=
  (log (ConnectionCallback "connected") a, Resolved).

Definition on_error (a : t) (message : string) : t * Outcome :=
  (log (ConnectionCallback "error") a, Rejected message).

Section Handlers.
(** [JSON.parse] ([None]: SyntaxError), [JSON.stringify], and whether the
    data callback supplied at construction throws on a data point. *)
Variable JSON_parse : string -> option value.
Variable JSON_stringify : value -> string.
Variable callback_throws : DataPoint.t -> bool.

(** The body of the [try] block of the ['message'] handler. [now] and
    [now_created] are the two clock readings taken while the data point
    is built. *)
Definition message_body (a : t) (topic payload : string)
    (now now_created : Z) : t * Completion :=
  match subscriptions a !! topic with
  | None => (a, Normal)
  | Some deviceId =>
      if String.eqb deviceId "" then (a, Normal)
      else
        match deviceMap a !! deviceId with
        | None => (a, Normal)
        | Some _ =>
            match JSON_parse payload with
            | None => (a, Throw "SyntaxError")
            | Some messageObj =>
                let dataPoint :=
                  DataPoint.new now now_created
                    {| DataPoint.o_deviceId := VStr deviceId;
                       DataPoint.o_protocol := VStr "MQTT";
                       DataPoint.o_timestamp := VDate now;
                       DataPoint.o_parameters := messageObj;
                       DataPoint.o_experimentId := VUndefined;
                       DataPoint.o_createdAt := VUndefined |} in
                (log (DataCallback dataPoint) a,
                 if callback_throws dataPoint then Throw "onDataCallback"
                 else Normal)
            end
        end
  end.

Definition on_message (a : t) (topic payload : string)
    (now now_created : Z) : t * Completion :=
  try_catch (message_body a topic payload now now_created).

(** What [client.subscribe(topic, callback)] does before it returns. *)
Inductive SubscribeBehaviour : Type :=
| SubscribeThrows
| SubscribeCallsBack (err : bool)
| SubscribeDefers.

(** The callback given to [client.subscribe]. *)
Definition subscribe_callback (a : t) (dataTopic deviceId : string)
    (err : bool) : t :=
  if err then a
  else set_subscriptions (<[dataTopic := deviceId]> (subscriptions a)) a.

(** [registerDevice(device)]. *)
Definition registerDevice (a : t) (device : Device)
    (lib : SubscribeBehaviour) : t * Outcome :=
  match connection_details device with
  | None => (a, Rejected "MQTT topics not specified for device")
  | Some details =>
      match mqtt_topics details with
      | None => (a, Rejected "MQTT topics not specified for device")
      | Some topics =>
          let store (a0 : t) :=
            set_deviceMap (<[device_id device := device]> (deviceMap a0)) a0 in
          match data topics with
          | Some dataTopic =>
              if String.eqb dataTopic "" then (store a, Resolved)
              else
                match client a with
                | None => (a, Rejected "TypeError")
                | Some c =>
                    let a1 := log (LibSubscribe c dataTopic) a in
                    match lib with
                    | SubscribeThrows => (a1, Rejected "subscribe")
                    | SubscribeCallsBack true =>
                        (store a1, Rejected "subscribe")
                    | SubscribeCallsBack false =>
                        (store (subscribe_callback a1 dataTopic
                                  (device_id device) false), Resolved)
                    | SubscribeDefers => (store a1, Resolved)
                    end
                end
          | None => (store a, Resolved)
          end
      end
  end.

(** What [client.publish(topic, message, callback)] leads to. *)
Inductive PublishBehaviour : Type :=
| PublishThrows
| PublishCallsBack (err : bool)
| PublishNeverCallsBack.

(** [sendCommand(command)], with the publish callback folded in. *)
Definition sendCommand (a : t) (command : Command)
    (lib : PublishBehaviour) : t * Outcome :=
  match deviceMap a !! c_device_id command with
  | None => (a, Rejected "Device not found")
  | Some device =>
      match connection_details device with
      | None => (a, Rejected "TypeError")
      | Some details =>
          match mqtt_topics details with
          | None => (a, Rejected "TypeError")
          | Some topics =>
              match control topics with
              | None => (a, Rejected "Control topic not specified for device")
              | Some controlTopic =>
                  if String.eqb controlTopic "" then
                    (a, Rejected "Control topic not specified for device")
                  else
                    let message := JSON_stringify (command_message command) in
                    match client a with
                    | None => (a, Rejected "TypeError")
                    | Some c =>
                        let a1 := log (LibPublish c controlTopic message) a in
                        match lib with
                        | PublishThrows => (a1, Rejected "publish")
                        | PublishCallsBack true => (a1, Rejected "publish")
                        | PublishCallsBack false => (a1, Resolved)
                        | PublishNeverCallsBack => (a1, Pending)
                        end
                    end
              end
          end
      end
  end.

End Handlers.

(** What [client.end(true, callback)] leads to. *)
Inductive EndBehaviour : Type := EndThrows | EndCallsBack | EndNeverCallsBack.

(** [disconnect()], with the callback of [client.end] folded in. *)
Definition disconnect (a : t) (lib : EndBehaviour) : t * Outcome :=
  match client a with
  | None => (a, Resolved)
  | Some c =>
      let a1 := log (LibEnd c) a in
      match lib with
      | EndThrows => (a1, Rejected "end")
      | EndNeverCallsBack => (a1, Pending)
      | EndCallsBack =>
          let a2 := log (ConnectionCallback "disconnected") a1 in
          (set_subscriptions ∅ (set_client None a2), Resolved)
      end
  end.

(** The messages handed to [client.publish], oldest first. *)
Definition published (tr : list Effect) : list (nat * string * string) :=
  omap (fun e => match e with
                 | LibPublish c topic m => Some (c, topic, m)
                 | _ => None
                 end) tr.

(** The data points handed to the inbound-data callback, oldest first. *)
Definition delivered (tr : list Effect) : list DataPoint.t :=
  omap (fun e => match e with DataCallback p => Some p | _ => None end) tr.

End MqttAdapter.

(** ** Insertion-ordered maps

    A JavaScript [Map] iterates in insertion order; [set] on a key that is
    present keeps its place. *)

Module JsMap.
Section Ops.
Context {V : Type}.

Fixpoint get (k : string) (m : list (string * V)) : option V :=
  match m with
  | [] => None
  | (k', v) :: rest => if String.eqb k' k then Some v else get k rest
  end.

Definition has (k : string) (m : list (string * V)) : bool :=
  match get k m with Some _ => true | None => false end.

Fixpoint set (k : string) (v : V) (m : list (string * V)) : list (string * V) :=
  match m with
  | [] => [(k, v)]
  | (k', v') :: rest =>
      if String.eqb k' k then (k, v) :: rest else (k', v') :: set k v rest
  end.

Fixpoint delete (k : string) (m : list (string * V)) : list (string * V) :=
  match m with
  | [] => []
  | (k', v') :: rest =>
      if String.eqb k' k then rest else (k', v') :: delete k rest
  end.

End Ops.
End JsMap.

(** A [Map] whose keys are read from an expression that can be [undefined]
    ([None]) as well as a string, compared the way [Map] compares keys. *)

Module UrlMap.
Section Ops.
Context {V : Type}.

Definition same (k k' : option string) : bool :=
  match k, k' with
  | Some s, Some s' => String.eqb s s'
  | None, None => true
  | _, _ => false
  end.

Fixpoint get (k : option string) (m : list (option string * V)) : option V :=
  match m with
  | [] => None
  | (k', v) :: rest => if same k' k then Some v else get k rest
  end.

Definition has (k : option string) (m : list (option string * V)) : bool :=
  match get k m with Some _ => true | None => false end.

Fixpoint set (k : option string) (v : V) (m : list (option string * V))
    : list (option string * V) :=
  match m with
  | [] => [(k, v)]
  | (k', v') :: rest =>
      if same k' k then (k, v) :: rest else (k', v') :: set k v rest
  end.

Fixpoint delete (k : option string) (m : list (option string * V))
    : list (option string * V) :=
  match m with
  | [] => []
  | (k', v') :: rest =>
      if same k' k then rest else (k', v') :: delete k rest
  end.

End Ops.
End UrlMap.

(** ** WebSocketAdapter (adapters/websocket-adapter.js) *)

Module WebSocketAdapter.
Import Js.

(** Calls into the websocket library and callbacks invoked, oldest first.
    A connection object is named by the rank of the ['connect'] event that
    delivered it.  The adapter reads one property of a connection object that
    the library decides, [connection.url]: it is an argument of the handlers
    below, [None] when the object has no such property and the expression
    reads [undefined], as on the connection objects of the [websocket]
    package, which carry no [url]. *)
Inductive Effect : Type :=
| LibConnect (url : string) (requestedProtocol : option string)
| LibSendUTF (connection : nat) (message : string)
| LibClose (connection : nat)
| DataCallback (p : DataPoint.t)
| ConnectionCallback (status : string).

Record t : Type := mk {
  connections : list (option string * nat);   (* connection.url -> connection *)
  deviceMap : list (string * Device);   (* device_id -> device details *)
  connections_made : nat;
  trace : list Effect
}.

Definition new : t :=
  {| connections := []; deviceMap := []; connections_made := 0; trace := [] |}.

Definition log (e : Effect) (a : t) : t :=
  {| connections := connections a; deviceMap := deviceMap a;
     connections_made := connections_made a; trace := trace a ++ [e] |}.

Definition set_connections (c : list (option string * nat)) (a : t) : t :=
  {| connections := c; deviceMap := deviceMap a;
     connections_made := connections_made a; trace := trace a |}.

Definition set_deviceMap (d : list (string * Device)) (a : t) : t :=
  {| connections := connections a; deviceMap := d;
     connections_made := connections_made a; trace := trace a |}.

(** [device.connection_details.websocket_url === url], both sides being a
    string or [undefined]; reading the property of an absent
    [connection_details] is a TypeError ([None]). *)
Definition url_matches (device : Device) (url : option string) : option bool :=
  match connection_details device with
  | None => None
  | Some details => Some (UrlMap.same (websocket_url details) url)
  end.

(** [findDeviceIdByUrl(url)] over the entries in insertion order:
    [Some None] is the [null] result, [None] a TypeError. *)
Fixpoint find_in (entries : list (string * Device)) (url : option string)
    : option (option string) :=
  match entries with
  | [] => Some None
  | (deviceId, device) :: rest =>
      match url_matches device url with
      | None => None
      | Some true => Some (Some deviceId)
      | Some false => find_in rest url
      end
  end.

Definition findDeviceIdByUrl (a : t) (url : option string)
    : option (option string) :=
  find_in (deviceMap a) url.

(** The ['connect'] handler of the client, for a connection object on which
    [connection.url] reads [url]. *)
Definition on_connect (a : t) (url : option string) : t :=
  let connection := connections_made a in
  let a1 :=
    {| connections := UrlMap.set url connection (connections a);
       deviceMap := deviceMap a;
       connections_made := S connection; trace := trace a |} in
  log (ConnectionCallback "connected") a1.

(** An incoming frame: [message.type] and, for text, [message.utf8Data]. *)
Inductive Message : Type :=
| Utf8 (utf8Data : string)
| Binary.

Section Handlers.
Variable JSON_parse : string -> option value.
Variable JSON_stringify : value -> string.
Variable callback_throws : DataPoint.t -> bool.

(** The body of the [try] block of the ['message'] handler of a
    connection on which [connection.url] reads [url]. *)
Definition message_body (a : t) (url : option string) (utf8Data : string)
    (now now_created : Z) : t * Completion :=
  match JSON_parse utf8Data with
  | None => (a, Throw "SyntaxError")
  | Some data =>
      match findDeviceIdByUrl a url with
      | None => (a, Throw "TypeError")
      | Some None => (a, Normal)
      | Some (Some deviceId) =>
          if String.eqb deviceId "" then (a, Normal)
          else
            let dataPoint :=
              DataPoint.new now now_created
                {| DataPoint.o_deviceId := VStr deviceId;
                   DataPoint.o_protocol := VStr "WebSocket";
                   DataPoint.o_timestamp := VDate now;
                   DataPoint.o_parameters := data;
                   DataPoint.o_experimentId := VUndefined;
                   DataPoint.o_createdAt := VUndefined |} in
            (log (DataCallback dataPoint) a,
             if callback_throws dataPoint then Throw "onDataCallback"
             else Normal)
      end
  end.

Definition on_message (a : t) (url : option string) (message : Message)
    (now now_created : Z) : t * Completion :=
  match message with
  | Utf8 utf8Data => try_catch (message_body a url utf8Data now now_created)
  | Binary => (a, Normal)
  end.

(** [sendCommand(command)]; [send_throws] says whether
    [connection.sendUTF] throws. *)
Definition sendCommand (a : t) (command : Command) (send_throws : bool)
    : t * Outcome :=
  match JsMap.get (c_device_id command) (deviceMap a) with
  | None => (a, Rejected "Device not found")
  | Some device =>
      match connection_details device with
      | None => (a, Rejected "TypeError")
      | Some details =>
          match websocket_url details with
          | None => (a, Rejected "WebSocket URL not specified for device")
          | Some url =>
              if String.eqb url "" then
                (a, Rejected "WebSocket URL not specified for device")
              else
                match UrlMap.get (Some url) (connections a) with
                | None => (a, Rejected "No active WebSocket connection for device")
                | Some connection =>
                    let message := JSON_stringify (command_message command) in
                    let a1 := log (LibSendUTF connection message) a in
                    if send_throws then (a1, Rejected "sendUTF")
                    else (a1, Resolved)
                end
          end
      end
  end.
End Handlers.

(** [registerDevice(device)]; [connect_throws] says whether
    [client.connect] throws. *)
Definition registerDevice (a : t) (device : Device) (connect_throws : bool)
    : t * Outcome :=
  match connection_details device with
  | None => (a, Rejected "WebSocket URL not specified for device")
  | Some details =>
      match websocket_url details with
      | None => (a, Rejected "WebSocket URL not specified for device")
      | Some url =>
          if String.eqb url "" then
            (a, Rejected "WebSocket URL not specified for device")
          else
            let a1 :=
              set_deviceMap (JsMap.set (device_id device) device (deviceMap a)) a in
            if UrlMap.has (Some url) (connections a1) then (a1, Resolved)
            else
              let a2 := log (LibConnect url (sub_protocol details)) a1 in
              if connect_throws then (a2, Rejected "connect")
              else (a2, Resolved)
      end
  end.

(** [for (const connection of this.connections.values()) connection.close()],
    stopped by the first [close] that throws. *)
Fixpoint close_all (values : list nat) (close_throws : nat -> bool) (a : t)
    : t * Completion :=
  match values with
  | [] => (a, Normal)
  | connection :: rest =>
      let a1 := log (LibClose connection) a in
      if close_throws connection then (a1, Throw "close")
      else close_all rest close_throws a1
  end.

(** [disconnect(deviceId)]; the argument is [None] when it is omitted. *)
Definition disconnect (a : t) (deviceId : option string)
    (close_throws : nat -> bool) : t * Outcome :=
  if truthy_str deviceId then
    let id := default "" deviceId in
    match JsMap.get id (deviceMap a) with
    | None => (a, Resolved)
    | Some device =>
        match connection_details device with
        | None => (a, Rejected "TypeError")
        | Some details =>
            if truthy_str (websocket_url details) then
              let url := default "" (websocket_url details) in
              let forget (a0 : t) :=
                set_deviceMap (JsMap.delete id (deviceMap a0)) a0 in
              match UrlMap.get (Some url) (connections a) with
              | None => (forget a, Resolved)
              | Some connection =>
                  let a1 := log (LibClose connection) a in
                  if close_throws connection then (a1, Rejected "close")
                  else
                    (forget (set_connections
                               (UrlMap.delete (Some url) (connections a1)) a1),
                     Resolved)
              end
            else (a, Resolved)
        end
    end
  else
    match close_all (map snd (connections a)) close_throws a with
    | (a1, Throw e) => (a1, Rejected e)
    | (a1, Normal) => (set_deviceMap [] (set_connections [] a1), Resolved)
    end.

(** The URLs handed to [client.connect], oldest first. *)
Definition connects (tr : list Effect) : list string :=
  omap (fun e => match e with LibConnect url _ => Some url | _ => None end) tr.

Definition delivered (tr : list Effect) : list DataPoint.t :=
  omap (fun e => match e with DataCallback p => Some p | _ => None end) tr.

End WebSocketAdapter.

(** ** RestAdapter (adapters/rest-adapter.js)

    The adapter talks to two pieces of the outside world: the interval
    timers of the runtime and the HTTP requests it has issued and that have
    not been answered yet.  Both are part of the modelled state, so that the
    consequences of a tick or of a late response can be followed. *)

Module RestAdapter.
Import Js.

Inductive Effect : Type :=
| DataCallback (p : DataPoint.t)
| ConnectionCallback (status : string).

Record t : Type := mk {
  deviceMap : gmap string Device;       (* device_id -> device details *)
  pollingIntervals : gmap string nat;   (* device_id -> interval id *)
  (* live intervals: id -> the deviceId and URL captured by the closure *)
  timers : gmap nat (string * string);
  timers_created : nat;
  (* health requests of testConnection awaiting their response, with the
     device captured by the closures of registerDevice *)
  health_checks : list Device;
  (* GET requests issued by interval ticks awaiting their response, with
     the deviceId captured by the closure *)
  polls_in_flight : list string;
  trace : list Effect
}.

Definition new : t :=
  {| deviceMap := ∅; pollingIntervals := ∅; timers := ∅; timers_created := 0;
     health_checks := []; polls_in_flight := []; trace := [] |}.

Definition log (e : Effect) (a : t) : t :=
  {| deviceMap := deviceMap a; pollingIntervals := pollingIntervals a;
     timers := timers a; timers_created := timers_created a;
     health_checks := health_checks a;
     polls_in_flight := polls_in_flight a; trace := trace a ++ [e] |}.

Definition set_deviceMap (d : gmap string Device) (a : t) : t :=
  {| deviceMap := d; pollingIntervals := pollingIntervals a;
     timers := timers a; timers_created := timers_created a;
     health_checks := health_checks a;
     polls_in_flight := polls_in_flight a; trace := trace a |}.

Definition set_health_checks (h : list Device) (a : t) : t :=
  {| deviceMap := deviceMap a; pollingIntervals := pollingIntervals a;
     timers := timers a; timers_created := timers_created a;
     health_checks := h;
     polls_in_flight := polls_in_flight a; trace := trace a |}.

Definition set_polls_in_flight (p : list string) (a : t) : t :=
  {| deviceMap := deviceMap a; pollingIntervals := pollingIntervals a;
     timers := timers a; timers_created := timers_created a;
     health_checks := health_checks a;
     polls_in_flight := p; trace := trace a |}.

(** [stopPolling(deviceId)].  Interval ids are the runtime's timer objects,
    which are truthy. *)
Definition stopPolling (a : t) (deviceId : string) : t :=
  match pollingIntervals a !! deviceId with
  | None => a
  | Some intervalId =>
      {| deviceMap := deviceMap a;
         pollingIntervals := delete deviceId (pollingIntervals a);
         timers := delete intervalId (timers a);      (* clearInterval *)
         timers_created := timers_created a;
         health_checks := health_checks a;
         polls_in_flight := polls_in_flight a; trace := trace a |}
  end.

(** [startPolling(deviceId, interval)]; reading the properties of an absent
    [connection_details] is a TypeError. *)
Definition startPolling (a : t) (deviceId : string) (interval : Z)
    : t * Completion :=
  let a1 := stopPolling a deviceId in
  match deviceMap a1 !! deviceId with
  | None => (a1, Normal)
  | Some device =>
      match connection_details device with
      | None => (a1, Throw "TypeError")
      | Some details =>
          let url :=
            default "undefined" (base_url details)
              ++ default "/data" (data_endpoint details) in
          let intervalId := timers_created a1 in
          ({| deviceMap := deviceMap a1;
              pollingIntervals := <[deviceId := intervalId]> (pollingIntervals a1);
              timers := <[intervalId := (deviceId, url)]> (timers a1);  (* setInterval *)
              timers_created := S intervalId;
              health_checks := health_checks a1;
              polls_in_flight := polls_in_flight a1; trace := trace a1 |},
           Normal)
      end
  end.

(** [registerDevice(device)] up to the return of the promise, which is
    settled by the response to the health request ([on_health]). *)
Definition registerDevice (a : t) (device : Device) : t * Outcome :=
  match connection_details device with
  | None => (a, Rejected "REST base URL not specified for device")
  | Some details =>
      if truthy_str (base_url details) then
        let a1 := set_deviceMap (<[device_id device := device]> (deviceMap a)) a in
        (set_health_checks (health_checks a1 ++ [device]) a1, Pending)
      else (a, Rejected "REST base URL not specified for device")
  end.

Definition truthy_interval (o : option Z) : bool :=
  match o with
  | Some n => negb (Z.eqb n 0)
  | None => false
  end.

(** The response to the [i]-th outstanding health request: the handlers of
    [testConnection] followed by those of [registerDevice].  The outcome is
    that of the promise of the registration it belongs to. *)
Definition on_health (a : t) (i : nat) (ok : bool) : t * Outcome :=
  match health_checks a !! i with
  | None => (a, Pending)
  | Some device =>
      let a1 := set_health_checks (delete i (health_checks a)) a in
      if ok then
        let a2 := log (ConnectionCallback "connected") a1 in
        match connection_details device with
        | None => (a2, Resolved)
        | Some details =>
            if truthy_interval (polling_interval details) then
              match startPolling a2 (device_id device)
                      (default 0%Z (polling_interval details)) with
              | (a3, Normal) => (a3, Resolved)
              | (a3, Throw e) => (a3, Rejected e)
              end
            else (a2, Resolved)
        end
      else (log (ConnectionCallback "error") a1, Rejected "health")
  end.

(** A tick of interval [intervalId]: its closure issues the GET request.
    An interval that was cleared never ticks. *)
Definition on_tick (a : t) (intervalId : nat) : t :=
  match timers a !! intervalId with
  | None => a
  | Some (deviceId, _) =>
      set_polls_in_flight (polls_in_flight a ++ [deviceId]) a
  end.

(** The response to the [i]-th outstanding poll: [Some data] is the body of
    a successful response, [None] a failed request. *)
Definition on_poll_response (a : t) (i : nat) (response : option value)
    (now now_created : Z) : t :=
  match polls_in_flight a !! i with
  | None => a
  | Some deviceId =>
      let a1 := set_polls_in_flight (delete i (polls_in_flight a)) a in
      match response with
      | None => a1
      | Some data =>
          let dataPoint :=
            DataPoint.new now now_created
              {| DataPoint.o_deviceId := VStr deviceId;
                 DataPoint.o_protocol := VStr "REST";
                 DataPoint.o_timestamp := VDate now;
                 DataPoint.o_parameters := data;
                 DataPoint.o_experimentId := VUndefined;
                 DataPoint.o_createdAt := VUndefined |} in
          log (DataCallback dataPoint) a1
      end
  end.

(** [disconnect(deviceId)]; the argument is [None] when it is omitted.  The
    method has no [return] statement: its value is [undefined], not a
    promise. *)
Definition disconnect (a : t) (deviceId : option string) : t :=
  if truthy_str deviceId then
    let id := default "" deviceId in
    let a1 := stopPolling a id in
    set_deviceMap (delete id (deviceMap a1)) a1
  else
    let a1 := foldl stopPolling a (elements (dom (pollingIntervals a))) in
    set_deviceMap ∅ a1.

(** What the outside world can do to the adapter between two calls. *)
Inductive Event : Type :=
| Tick (intervalId : nat)
| PollResponse (i : nat) (response : option value) (now now_created : Z)
| HealthResponse (i : nat) (ok : bool).

Definition step (a : t) (e : Event) : t :=
  match e with
  | Tick intervalId => on_tick a intervalId
  | PollResponse i response now now_created =>
      on_poll_response a i response now now_created
  | HealthResponse i ok => (on_health a i ok).1
  end.

(** Everything that can happen to the adapter: calls of its methods by the
    registry and events of the outside world. *)
Inductive Action : Type :=
| CallRegisterDevice (device : Device)
| CallDisconnect (deviceId : option string)
| CallStartPolling (deviceId : string) (interval : Z)
| CallStopPolling (deviceId : string)
| World (e : Event).

Definition act (a : t) (x : Action) : t :=
  match x with
  | CallRegisterDevice device => (registerDevice a device).1
  | CallDisconnect deviceId => disconnect a deviceId
  | CallStartPolling deviceId interval => (startPolling a deviceId interval).1
  | CallStopPolling deviceId => stopPolling a deviceId
  | World e => step a e
  end.

(** The state after a history of actions, from a fresh adapter. *)
Definition after (history : list Action) : t := foldl act new history.

(** Number of invocations of the inbound-data callback for a device. *)
Definition is_callback_for (deviceId : string) (e : Effect) : bool :=
  match e with
  | DataCallback p =>
      match DataPoint.deviceId p with
      | VStr d => String.eqb d deviceId
      | _ => false
      end
  | ConnectionCallback _ => false
  end.

Definition callbacks_for (deviceId : string) (a : t) : nat :=
  length (filter (fun e => is_callback_for deviceId e = true) (trace a)).

(** Number of unanswered polls of a device. *)
Definition in_flight_for (deviceId : string) (a : t) : nat :=
  length (filter (fun d => d = deviceId) (polls_in_flight a)).

(** Is some live interval polling this device? *)
Definition polled (deviceId : string) (a : t) : Prop :=
  exists intervalId url, timers a !! intervalId = Some (deviceId, url).

(** How a promise that carries a value settles. *)
Inductive Settled (A : Type) : Type :=
| Returns (v : A)
| Fails (message : string)
| NeverSettles.
Arguments Returns {A} v.
Arguments Fails {A} message.
Arguments NeverSettles {A}.

Definition settles {A : Type} (s : Settled A) : Outcome :=
  match s with
  | Returns _ => Resolved
  | Fails e => Rejected e
  | NeverSettles => Pending
  end.

(** A request handed to axios: method, URL, [Authorization] header and
    body. *)
Record Request : Type := mkRequest {
  r_method : string;
  r_url : string;
  r_authorization : option string;
  r_data : option value
}.

(** [headers['Authorization']], set when [auth_token] is truthy. *)
Definition authorization (details : ConnectionDetails) : option string :=
  if truthy_str (auth_token details)
  then Some ("Bearer " ++ default "" (auth_token details))
  else None.

(** The answer to a request: [Some (Some data)] is a response with body
    [data], [Some None] a failed request, [None] no answer at all. *)
Definition settle_with {A : Type} (reply : option (option value))
    (k : value -> A) : Settled A :=
  match reply with
  | Some (Some data) => Returns (k data)
  | Some None => Fails "request"
  | None => NeverSettles
  end.

(** [sendCommand(command)]: the request issued, if any, and the way the
    promise settles (with [response.data]).  No field of the adapter is
    written. *)
Definition sendCommand (a : t) (command : Command)
    (reply : option (option value)) : option Request * Settled value :=
  match deviceMap a !! c_device_id command with
  | None => (None, Fails "Device not found")
  | Some device =>
      match connection_details device with
      | None => (None, Fails "TypeError")
      | Some details =>
          (Some {| r_method := "POST";
                   r_url := default "undefined" (base_url details)
                              ++ default "/control" (control_endpoint details);
                   r_authorization := authorization details;
                   r_data := Some (command_message command) |},
           settle_with reply (fun data => data))
      end
  end.

(** [fetchData(deviceId)]: the request issued, if any, and the way the
    promise settles (with the data point built from [response.data]).  The
    data callback is not involved and no field of the adapter is written. *)
Definition fetchData (a : t) (deviceId : string)
    (reply : option (option value)) (now now_created : Z)
    : option Request * Settled DataPoint.t :=
  match deviceMap a !! deviceId with
  | None => (None, Fails "Device not found")
  | Some device =>
      match connection_details device with
      | None => (None, Fails "TypeError")
      | Some details =>
          (Some {| r_method := "GET";
                   r_url := default "undefined" (base_url details)
                              ++ default "/data" (data_endpoint details);
                   r_authorization := authorization details;
                   r_data := None |},
           settle_with reply
             (fun data =>
                DataPoint.new now now_created
                  {| DataPoint.o_deviceId := VStr deviceId;
                     DataPoint.o_protocol := VStr "REST";
                     DataPoint.o_timestamp := VDate now;
                     DataPoint.o_parameters := data;
                     DataPoint.o_experimentId := VUndefined;
                     DataPoint.o_createdAt := VUndefined |}))
      end
  end.

End RestAdapter.

(** ** AdapterManager (core/adapter-manager.js) *)

Module AdapterManager.
Import Js.

(** The three adapter classes behind [this.adapters]. *)
Inductive Adapter : Type :=
| Mqtt (a : MqttAdapter.t)
| WebSocket (a : WebSocketAdapter.t)
| Rest (a : RestAdapter.t).

Record t : Type := mk {
  adapters : list (string * Adapter);      (* protocol -> adapter *)
  deviceAdapterMap : gmap string string    (* device_id -> adapter type *)
}.

(** The options of the constructor that decide which adapters exist. *)
Record Options : Type := mkOptions {
  mqttOptions : option string;             (* its brokerUrl *)
  webSocketOptions : bool;
  restOptions : bool
}.

Definition initializeAdapters (options : Options) : list (string * Adapter) :=
  let m0 : list (string * Adapter) := [] in
  let m1 :=
    match mqttOptions options with
    | Some url => JsMap.set "MQTT" (Mqtt (MqttAdapter.new url)) m0
    | None => m0
    end in
  let m2 :=
    if webSocketOptions options
    then JsMap.set "WebSocket" (WebSocket WebSocketAdapter.new) m1 else m1 in
  if restOptions options
  then JsMap.set "REST" (Rest RestAdapter.new) m2 else m2.

Definition new (options : Options) : t :=
  {| adapters := initializeAdapters options; deviceAdapterMap := ∅ |}.

(** What the outside world does during one call of the registry. *)
Record World : Type := mkWorld {
  mqtt_connect : MqttAdapter.ConnectBehaviour;
  (* whether the broker accepts the new client, if it answers at all *)
  mqtt_broker : option bool;
  mqtt_subscribe : MqttAdapter.SubscribeBehaviour;
  mqtt_end : MqttAdapter.EndBehaviour;
  websocket_connect_throws : bool;
  websocket_close_throws : nat -> bool;
  (* the answer to the health request of a REST registration, if any *)
  rest_health : option bool
}.

(** [adapter.registerDevice(device)], awaited. *)
Definition adapter_registerDevice (adapter : Adapter) (device : Device)
    (w : World) : Adapter * Outcome :=
  match adapter with
  | Mqtt a =>
      let r := MqttAdapter.registerDevice a device (mqtt_subscribe w) in
      (Mqtt r.1, r.2)
  | WebSocket a =>
      let r := WebSocketAdapter.registerDevice a device (websocket_connect_throws w) in
      (WebSocket r.1, r.2)
  | Rest a =>
      match RestAdapter.registerDevice a device with
      | (a1, Pending) =>
          match rest_health w with
          | Some ok =>
              let r := RestAdapter.on_health a1
                         (length (RestAdapter.health_checks a)) ok in
              (Rest r.1, r.2)
          | None => (Rest a1, Pending)
          end
      | (a1, settled) => (Rest a1, settled)
      end
  end.

(** [registerDevice(device)]. *)
Definition registerDevice (m : t) (device : Device) (w : World)
    : t * Outcome :=
  if truthy_str (protocol device) then
    let protocol := default "" (protocol device) in
    match JsMap.get protocol (adapters m) with
    | None => (m, Rejected "No adapter available for protocol")
    | Some adapter =>
        let r := adapter_registerDevice adapter device w in
        let adapters1 := JsMap.set protocol r.1 (adapters m) in
        match r.2 with
        | Resolved =>
            ({| adapters := adapters1;
                deviceAdapterMap :=
                  <[device_id device := protocol]> (deviceAdapterMap m) |},
             Resolved)
        | unsettled =>
            ({| adapters := adapters1;
                deviceAdapterMap := deviceAdapterMap m |}, unsettled)
        end
    end
  else (m, Rejected "Protocol not specified for device").

(** The value of the expression [adapter.disconnect()]. *)
Inductive Returned : Type :=
| ReturnsPromise (o : Outcome)
| ReturnsUndefined.

Definition adapter_disconnect (adapter : Adapter) (w : World)
    : Adapter * Returned :=
  match adapter with
  | Mqtt a =>
      let r := MqttAdapter.disconnect a (mqtt_end w) in
      (Mqtt r.1, ReturnsPromise r.2)
  | WebSocket a =>
      let r := WebSocketAdapter.disconnect a None (websocket_close_throws w) in
      (WebSocket r.1, ReturnsPromise r.2)
  | Rest a => (Rest (RestAdapter.disconnect a None), ReturnsUndefined)
  end.

(** [value.catch(err => { ...; return Promise.resolve(); })]: a promise
    that resolves once the first one settles, or a TypeError when the
    value has no [catch] property to call. *)
Definition catch (value : Returned) : Outcome + string :=
  match value with
  | ReturnsPromise Pending => inl Pending
  | ReturnsPromise _ => inl Resolved
  | ReturnsUndefined => inr "TypeError"
  end.

(** The [for] loop of [disconnect()] over the entries of [this.adapters]:
    the adapters as they are left, and the promises collected or the
    exception that ended the loop. *)
Fixpoint disconnect_loop (entries : list (string * Adapter)) (w : World)
    : list (string * Adapter) * (list Outcome + string) :=
  match entries with
  | [] => ([], inl [])
  | (protocol, adapter) :: rest =>
      let r := adapter_disconnect adapter w in
      match catch r.2 with
      | inr e => ((protocol, r.1) :: rest, inr e)
      | inl promise =>
          let k := disconnect_loop rest w in
          ((protocol, r.1) :: k.1,
           match k.2 with
           | inl promises => inl (promise :: promises)
           | inr e => inr e
           end)
      end
  end.

(** [Promise.all] of promises that never reject. *)
Definition all_resolved (promises : list Outcome) : bool :=
  forallb (fun o => match o with Resolved => true | _ => false end) promises.

(** [disconnect()]. *)
Definition disconnect (m : t) (w : World) : t * Outcome :=
  let k := disconnect_loop (adapters m) w in
  match k.2 with
  | inr e => ({| adapters := k.1; deviceAdapterMap := deviceAdapterMap m |},
              Rejected e)
  | inl promises =>
      if all_resolved promises then
        ({| adapters := k.1; deviceAdapterMap := ∅ |}, Resolved)
      else
        ({| adapters := k.1; deviceAdapterMap := deviceAdapterMap m |}, Pending)
  end.

(** [adapter.connect()], followed to the event that settles its promise;
    [None] when the adapter has no [connect] property. *)
Definition adapter_connect (adapter : Adapter) (w : World)
    : option (Adapter * Outcome) :=
  match adapter with
  | Mqtt a =>
      match MqttAdapter.connect a (mqtt_connect w) with
      | (a1, Pending) =>
          match mqtt_broker w with
          | Some true =>
              let r := MqttAdapter.on_connect a1 in Some (Mqtt r.1, r.2)
          | Some false =>
              let r := MqttAdapter.on_error a1 "error" in Some (Mqtt r.1, r.2)
          | None => Some (Mqtt a1, Pending)
          end
      | (a1, settled) => Some (Mqtt a1, settled)
      end
  | WebSocket _ | Rest _ => None
  end.

(** The [for] loop of [connect()]: each promise is given a [catch] handler
    that resolves. *)
Fixpoint connect_loop (entries : list (string * Adapter)) (w : World)
    : list (string * Adapter) * list Outcome :=
  match entries with
  | [] => ([], [])
  | (protocol, adapter) :: rest =>
      let k := connect_loop rest w in
      match adapter_connect adapter w with
      | None => ((protocol, adapter) :: k.1, k.2)
      | Some (adapter1, Pending) => ((protocol, adapter1) :: k.1, Pending :: k.2)
      | Some (adapter1, _) => ((protocol, adapter1) :: k.1, Resolved :: k.2)
      end
  end.

(** [connect()]. *)
Definition connect (m : t) (w : World) : t * Outcome :=
  let k := connect_loop (adapters m) w in
  ({| adapters := k.1; deviceAdapterMap := deviceAdapterMap m |},
   if all_resolved k.2 then Resolved else Pending).

(** Does the adapter's own device map hold this device? *)
Definition binds (adapter : Adapter) (deviceId : string) : bool :=
  match adapter with
  | Mqtt a => bool_decide (is_Some (MqttAdapter.deviceMap a !! deviceId))
  | WebSocket a => JsMap.has deviceId (WebSocketAdapter.deviceMap a)
  | Rest a => bool_decide (is_Some (RestAdapter.deviceMap a !! deviceId))
  end.

(** Is the device bound in the adapter stored under [protocol]? *)
Definition bound_in (m : t) (protocol deviceId : string) : bool :=
  match JsMap.get protocol (adapters m) with
  | Some adapter => binds adapter deviceId
  | None => false
  end.

(** Only the MQTT adapter class has a [connect] method. *)
Definition has_connect (adapter : Adapter) : bool :=
  match adapter with
  | Mqtt _ => true
  | WebSocket _ | Rest _ => false
  end.

Definition is_rest (adapter : Adapter) : bool :=
  match adapter with
  | Rest _ => true
  | _ => false
  end.

(** What the outside world does during one [sendCommand] of the registry. *)
Record CommandWorld : Type := mkCommandWorld {
  mqtt_publish : MqttAdapter.PublishBehaviour;
  websocket_send_throws : bool;
  rest_reply : option (option value)
}.

Section Commands.
Variable JSON_stringify : value -> string.

(** [adapter.sendCommand(command)]. *)
Definition adapter_sendCommand (adapter : Adapter) (command : Command)
    (w : CommandWorld) : Adapter * Outcome :=
  match adapter with
  | Mqtt a =>
      let r := MqttAdapter.sendCommand JSON_stringify a command (mqtt_publish w) in
      (Mqtt r.1, r.2)
  | WebSocket a =>
      let r := WebSocketAdapter.sendCommand JSON_stringify a command
                 (websocket_send_throws w) in
      (WebSocket r.1, r.2)
  | Rest a =>
      (Rest a,
       RestAdapter.settles (RestAdapter.sendCommand a command (rest_reply w)).2)
  end.

(** [sendCommand(command)]. *)
Definition sendCommand (m : t) (command : Command) (w : CommandWorld)
    : t * Outcome :=
  if truthy_str (deviceAdapterMap m !! c_device_id command) then
    let protocol := default "" (deviceAdapterMap m !! c_device_id command) in
    match JsMap.get protocol (adapters m) with
    | None => (m, Rejected "No adapter available for protocol")
    | Some adapter =>
        let r := adapter_sendCommand adapter command w in
        ({| adapters := JsMap.set protocol r.1 (adapters m);
            deviceAdapterMap := deviceAdapterMap m |}, r.2)
    end
  else (m, Rejected "Device not registered").

End Commands.

(** [fetchData(deviceId)]: only the REST adapter class has a [fetchData]
    method. *)
Definition fetchData (m : t) (deviceId : string)
    (reply : option (option value)) (now now_created : Z)
    : RestAdapter.Settled DataPoint.t :=
  if truthy_str (deviceAdapterMap m !! deviceId) then
    match JsMap.get (default "" (deviceAdapterMap m !! deviceId)) (adapters m) with
    | Some (Rest a) => (RestAdapter.fetchData a deviceId reply now now_created).2
    | _ => RestAdapter.Fails "Fetch not supported for protocol"
    end
  else RestAdapter.Fails "Device not registered".

End AdapterManager.

(** ** Histories of the bus adapter

    Everything that can happen to an [MqttAdapter]: calls of its methods and
    events of its clients.  A subscribe callback that the library defers is
    kept, with the topic and device id its closure captured, until the
    library runs it. *)

Module MqttHistory.
Import Js.

Inductive Action : Type :=
| CallConnect (lib : MqttAdapter.ConnectBehaviour)
| ClientConnect
| ClientError (message : string)
| ClientMessage (topic payload : string) (now now_created : Z)
| CallRegisterDevice (device : Device) (lib : MqttAdapter.SubscribeBehaviour)
| SubscribeCallback (i : nat) (err : bool)
| CallSendCommand (command : Command) (lib : MqttAdapter.PublishBehaviour)
| CallDisconnect (lib : MqttAdapter.EndBehaviour).

Record t : Type := mk {
  adapter : MqttAdapter.t;
  deferred : list (string * string)      (* dataTopic, device_id *)
}.

(** The topic handed to [client.subscribe] between two states, if any. *)
Definition subscribed_topic (before after : MqttAdapter.t) : option string :=
  match drop (length (MqttAdapter.trace before)) (MqttAdapter.trace after) with
  | MqttAdapter.LibSubscribe _ topic :: _ => Some topic
  | _ => None
  end.

Section Run.
Variable JSON_parse : string -> option value.
Variable JSON_stringify : value -> string.
Variable callback_throws : DataPoint.t -> bool.

Definition act (s : t) (x : Action) : t :=
  let a := adapter s in
  match x with
  | CallConnect lib =>
      {| adapter := (MqttAdapter.connect a lib).1; deferred := deferred s |}
  | ClientConnect =>
      {| adapter := (MqttAdapter.on_connect a).1; deferred := deferred s |}
  | ClientError message =>
      {| adapter := (MqttAdapter.on_error a message).1; deferred := deferred s |}
  | ClientMessage topic payload now now_created =>
      {| adapter := (MqttAdapter.on_message JSON_parse callback_throws a topic
                       payload now now_created).1;
         deferred := deferred s |}
  | CallRegisterDevice device lib =>
      let a1 := (MqttAdapter.registerDevice a device lib).1 in
      {| adapter := a1;
         deferred :=
           match lib, subscribed_topic a a1 with
           | MqttAdapter.SubscribeDefers, Some topic =>
               deferred s ++ [(topic, device_id device)]
           | _, _ => deferred s
           end |}
  | SubscribeCallback i err =>
      match deferred s !! i with
      | None => s
      | Some (topic, deviceId) =>
          {| adapter := MqttAdapter.subscribe_callback a topic deviceId err;
             deferred := delete i (deferred s) |}
      end
  | CallSendCommand command lib =>
      {| adapter := (MqttAdapter.sendCommand JSON_stringify a command lib).1;
         deferred := deferred s |}
  | CallDisconnect lib =>
      {| adapter := (MqttAdapter.disconnect a lib).1; deferred := deferred s |}
  end.

(** The state after a history, from a fresh adapter for [brokerUrl]. *)
Definition after (brokerUrl : string) (history : list Action) : t :=
  foldl act {| adapter := MqttAdapter.new brokerUrl; deferred := [] |} history.

End Run.
End MqttHistory.

(** ** Histories of a stream adapter *)

Module WebSocketHistory.
Import Js WebSocketAdapter.

(** Everything that can happen to the adapter: calls of its methods and
    events of the websocket library.  Connections are named by their rank,
    as in the trace. *)
Inductive Action : Type :=
| CallRegisterDevice (device : Device) (connect_throws : bool)
| ClientConnect
| ConnectionMessage (connection : nat) (message : Message)
    (now now_created : Z)
| CallSendCommand (command : Command) (send_throws : bool)
| CallDisconnect (deviceId : option string) (close_throws : nat -> bool).

Section Run.
Variable JSON_parse : string -> option value.
Variable JSON_stringify : value -> string.
Variable callback_throws : DataPoint.t -> bool.
(** What [connection.url] reads on the connection object of each rank. *)
Variable url_of : nat -> option string.

Definition act (a : t) (x : Action) : t :=
  match x with
  | CallRegisterDevice device connect_throws =>
      (registerDevice a device connect_throws).1
  | ClientConnect => on_connect a (url_of (connections_made a))
  | ConnectionMessage connection message now now_created =>
      (on_message JSON_parse callback_throws a (url_of connection) message
         now now_created).1
  | CallSendCommand command send_throws =>
      (sendCommand JSON_stringify a command send_throws).1
  | CallDisconnect deviceId close_throws =>
      (disconnect a deviceId close_throws).1
  end.

(** The state after a history of actions, from a fresh adapter. *)
Definition after (history : list Action) : t := foldl act new history.

End Run.
End WebSocketHistory.

(** ** Results of synchronous code *)

Inductive Result (A : Type) : Type :=
| Ok (v : A)
| Throws (message : string).
Arguments Ok {A} v.
Arguments Throws {A} message.

(** ** AuthService (auth/auth-service.js) *)

Module AuthService.
Import Js.

Record KeyData : Type := mkKeyData {
  permissions : value;
  createdAt : Z
}.

Record Grant : Type := mkGrant {
  allowedApiKeys : list string;
  updatedAt : Z
}.

Record t : Type := mk {
  apiKeys : gmap string KeyData;
  devicePermissions : gmap string Grant
}.

Definition new : t := {| apiKeys := ∅; devicePermissions := ∅ |}.

(** [registerApiKey(apiKey, permissions = {})]. *)
Definition registerApiKey (s : t) (apiKey : string) (perms : value) (now : Z)
    : t :=
  {| apiKeys :=
       <[apiKey := {| permissions :=
                        match perms with VUndefined => VObj [] | _ => perms end;
                      createdAt := now |}]> (apiKeys s);
     devicePermissions := devicePermissions s |}.

(** [validateApiKey(apiKey)]; the key of a request may be [undefined]. *)
Definition validateApiKey (s : t) (apiKey : option string) : bool :=
  match apiKey with
  | Some k => bool_decide (is_Some (apiKeys s !! k))
  | None => false
  end.

Definition getApiKeyPermissions (s : t) (apiKey : option string)
    : Result value :=
  match apiKey ≫= (fun k => apiKeys s !! k) with
  | Some keyData => Ok (permissions keyData)
  | None => Throws "Invalid API key"
  end.

(** [registerDevicePermissions(deviceId, allowedApiKeys = [])]. *)
Definition registerDevicePermissions (s : t) (deviceId : string)
    (allowed : option (list string)) (now : Z) : t :=
  {| apiKeys := apiKeys s;
     devicePermissions :=
       <[deviceId := {| allowedApiKeys := default [] allowed;
                        updatedAt := now |}]> (devicePermissions s) |}.

Definition canAccessDevice (s : t) (apiKey : option string)
    (deviceId : string) : bool :=
  if validateApiKey s apiKey then
    match devicePermissions s !! deviceId with
    | None => false
    | Some devicePerms =>
        match apiKey with
        | Some k => bool_decide (k ∈ allowedApiKeys devicePerms)
        | None => false
        end
    end
  else false.

Definition authorizeDeviceAccess (s : t) (apiKey : option string)
    (deviceId : string) : Result unit :=
  if canAccessDevice s apiKey deviceId then Ok tt
  else Throws ("Not authorized to access device: " ++ deviceId).

(** What a middleware does with a request. *)
Inductive Handled : Type :=
| Next
| NextError (message : string)
| Responded (status : nat) (error : string).

(** The middleware of [apiKeyAuthMiddleware()], on the value of the
    environment variable [API_KEY_ENABLED] and the [x-api-key] header. *)
Definition apiKeyAuthMiddleware (API_KEY_ENABLED x_api_key : option string)
    : Handled :=
  if negb (truthy_str API_KEY_ENABLED)
     || bool_decide (API_KEY_ENABLED = Some "false")
  then Next
  else if truthy_str x_api_key then Next
  else Responded 401 "API key is required".

(** The parts of a request that [deviceAuthMiddleware] reads: [req.apiKey],
    [req.params.deviceId], and [req.body] ([None] when there is no body)
    with its [device_id]. *)
Record Request : Type := mkRequest {
  req_apiKey : option string;
  params_deviceId : option string;
  body : option (option string)
}.

Definition deviceAuthMiddleware (s : t) (req : Request) : Handled :=
  let named :=
    if truthy_str (params_deviceId req) then Ok (params_deviceId req)
    else match body req with
         | None => Throws "TypeError"
         | Some device_id => Ok device_id
         end in
  match named with
  | Throws e => NextError e
  | Ok deviceId =>
      if truthy_str deviceId then
        match authorizeDeviceAccess s (req_apiKey req) (default "" deviceId) with
        | Ok _ => Next
        | Throws e => NextError e
        end
      else Next
  end.

(** The calls that change the service. *)
Inductive Call : Type :=
| RegisterApiKey (apiKey : string) (perms : value) (now : Z)
| RegisterDevicePermissions (deviceId : string)
    (allowed : option (list string)) (now : Z).

Definition call (s : t) (c : Call) : t :=
  match c with
  | RegisterApiKey apiKey perms now => registerApiKey s apiKey perms now
  | RegisterDevicePermissions deviceId allowed now =>
      registerDevicePermissions s deviceId allowed now
  end.

End AuthService.

(** ** Device (models/device.js) *)

Module DeviceModel.
Import Js.

Record Options : Type := mkOptions {
  o_deviceId : value;
  o_protocol : value;
  o_connectionDetails : value;
  o_metadata : value;
  o_status : value;
  o_lastSeen : value;
  o_createdAt : value;
  o_updatedAt : value
}.

Record t : Type := mk {
  deviceId : value;
  protocol : value;
  connectionDetails : value;
  metadata : value;
  status : value;
  lastSeen : value;
  createdAt : value;
  updatedAt : value
}.

(** [constructor(options)]; [n1], [n2], [n3] are the readings of the clock
    for the three [new Date()] expressions. *)
Definition new (n1 n2 n3 : Z) (options : Options) : t :=
  {| deviceId := o_deviceId options;
     protocol := o_protocol options;
     connectionDetails := or_else (o_connectionDetails options) (VObj []);
     metadata := or_else (o_metadata options) (VObj []);
     status := or_else (o_status options) (VStr "offline");
     lastSeen := or_else (o_lastSeen options) (VDate n1);
     createdAt := or_else (o_createdAt options) (VDate n2);
     updatedAt := or_else (o_updatedAt options) (VDate n3) |}.

Record DbObject : Type := mkDb {
  db_device_id : value;
  db_protocol : value;
  db_connection_details : value;
  db_metadata : value;
  db_status : value;
  db_last_seen : value;
  db_created_at : value;
  db_updated_at : value
}.

Definition toDatabase (d : t) : DbObject :=
  {| db_device_id := deviceId d;
     db_protocol := protocol d;
     db_connection_details := connectionDetails d;
     db_metadata := metadata d;
     db_status := status d;
     db_last_seen := lastSeen d;
     db_created_at := createdAt d;
     db_updated_at := updatedAt d |}.

Definition fromDatabase (n1 n2 n3 : Z) (dbObject : DbObject) : t :=
  new n1 n2 n3
    {| o_deviceId := db_device_id dbObject;
       o_protocol := db_protocol dbObject;
       o_connectionDetails := db_connection_details dbObject;
       o_metadata := db_metadata dbObject;
       o_status := db_status dbObject;
       o_lastSeen := db_last_seen dbObject;
       o_createdAt := db_created_at dbObject;
       o_updatedAt := db_updated_at dbObject |}.

(** [updateStatus(status)]. *)
Definition updateStatus (d : t) (newStatus : value) (n1 n2 : Z) : t :=
  {| deviceId := deviceId d;
     protocol := protocol d;
     connectionDetails := connectionDetails d;
     metadata := metadata d;
     status := newStatus;
     lastSeen := VDate n1;
     createdAt := createdAt d;
     updatedAt := VDate n2 |}.

End DeviceModel.

(** ** Device (the device model with capabilities and parameters) *)

Module LabDevice.
Import Js.

(** The object given to the constructor.  Only the first eight properties
    are destructured; [status] and [last_seen] are ignored. *)
Record Options : Type := mkOptions {
  o_device_id : value;
  o_device_type : value;
  o_category : value;
  o_capabilities : value;
  o_parameters : value;
  o_protocol : value;
  o_connection_details : value;
  o_metadata : value;
  o_status : value;
  o_last_seen : value
}.

Record t : Type := mk {
  device_id : value;
  device_type : value;
  category : value;
  capabilities : value;
  parameters : value;
  protocol : value;
  connection_details : value;
  metadata : value;
  status : value;
  last_seen : value
}.

Definition new (options : Options) : t :=
  {| device_id := o_device_id options;
     device_type := o_device_type options;
     category := o_category options;
     capabilities := or_else (o_capabilities options) (VArr []);
     parameters := or_else (o_parameters options) (VObj []);
     protocol := o_protocol options;
     connection_details := o_connection_details options;
     metadata := or_else (o_metadata options) (VObj []);
     status := VStr "disconnected";
     last_seen := VNull |}.

(** [toDatabase()]: an object with the same ten properties. *)
Definition toDatabase (d : t) : Options :=
  {| o_device_id := device_id d;
     o_device_type := device_type d;
     o_category := category d;
     o_capabilities := capabilities d;
     o_parameters := parameters d;
     o_protocol := protocol d;
     o_connection_details := connection_details d;
     o_metadata := metadata d;
     o_status := status d;
     o_last_seen := last_seen d |}.

Definition fromDatabase (dbObject : Options) : t :=
  new {| o_device_id := o_device_id dbObject;
         o_device_type := o_device_type dbObject;
         o_category := o_category dbObject;
         o_capabilities := o_capabilities dbObject;
         o_parameters := o_parameters dbObject;
         o_protocol := o_protocol dbObject;
         o_connection_details := o_connection_details dbObject;
         o_metadata := o_metadata dbObject;
         o_status := o_status dbObject;
         o_last_seen := o_last_seen dbObject |}.

(** [updateStatus(status)]; [now_iso] is the string that
    [new Date().toISOString()] returns. *)
Definition updateStatus (d : t) (newStatus : value) (now_iso : string) : t :=
  {| device_id := device_id d;
     device_type := device_type d;
     category := category d;
     capabilities := capabilities d;
     parameters := parameters d;
     protocol := protocol d;
     connection_details := connection_details d;
     metadata := metadata d;
     status := newStatus;
     last_seen := VStr now_iso |}.

End LabDevice.

(** ** DeviceService (services/device-service.js, in-memory version)

    The methods below do not use the adapter manager that the constructor
    creates; the state is the two maps [devices] and [deviceData].  Objects
    are lists of properties; the id of a device is a string. *)

Module DeviceService.
Import Js.

(** [{ ...base, ...extra }] on property lists. *)
Definition spread (base extra : list (string * value)) : list (string * value) :=
  foldl (fun acc kv => JsMap.set kv.1 kv.2 acc) base extra.

(** An object with a [device_id] and other own properties. *)
Record Tagged : Type := mkTagged {
  tag_device_id : string;
  tag_fields : list (string * value)
}.

Definition own_properties (o : Tagged) : list (string * value) :=
  ("device_id", VStr (tag_device_id o)) :: tag_fields o.

Record t : Type := mk {
  devices : gmap string (list (string * value));
  deviceData : gmap string (list value)
}.

Definition new : t := {| devices := ∅; deviceData := ∅ |}.

(** [registerDevice(deviceInfo)]. *)
Definition registerDevice (s : t) (deviceInfo : Tagged) (now : Z)
    : t * Result (list (string * value)) :=
  match devices s !! tag_device_id deviceInfo with
  | Some _ => (s, Throws "ValidationError")
  | None =>
      let device :=
        spread [("deviceId", VStr (tag_device_id deviceInfo));
                ("protocol", DataPoint.assoc "protocol" (tag_fields deviceInfo));
                ("status", VStr "registered");
                ("lastSeen", VDate now)]
               (own_properties deviceInfo) in
      ({| devices := <[tag_device_id deviceInfo := device]> (devices s);
          deviceData := deviceData s |}, Ok device)
  end.

Definition getDevice (s : t) (deviceId : string)
    : Result (list (string * value)) :=
  match devices s !! deviceId with
  | Some device => Ok device
  | None => Throws "DeviceNotFoundError"
  end.

Definition updateDeviceStatus (s : t) (deviceId : string) (status : value)
    (now : Z) : t * Result (list (string * value)) :=
  match getDevice s deviceId with
  | Throws e => (s, Throws e)
  | Ok device =>
      let device1 := JsMap.set "lastSeen" (VDate now)
                       (JsMap.set "status" status device) in
      ({| devices := <[deviceId := device1]> (devices s);
          deviceData := deviceData s |}, Ok device1)
  end.

(** [points.push(point); if (points.length > 1000) points.shift()]. *)
Definition push_bounded (points : list value) (point : value) : list value :=
  let points1 := (points ++ [point])%list in
  if Nat.ltb 1000 (length points1) then drop 1 points1 else points1.

Section Stamps.
(** [new Date(v)], the Date built from a stored timestamp. *)
Variable Date_of : value -> value.

Definition stamped (properties : list (string * value)) : value :=
  VObj (JsMap.set "timestamp"
          (Date_of (DataPoint.assoc "timestamp" properties)) properties).

(** [processData(dataPoint)]. *)
Definition processData (s : t) (dataPoint : Tagged) (now : Z)
    : t * Result Tagged :=
  match updateDeviceStatus s (tag_device_id dataPoint) (VStr "online") now with
  | (s1, Throws e) => (s1, Throws e)
  | (s1, Ok _) =>
      let points := default [] (deviceData s1 !! tag_device_id dataPoint) in
      ({| devices := devices s1;
          deviceData :=
            <[tag_device_id dataPoint :=
                push_bounded points (stamped (own_properties dataPoint))]>
              (deviceData s1) |}, Ok dataPoint)
  end.

(** The own properties of a [DataPoint] instance. *)
Definition instance_properties (p : DataPoint.t) : list (string * value) :=
  [("deviceId", DataPoint.deviceId p);
   ("protocol", DataPoint.protocol p);
   ("timestamp", DataPoint.timestamp p);
   ("parameters", DataPoint.parameters p);
   ("experimentId", DataPoint.experimentId p);
   ("createdAt", DataPoint.createdAt p)].

(** A key of the string-keyed maps, from a value. *)
Definition key_of (v : value) : option string :=
  match v with
  | VStr k => Some k
  | _ => None
  end.

(** [handleDeviceData(dataPoint)], the inbound-data callback.  The result
    of [this.deviceData.get(...) || []] is discarded, and the devices stored
    by [registerDevice] are plain objects without an [updateStatus]
    method. *)
Definition handleDeviceData (s : t) (dataPoint : DataPoint.t)
    : t * Result unit :=
  let key := key_of (DataPoint.deviceId dataPoint) in
  match key ≫= (fun k => deviceData s !! k) with
  | None => (s, Throws "TypeError")
  | Some points =>
      let s1 :=
        {| devices := devices s;
           deviceData :=
             <[default "" key :=
                 push_bounded points (stamped (instance_properties dataPoint))]>
               (deviceData s) |} in
      match key ≫= (fun k => devices s1 !! k) with
      | Some _ => (s1, Throws "TypeError")
      | None => (s1, Ok tt)
      end
  end.

End Stamps.

(** [data.slice(-limit)] for an integer [limit]. *)
Definition slice_last (limit : Z) (data : list value) : list value :=
  let len := Z.of_nat (length data) in
  let start := (- limit)%Z in
  let from := if (start <? 0)%Z then Z.max (len + start) 0 else Z.min start len in
  drop (Z.to_nat from) data.

(** [getDeviceData(deviceId, limit = 100)]. *)
Definition getDeviceData (s : t) (deviceId : string) (limit : option Z)
    : Result (list value) :=
  match getDevice s deviceId with
  | Throws e => Throws e
  | Ok _ =>
      Ok (slice_last (default 100%Z limit)
            (default [] (deviceData s !! deviceId)))
  end.

(** The calls that change the service. *)
Inductive Call : Type :=
| RegisterDevice (deviceInfo : Tagged) (now : Z)
| UpdateDeviceStatus (deviceId : string) (status : value) (now : Z)
| ProcessData (dataPoint : Tagged) (now : Z)
| HandleDeviceData (dataPoint : DataPoint.t).

Definition call (Date_of : value -> value) (s : t) (c : Call) : t :=
  match c with
  | RegisterDevice deviceInfo now => (registerDevice s deviceInfo now).1
  | UpdateDeviceStatus deviceId status now =>
      (updateDeviceStatus s deviceId status now).1
  | ProcessData dataPoint now => (processData Date_of s dataPoint now).1
  | HandleDeviceData dataPoint => (handleDeviceData Date_of s dataPoint).1
  end.

(** The service after a history of calls, from its construction. *)
Definition after (Date_of : value -> value) (history : list Call) : t :=
  foldl (call Date_of) new history.

End DeviceService.

(** * Properties *)

(** ** Facts about values and insertion-ordered maps *)

Module JsFacts.
Import Js.

Lemma or_else_truthy a b : truthy b = true -> truthy (or_else a b) = true.
Proof. unfold or_else. destruct (truthy a) eqn:E; auto. Qed.

Lemma or_else_idem a b c :
  truthy b = true -> or_else (or_else a b) c = or_else a b.
Proof.
  intros Hb. unfold or_else at 1. now rewrite (or_else_truthy a b Hb).
Qed.

Lemma truthy_str_Some s : truthy_str (Some s) = true <-> s <> "".
Proof.
  simpl. destruct (String.eqb_spec s ""); simpl; split; congruence.
Qed.

End JsFacts.

Module JsMapFacts.
Import JsMap.
Section Facts.
Context {V : Type}.
Implicit Types (m : list (string * V)) (k : string) (v : V).

Lemma get_set_eq k v m : get k (set k v m) = Some v.
Proof.
  induction m as [|[k' v'] rest IH]; simpl.
  - now rewrite String.eqb_refl.
  - destruct (String.eqb k' k) eqn:E; simpl.
    + now rewrite String.eqb_refl.
    + now rewrite E.
Qed.

Lemma get_set_ne k k' v m : k <> k' -> get k' (set k v m) = get k' m.
Proof.
  intros Hne. induction m as [|[k0 v0] rest IH]; simpl.
  - destruct (String.eqb_spec k k'); congruence.
  - destruct (String.eqb_spec k0 k) as [->|Hk]; simpl.
    + destruct (String.eqb_spec k k'); congruence.
    + now rewrite IH.
Qed.

Lemma has_set_eq k v m : has k (set k v m) = true.
Proof. unfold has. now rewrite get_set_eq. Qed.

Lemma has_set_ne k k' v m : k <> k' -> has k' (set k v m) = has k' m.
Proof. intros Hne. unfold has. now rewrite get_set_ne. Qed.

End Facts.
End JsMapFacts.

(** ** DataPoint *)

Module DataPointProps.
Import Js DataPoint.

Example round_trip_defaults :
  fromDatabase 7 8
    (toDatabase (new 1 2 (mkOptions (VStr "d") (VStr "MQTT") VUndefined
                            VUndefined (VStr "") VUndefined)))
  = mk (VStr "d") (VStr "MQTT") (VDate 1) (VObj []) VNull (VDate 2).
Proof. reflexivity. Qed.

(** C10.  Whatever options a data point is constructed from, and whatever the
    clock reads at the two constructions, writing it in database format and
    reading it back gives a data point with the same [deviceId], [protocol],
    [timestamp], [parameters], [experimentId] and [createdAt]. *)
Theorem database_round_trip (options : Options) (t1 t2 t3 t4 : Z) :
  let p := new t1 t2 options in
  let q := fromDatabase t3 t4 (toDatabase p) in
  deviceId q = deviceId p /\ protocol q = protocol p /\
  timestamp q = timestamp p /\ parameters q = parameters p /\
  experimentId q = experimentId p /\ createdAt q = createdAt p.
Proof.
  cbn -[or_else]. repeat split; try (apply JsFacts.or_else_idem; reflexivity).
  unfold or_else at 1. destruct (truthy (o_experimentId options)) eqn:E.
  - unfold or_else. now rewrite !E.
  - unfold or_else. rewrite E. reflexivity.
Qed.

End DataPointProps.

(** ** Sample data of the specification's scenarios *)

Module Samples.
Import Js.

(** The parsed payload [{ temperature: 20.5 }]. *)
Definition temperature_reading : value :=
  VObj [("temperature", VNum (Q2Qc (41 # 2)))].

(** The command envelope
    [{ device_id: tc-100, command: setTemperature, parameters: { target: 40.0 } }]
    and the body expected on the control topic. *)
Definition set_temperature : Command :=
  mkCommand "tc-100" (VStr "setTemperature")
    (VObj [("target", VNum (Q2Qc (40 # 1)))]).

Definition set_temperature_body : value :=
  VObj [("command", VStr "setTemperature");
        ("parameters", VObj [("target", VNum (Q2Qc (40 # 1)))])].

Definition no_details : ConnectionDetails :=
  mkDetails None None None None None None None None None.

Definition mqtt_details (dataTopic controlTopic : option string)
    : ConnectionDetails :=
  mkDetails (Some (mkTopics dataTopic controlTopic))
    None None None None None None None None.

Definition websocket_details (url : string) : ConnectionDetails :=
  mkDetails None (Some url) None None None None None None None.

Definition rest_details (url : string) (interval : option Z)
    : ConnectionDetails :=
  mkDetails None None None (Some url) None None None None interval.

Definition dev1 : Device :=
  mkDevice "dev-1" (Some "MQTT")
    (Some (mqtt_details (Some "lab/dev-1/data") (Some "lab/dev-1/control"))).

Definition tc100 : Device :=
  mkDevice "tc-100" (Some "MQTT")
    (Some (mqtt_details (Some "lab/tc-100/data") (Some "lab/tc-100/control"))).

Definition pump1 : Device :=
  mkDevice "pump-1" (Some "REST")
    (Some (rest_details "http://x/api" (Some 1000%Z))).

(** A bus adapter that connected to its broker and registered [device], the
    broker having acknowledged the subscription. *)
Definition connected_with (device : Device) : MqttAdapter.t :=
  let a0 := (MqttAdapter.connect (MqttAdapter.new "mqtt://localhost:1883")
               MqttAdapter.ConnectReturns).1 in
  let a1 := (MqttAdapter.on_connect a0).1 in
  (MqttAdapter.registerDevice a1 device (MqttAdapter.SubscribeCallsBack false)).1.

(** Stand-ins for [JSON.parse] and [JSON.stringify] on the texts of the
    scenarios. *)
Definition parse_sample (text : string) : option value :=
  if String.eqb text "temperature=20.5" then Some temperature_reading
  else if String.eqb text "setTemperature(target=40)" then Some set_temperature_body
  else None.

Definition stringify_sample (v : value) : string :=
  match v with
  | VObj (("command", VStr "setTemperature") :: _) => "setTemperature(target=40)"
  | _ => "temperature=20.5"
  end.

End Samples.

(** ** MqttAdapter *)

Module MqttProps.
Import Js MqttAdapter Samples.

(** The device an inbound topic resolves to, if any: the topic is subscribed
    for a device id that is not empty and that is in the device map. *)
Definition resolves (a : t) (topic : string) : option string :=
  match subscriptions a !! topic with
  | None => None
  | Some deviceId =>
      if String.eqb deviceId "" then None
      else match deviceMap a !! deviceId with
           | Some _ => Some deviceId
           | None => None
           end
  end.

(** The data point the handler builds for a device and a parsed payload. *)
Definition data_point (deviceId : string) (messageObj : value)
    (now now_created : Z) : DataPoint.t :=
  DataPoint.mk (VStr deviceId) (VStr "MQTT") (VDate now)
    (or_else messageObj (VObj [])) VNull (VDate now_created).


Example connected_with_dev1_resolves :
  resolves (connected_with dev1) "lab/dev-1/data" = Some "dev-1".
Proof. vm_compute. reflexivity. Qed.

Lemma bus_message_dropped JSON_parse callback_throws a topic payload now now_created :
  JSON_parse payload = None \/ resolves a topic = None ->
  on_message JSON_parse callback_throws a topic payload now now_created
  = (a, Normal).
Proof.
  unfold on_message, try_catch, message_body, resolves.
  intros [Hparse | Hres].
  - destruct (subscriptions a !! topic) as [d|]; [|reflexivity].
    destruct (String.eqb d ""); [reflexivity|].
    destruct (deviceMap a !! d); [|reflexivity].
    now rewrite Hparse.
  - destruct (subscriptions a !! topic) as [d|]; [|reflexivity].
    destruct (String.eqb d ""); [reflexivity|].
    destruct (deviceMap a !! d); [discriminate|reflexivity].
Qed.

Lemma bus_message_delivered JSON_parse callback_throws a topic payload
    now now_created deviceId messageObj :
  resolves a topic = Some deviceId ->
  JSON_parse payload = Some messageObj ->
  on_message JSON_parse callback_throws a topic payload now now_created
  = (log (DataCallback (data_point deviceId messageObj now now_created)) a,
     Normal).
Proof.
  unfold on_message, try_catch, message_body, resolves.
  intros Hres Hparse.
  destruct (subscriptions a !! topic) as [d|]; [|discriminate].
  destruct (String.eqb d ""); [discriminate|].
  destruct (deviceMap a !! d); [|discriminate].
  injection Hres as ->. rewrite Hparse. reflexivity.
Qed.

(** C4, as the code has it.  When a message whose payload parses to
    [{ temperature: 20.5 }] arrives on a topic that resolves to device
    [dev-1], the handler invokes the inbound-data callback exactly once, and
    the data point it passes renders in the consumer format with
    [parameters.temperature = 20.5], [device_id = dev-1] and
    [protocol = MQTT], the name the code gives the bus transport. *)
Theorem bus_message_standard_format
    (JSON_parse : string -> option value)
    (callback_throws : DataPoint.t -> bool)
    (a : t) (topic payload : string) (now now_created : Z) :
  resolves a topic = Some "dev-1" ->
  JSON_parse payload = Some temperature_reading ->
  exists p sf,
    (on_message JSON_parse callback_throws a topic payload now now_created).1
      = log (DataCallback p) a /\
    DataPoint.toStandardFormat p = Some sf /\
    DataPoint.sf_parameters sf = DataPoint.parameters p /\
    DataPoint.getParameter p "temperature" = VNum (Q2Qc (41 # 2)) /\
    DataPoint.sf_device_id sf = VStr "dev-1" /\
    DataPoint.sf_protocol sf = VStr "MQTT" /\
    DataPoint.sf_timestamp sf = now.
Proof.
  intros Hres Hparse.
  rewrite (bus_message_delivered _ _ _ _ _ _ _ _ _ Hres Hparse).
  eexists. eexists. split; [reflexivity|]. split; [reflexivity|].
  repeat split.
Qed.

Lemma bus_message_standard_format_witness :
  exists p sf,
    (on_message parse_sample (fun _ => false) (connected_with dev1)
       "lab/dev-1/data" "temperature=20.5" 1000 1001).1
      = log (DataCallback p) (connected_with dev1) /\
    DataPoint.toStandardFormat p = Some sf /\
    DataPoint.sf_parameters sf = DataPoint.parameters p /\
    DataPoint.getParameter p "temperature" = VNum (Q2Qc (41 # 2)) /\
    DataPoint.sf_device_id sf = VStr "dev-1" /\
    DataPoint.sf_protocol sf = VStr "MQTT" /\
    DataPoint.sf_timestamp sf = 1000%Z.
Proof.
  apply (bus_message_standard_format parse_sample (fun _ => false)
           (connected_with dev1) "lab/dev-1/data" "temperature=20.5" 1000 1001).
  - vm_compute. reflexivity.
  - reflexivity.
Defined.

(** C4 as the specification words it fails: for the message of the scenario
    the one data point delivered renders with [device_id = dev-1] and the
    protocol [MQTT], which is not [bus]. *)
Lemma bus_message_protocol_is_not_bus :
  exists p sf,
    delivered
      (trace (on_message parse_sample (fun _ => false) (connected_with dev1)
                "lab/dev-1/data" "temperature=20.5" 1000 1001).1)
      = [p] /\
    DataPoint.toStandardFormat p = Some sf /\
    DataPoint.sf_device_id sf = VStr "dev-1" /\
    DataPoint.sf_protocol sf = VStr "MQTT" /\
    DataPoint.sf_protocol sf <> VStr "bus".
Proof.
  eexists. eexists. split; [vm_compute; reflexivity|].
  split; [reflexivity|]. repeat split. discriminate.
Qed.

Lemma registerDevice_binds a device lib a' :
  registerDevice a device lib = (a', Resolved) ->
  deviceMap a' !! device_id device = Some device /\ client a' = client a.
Proof.
  unfold registerDevice.
  destruct (connection_details device) as [details|]; [|discriminate].
  destruct (mqtt_topics details) as [topics|]; [|discriminate].
  destruct (data topics) as [dataTopic|].
  - destruct (String.eqb dataTopic "").
    + intros [= <-]. simpl. now rewrite lookup_insert_eq.
    + destruct (client a) as [c|] eqn:Hc; [|discriminate].
      destruct lib as [|[|]|]; try discriminate;
        intros [= <-]; simpl; now rewrite lookup_insert_eq.
  - intros [= <-]. simpl. now rewrite lookup_insert_eq.
Qed.

Example sendCommand_sample :
  published
    (trace (sendCommand stringify_sample (connected_with tc100) set_temperature
              (PublishCallsBack false)).1)
  = [(0, "lab/tc-100/control", "setTemperature(target=40)")].
Proof. vm_compute. reflexivity. Qed.





(** A second [connect()] on the adapter of the samples: a second client is
    created and takes the place of the first, which is never ended. *)
Example connect_twice_sample :
  let a1 := (connect (new "mqtt://localhost:1883") ConnectReturns).1 in
  let a2 := (connect a1 ConnectReturns).1 in
  client a1 = Some 0 /\ client a2 = Some 1 /\
  trace a2 = [LibConnect 0 "mqtt://localhost:1883";
              LibConnect 1 "mqtt://localhost:1883"].
Proof. repeat split. Qed.

(** C9 as the specification words it fails: on a connected bus adapter a
    second [connect()] is not a no-op; the state differs and the client has
    been replaced. *)
Lemma connect_twice_replaces_client :
  let a1 := (on_connect
               (connect (new "mqtt://localhost:1883") ConnectReturns).1).1 in
  (connect a1 ConnectReturns).1 <> a1 /\
  client (connect a1 ConnectReturns).1 <> client a1.
Proof. split; intros H; discriminate H. Qed.

(** C9, as the code has it.  [connect()] has no guard: called on a bus
    adapter that already holds a client (one created by an earlier
    [connect()]), it leaves the subscriptions and the device map as they
    are, and either [mqtt.connect] throws, the promise rejects and the
    adapter is unchanged, or a new client is created and stored in place of
    the previous one, which is not ended; the call then fails only if the
    new client reports an error.  The two other adapter classes have no
    [connect] method. *)
Theorem connect_again_replaces_client (a : t) (c : nat) (lib : ConnectBehaviour) :
  client a = Some c ->
  c < clients_created a ->
  subscriptions (connect a lib).1 = subscriptions a /\
  deviceMap (connect a lib).1 = deviceMap a /\
  match lib with
  | ConnectThrows => connect a lib = (a, Rejected "mqtt.connect")
  | ConnectReturns =>
      exists c',
        c' <> c /\
        client (connect a lib).1 = Some c' /\
        trace (connect a lib).1
          = (trace a ++ [LibConnect c' (brokerUrl a)])%list /\
        (connect a lib).2 = Pending
  end /\
  (forall w r, AdapterManager.has_connect (AdapterManager.WebSocket w) = false /\
               AdapterManager.has_connect (AdapterManager.Rest r) = false).
Proof.
  intros Hc Hlt. destruct lib; simpl.
  - repeat split. exists (clients_created a). repeat split. lia.
  - repeat split.
Qed.

Lemma connect_again_replaces_client_witness :
  let a1 := (on_connect
               (connect (new "mqtt://localhost:1883") ConnectReturns).1).1 in
  exists c',
    c' <> 0 /\
    client (connect a1 ConnectReturns).1 = Some c' /\
    trace (connect a1 ConnectReturns).1
      = (trace a1 ++ [LibConnect c' "mqtt://localhost:1883"])%list /\
    (connect a1 ConnectReturns).2 = Pending.
Proof.
  intros a1.
  apply (connect_again_replaces_client a1 0 ConnectReturns); [reflexivity|].
  simpl. lia.
Defined.

End MqttProps.

(** ** WebSocketAdapter *)

Module WebSocketProps.
Import Js WebSocketAdapter Samples.

Definition stream1 : Device :=
  mkDevice "scope-1" (Some "WebSocket") (Some (websocket_details "ws://lab:8080")).

Definition stream2 : Device :=
  mkDevice "scope-2" (Some "WebSocket") (Some (websocket_details "ws://lab:8080")).

(** The endpoint a device names, when it can be registered at all. *)
Definition endpoint_of (device : Device) : option string :=
  details ← connection_details device;
  url ← websocket_url details;
  if String.eqb url "" then None else Some url.

(** The device a connection resolves to, if any, [url] being what
    [connection.url] reads. *)
Definition resolves (a : t) (url : option string) : option string :=
  match findDeviceIdByUrl a url with
  | Some (Some deviceId) => if String.eqb deviceId "" then None else Some deviceId
  | _ => None
  end.

Lemma registerDevice_connects a device url :
  endpoint_of device = Some url ->
  connections (registerDevice a device false).1 = connections a /\
  connects (trace (registerDevice a device false).1)
  = (connects (trace a)
     ++ (if UrlMap.has (Some url) (connections a) then [] else [url]))%list.
Proof.
  unfold endpoint_of, registerDevice. intros H.
  destruct (connection_details device) as [details|]; simpl in H; [|discriminate].
  destruct (websocket_url details) as [u|]; simpl in H; [|discriminate].
  destruct (String.eqb u ""); [discriminate|]. injection H as ->.
  cbn [connections set_deviceMap].
  destruct (UrlMap.has (Some url) (connections a)); simpl.
  - split; [reflexivity|]. now rewrite app_nil_r.
  - split; [reflexivity|]. unfold connects. now rewrite omap_app.
Qed.

(** Two registrations for one endpoint with no ['connect'] event in between:
    the connection of the first is not in [connections] yet, and the second
    dials again. *)
Lemma registrations_in_sequence_connect_twice a d1 d2 url :
  endpoint_of d1 = Some url ->
  endpoint_of d2 = Some url ->
  UrlMap.has (Some url) (connections a) = false ->
  connects (trace (registerDevice (registerDevice a d1 false).1 d2 false).1)
  = (connects (trace a) ++ [url; url])%list.
Proof.
  intros H1 H2 Hfree.
  destruct (registerDevice_connects a d1 url H1) as [Hc1 Ht1].
  destruct (registerDevice_connects (registerDevice a d1 false).1 d2 url H2)
    as [_ Ht2].
  rewrite Ht2, Hc1, Ht1, Hfree. now rewrite <- app_assoc.
Qed.

Lemma on_connect_stores a url :
  UrlMap.has url (connections (on_connect a url)) = true /\
  connects (trace (on_connect a url)) = connects (trace a).
Proof.
  assert (Hset : forall (m : list (option string * nat)) c,
             UrlMap.get url (UrlMap.set url c m) = Some c).
  { assert (Hsame : UrlMap.same url url = true).
    { destruct url as [u|]; simpl; [apply String.eqb_refl | reflexivity]. }
    intros m c. induction m as [|[k v] m IH]; simpl.
    - now rewrite Hsame.
    - destruct (UrlMap.same k url) eqn:E; simpl; [now rewrite Hsame|].
      now rewrite E. }
  unfold on_connect, log, connects. simpl. split.
  - unfold UrlMap.has. now rewrite Hset.
  - rewrite omap_app. simpl. apply app_nil_r.
Qed.

Lemma has_after_unkeyed_connect (m : list (option string * nat)) c url :
  UrlMap.has (Some url) (UrlMap.set None c m) = UrlMap.has (Some url) m.
Proof.
  unfold UrlMap.has. induction m as [|[k v] m IH]; simpl; [reflexivity|].
  destruct k as [u|]; simpl.
  - now destruct (String.eqb u url).
  - reflexivity.
Qed.

(** The pooling check after the ['connect'] event of the first registration:
    the handler has stored the connection under [connection.url], and on a
    connection object without a [url] property that key is [undefined], not
    the endpoint; the check of the second registration still finds nothing
    under the endpoint, and the second registration dials again. *)
Lemma registration_after_connect_event_dials_again a d1 d2 url :
  endpoint_of d1 = Some url ->
  endpoint_of d2 = Some url ->
  UrlMap.has (Some url) (connections a) = false ->
  connects
    (trace (registerDevice (on_connect (registerDevice a d1 false).1 None) d2
              false).1)
  = (connects (trace a) ++ [url; url])%list.
Proof.
  intros H1 H2 Hfree.
  destruct (registerDevice_connects a d1 url H1) as [Hc1 Ht1].
  destruct (registerDevice_connects
              (on_connect (registerDevice a d1 false).1 None) d2 url H2)
    as [_ Ht2].
  destruct (on_connect_stores (registerDevice a d1 false).1 None) as [_ Ht].
  rewrite Ht2, Ht, Ht1, Hfree.
  change (connections (on_connect (registerDevice a d1 false).1 None))
    with (UrlMap.set None (connections_made (registerDevice a d1 false).1)
            (connections (registerDevice a d1 false).1)).
  rewrite has_after_unkeyed_connect, Hc1, Hfree. now rewrite <- app_assoc.
Qed.

(** C6, at the input where the code departs from it.  Two devices that name
    the same endpoint are registered one after the other on a fresh stream
    adapter; both registrations resolve, and [client.connect] has been called
    twice for that endpoint. *)
Theorem shared_endpoint_dialled_twice :
  (registerDevice new stream1 false).2 = Resolved /\
  (registerDevice (registerDevice new stream1 false).1 stream2 false).2
    = Resolved /\
  connects
    (trace (registerDevice (registerDevice new stream1 false).1 stream2 false).1)
  = ["ws://lab:8080"; "ws://lab:8080"].
Proof. repeat split. Qed.

Lemma stream_message_dropped JSON_parse callback_throws a url utf8Data now now_created :
  JSON_parse utf8Data = None \/ resolves a url = None ->
  on_message JSON_parse callback_throws a url (Utf8 utf8Data) now now_created
  = (a, Normal).
Proof.
  unfold on_message, try_catch, message_body, resolves.
  intros [Hparse | Hres].
  - now rewrite Hparse.
  - destruct (JSON_parse utf8Data); [|reflexivity].
    destruct (findDeviceIdByUrl a url) as [[d|]|]; try reflexivity.
    destruct (String.eqb d ""); [reflexivity|discriminate].
Qed.

End WebSocketProps.

(** ** Inbound messages on the push transports *)

Module InboundProps.
Import Js Samples.

(** A stream adapter on which [scope-1] is registered and whose client has
    delivered the connection to the endpoint of [scope-1]; the connection
    object has no [url] property. *)
Definition stream_with_scope1 : WebSocketAdapter.t :=
  WebSocketAdapter.on_connect
    (WebSocketAdapter.registerDevice WebSocketAdapter.new
       WebSocketProps.stream1 false).1
    None.

Example malformed_then_well_formed_sample :
  let r1 := MqttAdapter.on_message parse_sample (fun _ => true)
              (connected_with dev1) "lab/dev-1/data" "{oops" 1 2 in
  let r2 := MqttAdapter.on_message parse_sample (fun _ => true)
              r1.1 "lab/dev-1/data" "temperature=20.5" 3 4 in
  r1 = (connected_with dev1, Normal) /\
  r2.2 = Normal /\
  MqttAdapter.delivered (MqttAdapter.trace r2.1)
  = [MqttProps.data_point "dev-1" temperature_reading 3 4].
Proof. vm_compute. repeat split. Qed.

(** The bus adapter does what C8 says: a message whose payload does not
    parse, or whose topic resolves to no registered device, leaves the
    handler without an exception and with the adapter exactly as it was; and
    a well-formed message for a registered device that comes next is
    translated and handed to the callback once, again without an exception,
    even if the callback itself throws. *)
Lemma bus_malformed_then_next_delivered
    (JSON_parse : string -> option value)
    (callback_throws : DataPoint.t -> bool)
    (a : MqttAdapter.t) (topic payload topic' payload' deviceId : string)
    (messageObj : value) (t1 t2 t3 t4 : Z) :
  JSON_parse payload = None \/ MqttProps.resolves a topic = None ->
  MqttProps.resolves a topic' = Some deviceId ->
  JSON_parse payload' = Some messageObj ->
  MqttAdapter.on_message JSON_parse callback_throws a topic payload t1 t2
    = (a, Normal) /\
  MqttAdapter.on_message JSON_parse callback_throws
    (MqttAdapter.on_message JSON_parse callback_throws a topic payload t1 t2).1
    topic' payload' t3 t4
  = (MqttAdapter.log
       (MqttAdapter.DataCallback
          (MqttProps.data_point deviceId messageObj t3 t4)) a, Normal).
Proof.
  intros Hbad Hres Hgood.
  rewrite (MqttProps.bus_message_dropped _ callback_throws _ _ _ t1 t2 Hbad).
  cbn [fst].
  rewrite (MqttProps.bus_message_delivered _ callback_throws _ _ _ t3 t4 _ _
             Hres Hgood).
  split; reflexivity.
Qed.

(** On the stream adapter, whatever [connection.url] reads, a message that
    does not parse leaves the handler without an exception and the adapter
    exactly as it was. *)
Lemma stream_malformed_dropped
    (JSON_parse : string -> option value)
    (callback_throws : DataPoint.t -> bool)
    (w : WebSocketAdapter.t) (url : option string) (utf8Data : string)
    (t1 t2 : Z) :
  JSON_parse utf8Data = None ->
  WebSocketAdapter.on_message JSON_parse callback_throws w url
    (WebSocketAdapter.Utf8 utf8Data) t1 t2 = (w, Normal).
Proof.
  intros Hbad. apply WebSocketProps.stream_message_dropped. now left.
Qed.

(** C8, at the input where the code departs from it.  On a stream adapter
    [scope-1] is registered and the client has delivered its connection, an
    object without a [url] property as the websocket library makes them, so
    that the ['connect'] handler has stored it under [undefined].  A message
    that does not parse is dropped without an exception and leaves the
    adapter as it was; the well-formed message that comes next on the same
    connection is dropped as well: [findDeviceIdByUrl(connection.url)] finds
    no device, and nothing is handed to the inbound-data callback. *)
Theorem well_formed_stream_message_not_delivered :
  JsMap.get "scope-1" (WebSocketAdapter.deviceMap stream_with_scope1)
    = Some WebSocketProps.stream1 /\
  WebSocketAdapter.connections stream_with_scope1 = [(None, 0)] /\
  parse_sample "{oops" = None /\
  parse_sample "temperature=20.5" = Some temperature_reading /\
  WebSocketAdapter.on_message parse_sample (fun _ => false) stream_with_scope1
    None (WebSocketAdapter.Utf8 "{oops") 1 2
  = (stream_with_scope1, Normal) /\
  WebSocketAdapter.findDeviceIdByUrl stream_with_scope1 None = Some None /\
  WebSocketAdapter.on_message parse_sample (fun _ => false)
    (WebSocketAdapter.on_message parse_sample (fun _ => false)
       stream_with_scope1 None (WebSocketAdapter.Utf8 "{oops") 1 2).1
    None (WebSocketAdapter.Utf8 "temperature=20.5") 3 4
  = (stream_with_scope1, Normal) /\
  WebSocketAdapter.delivered (WebSocketAdapter.trace stream_with_scope1) = [].
Proof. vm_compute. repeat split. Qed.

End InboundProps.

(** ** RestAdapter: the device map *)

Module RestMapProps.
Import Js RestAdapter.

Lemma stopPolling_deviceMap a deviceId :
  deviceMap (stopPolling a deviceId) = deviceMap a.
Proof. unfold stopPolling. now destruct (pollingIntervals a !! deviceId). Qed.

Lemma startPolling_deviceMap a deviceId interval :
  deviceMap (startPolling a deviceId interval).1 = deviceMap a.
Proof.
  unfold startPolling.
  destruct (deviceMap (stopPolling a deviceId) !! deviceId) as [device|];
    [|apply stopPolling_deviceMap].
  destruct (connection_details device); simpl; apply stopPolling_deviceMap.
Qed.

Lemma on_health_deviceMap a i ok :
  deviceMap (on_health a i ok).1 = deviceMap a.
Proof.
  unfold on_health. destruct (health_checks a !! i) as [device|]; [|reflexivity].
  destruct ok; [|reflexivity].
  destruct (connection_details device) as [details|]; [|reflexivity].
  destruct (truthy_interval (polling_interval details)); [|reflexivity].
  match goal with
  | |- context [startPolling ?s ?d ?n] =>
      pose proof (startPolling_deviceMap s d n) as H;
      destruct (startPolling s d n) as [a3 [|e]]
  end; exact H.
Qed.

Lemma registerDevice_pending a device a1 :
  registerDevice a device = (a1, Pending) ->
  deviceMap a1 = <[device_id device := device]> (deviceMap a).
Proof.
  unfold registerDevice.
  destruct (connection_details device) as [details|]; [|discriminate].
  destruct (truthy_str (base_url details)); [|discriminate].
  now intros [= <-].
Qed.

End RestMapProps.

(** ** AdapterManager *)

Module ManagerProps.
Import Js AdapterManager Samples.

(** The outcome of the adapter-level registration that [registerDevice]
    delegates to, when it gets that far. *)
Definition adapter_level (m : t) (device : Device) (w : World)
    : option Outcome :=
  if truthy_str (protocol device) then
    adapter ← JsMap.get (default "" (protocol device)) (adapters m);
    Some (adapter_registerDevice adapter device w).2
  else None.

Definition all_adapters : Options :=
  mkOptions (Some "mqtt://localhost:1883") true true.

(** A world in which every library call succeeds and every peer answers. *)
Definition fair : World :=
  mkWorld MqttAdapter.ConnectReturns (Some true)
    (MqttAdapter.SubscribeCallsBack false) MqttAdapter.EndCallsBack
    false (fun _ => false) (Some true).

Lemma registerDevice_result m device w :
  registerDevice m device w
  = match adapter_level m device w with
    | Some Resolved =>
        ({| adapters :=
              JsMap.set (default "" (protocol device))
                (default (Rest RestAdapter.new)
                   (adapter ← JsMap.get (default "" (protocol device)) (adapters m);
                    Some (adapter_registerDevice adapter device w).1))
                (adapters m);
            deviceAdapterMap :=
              <[device_id device := default "" (protocol device)]>
                (deviceAdapterMap m) |}, Resolved)
    | Some unsettled =>
        ({| adapters :=
              JsMap.set (default "" (protocol device))
                (default (Rest RestAdapter.new)
                   (adapter ← JsMap.get (default "" (protocol device)) (adapters m);
                    Some (adapter_registerDevice adapter device w).1))
                (adapters m);
            deviceAdapterMap := deviceAdapterMap m |}, unsettled)
    | None =>
        (m, if truthy_str (protocol device)
            then Rejected "No adapter available for protocol"
            else Rejected "Protocol not specified for device")
    end.
Proof.
  unfold registerDevice, adapter_level.
  destruct (truthy_str (protocol device)); [|reflexivity].
  destruct (JsMap.get (default "" (protocol device)) (adapters m)) as [adapter|];
    [|reflexivity].
  simpl. destruct (adapter_registerDevice adapter device w).2; reflexivity.
Qed.

Example failed_registration_sample :
  let m := new all_adapters in
  let r := registerDevice m (mkDevice "d" (Some "MQTT") (Some no_details)) fair in
  r.2 = Rejected "MQTT topics not specified for device" /\
  deviceAdapterMap r.1 = ∅.
Proof. split; reflexivity. Qed.

(** C2.  If [registerDevice] of the registry does not succeed, because the
    protocol is missing, because no adapter is bound to it, or because the
    adapter-level registration it delegates to does not resolve, the routing
    table is left exactly as it was: an entry is only ever written after the
    adapter-level registration has succeeded. *)
Theorem failed_registration_adds_no_route (m : t) (device : Device) (w : World) :
  (registerDevice m device w).2 <> Resolved \/
  adapter_level m device w <> Some Resolved ->
  deviceAdapterMap (registerDevice m device w).1 = deviceAdapterMap m.
Proof.
  rewrite registerDevice_result.
  destruct (adapter_level m device w) as [[| e |]|]; simpl;
    intros [H | H]; try reflexivity; congruence.
Qed.

Lemma failed_registration_adds_no_route_witness :
  deviceAdapterMap
    (registerDevice (new all_adapters)
       (mkDevice "d" (Some "MQTT") (Some no_details)) fair).1
  = deviceAdapterMap (new all_adapters).
Proof.
  apply (failed_registration_adds_no_route (new all_adapters)
           (mkDevice "d" (Some "MQTT") (Some no_details)) fair).
  left. discriminate.
Defined.

Lemma adapter_registerDevice_binds adapter device w :
  (adapter_registerDevice adapter device w).2 = Resolved ->
  binds (adapter_registerDevice adapter device w).1 (device_id device) = true.
Proof.
  destruct adapter as [a|a|a]; simpl.
  - destruct (MqttAdapter.registerDevice a device (mqtt_subscribe w))
      as [a' o] eqn:E. simpl. intros ->.
    apply MqttProps.registerDevice_binds in E as [E _].
    apply bool_decide_eq_true. now rewrite E.
  - unfold WebSocketAdapter.registerDevice.
    destruct (connection_details device) as [details|]; [|discriminate].
    destruct (websocket_url details) as [url|]; [|discriminate].
    destruct (String.eqb url ""); [discriminate|].
    destruct (UrlMap.has (Some url) _); simpl.
    + intros _. apply JsMapFacts.has_set_eq.
    + destruct (websocket_connect_throws w); [discriminate|].
      intros _. apply JsMapFacts.has_set_eq.
  - destruct (RestAdapter.registerDevice a device) as [a1 o] eqn:E.
    pose proof (RestMapProps.registerDevice_pending a device a1) as Hp.
    destruct o; simpl.
    + unfold RestAdapter.registerDevice in E.
      destruct (connection_details device) as [details|]; [|discriminate].
      destruct (truthy_str (base_url details)); discriminate.
    + discriminate.
    + specialize (Hp E).
      destruct (rest_health w) as [ok|]; simpl; [|discriminate].
      intros _. apply bool_decide_eq_true.
      rewrite RestMapProps.on_health_deviceMap, Hp, lookup_insert_eq. eauto.
Qed.

Definition dev1_on_stream : Device :=
  mkDevice "dev-1" (Some "WebSocket") (Some (websocket_details "ws://lab:8080")).

(** C3 as the specification words it fails: [dev-1] is registered on the bus
    and then again on the stream transport; the second registration is
    accepted and the device is bound in both adapters. *)
Lemma reregistration_binds_in_two_adapters :
  (registerDevice (connect (new all_adapters) fair).1 dev1 fair).2 = Resolved /\
  (registerDevice
     (registerDevice (connect (new all_adapters) fair).1 dev1 fair).1
     dev1_on_stream fair).2 = Resolved /\
  bound_in
    (registerDevice
       (registerDevice (connect (new all_adapters) fair).1 dev1 fair).1
       dev1_on_stream fair).1 "MQTT" "dev-1" = true /\
  bound_in
    (registerDevice
       (registerDevice (connect (new all_adapters) fair).1 dev1 fair).1
       dev1_on_stream fair).1 "WebSocket" "dev-1" = true.
Proof. vm_compute. repeat split. Qed.

(** C3, as the code has it.  [registerDevice] of the registry never looks at
    the routing table before it writes it.  For a device id routed to one
    protocol, a registration under another protocol that succeeds at the
    adapter level is accepted: the routing entry of the device now names the
    new protocol, the new adapter binds the device, and the adapter of the
    previous protocol is left untouched, so that it still binds the device
    if it did. *)
Theorem reregistration_keeps_old_binding
    (m : t) (device : Device) (w : World) (old new : string) :
  deviceAdapterMap m !! device_id device = Some old ->
  protocol device = Some new ->
  new <> old ->
  (registerDevice m device w).2 = Resolved ->
  deviceAdapterMap (registerDevice m device w).1 !! device_id device
    = Some new /\
  bound_in (registerDevice m device w).1 new (device_id device) = true /\
  JsMap.get old (adapters (registerDevice m device w).1)
    = JsMap.get old (adapters m) /\
  bound_in (registerDevice m device w).1 old (device_id device)
    = bound_in m old (device_id device).
Proof.
  intros Hold Hnew Hne. rewrite registerDevice_result.
  unfold adapter_level. rewrite Hnew.
  change (default "" (Some new)) with new.
  destruct (truthy_str (Some new)); [|discriminate].
  destruct (JsMap.get new (adapters m)) as [adapter|] eqn:Hget;
    simpl; [|discriminate].
  destruct (adapter_registerDevice adapter device w).2 eqn:Hout;
    simpl; try discriminate.
  intros _. unfold bound_in. simpl.
  rewrite lookup_insert_eq, JsMapFacts.get_set_eq.
  rewrite (JsMapFacts.get_set_ne new old) by assumption.
  repeat split. now apply adapter_registerDevice_binds.
Qed.

Lemma reregistration_keeps_old_binding_witness :
  bound_in
    (registerDevice
       (registerDevice (connect (new all_adapters) fair).1 dev1 fair).1
       dev1_on_stream fair).1 "MQTT" "dev-1"
  = bound_in (registerDevice (connect (new all_adapters) fair).1 dev1 fair).1
      "MQTT" "dev-1".
Proof.
  apply (reregistration_keeps_old_binding
           (registerDevice (connect (new all_adapters) fair).1 dev1 fair).1
           dev1_on_stream fair "MQTT" "WebSocket").
  - vm_compute. reflexivity.
  - reflexivity.
  - discriminate.
  - vm_compute. reflexivity.
Defined.

(** The loop of [disconnect()] stops with a TypeError at the REST adapter,
    whose [disconnect] returns no promise. *)
Lemma disconnect_loop_rest entries w :
  Exists (fun e => is_rest e.2 = true) entries ->
  (disconnect_loop entries w).2 = inr "TypeError".
Proof.
  induction 1 as [[p adapter] rest Hr | [p adapter] rest _ IH]; simpl in *.
  - destruct adapter; try discriminate. reflexivity.
  - destruct (catch (adapter_disconnect adapter w).2) as [o|e] eqn:E.
    + simpl. now rewrite IH.
    + simpl. destruct adapter; simpl in E.
      * now destruct (MqttAdapter.disconnect a (mqtt_end w)).2.
      * now destruct (WebSocketAdapter.disconnect a None _).2.
      * now injection E as <-.
Qed.

(** With a REST adapter among the adapters, [disconnect()] rejects and the
    routing table is not cleared. *)
Lemma disconnect_with_rest m w :
  Exists (fun e => is_rest e.2 = true) (adapters m) ->
  (disconnect m w).2 = Rejected "TypeError" /\
  deviceAdapterMap (disconnect m w).1 = deviceAdapterMap m.
Proof.
  intros H. unfold disconnect. now rewrite (disconnect_loop_rest _ w H).
Qed.

Lemma disconnect_loop_promises entries w :
  Forall (fun e => is_rest e.2 = false) entries ->
  exists promises, (disconnect_loop entries w).2 = inl promises.
Proof.
  induction 1 as [|[p adapter] rest Hr _ [promises IH]]; simpl in *.
  - now exists [].
  - destruct adapter as [a|a|a]; try discriminate; simpl.
    + destruct (MqttAdapter.disconnect a (mqtt_end w)).2; simpl;
        rewrite IH; eauto.
    + destruct (WebSocketAdapter.disconnect a None _).2; simpl;
        rewrite IH; eauto.
Qed.

(** The sibling path: with bus and stream adapters only, every
    [adapter.disconnect()] is a promise with a [catch] handler, and once
    [disconnect()] resolves the routing table is empty, whether or not the
    individual promises rejected. *)
Lemma disconnect_without_rest m w :
  Forall (fun e => is_rest e.2 = false) (adapters m) ->
  (disconnect m w).2 <> Rejected "TypeError" /\
  ((disconnect m w).2 = Resolved -> deviceAdapterMap (disconnect m w).1 = ∅).
Proof.
  intros H. unfold disconnect.
  destruct (disconnect_loop_promises _ w H) as [promises ->].
  destruct (all_resolved promises); simpl; split; congruence.
Qed.

(** The registry as the entry point builds it, after [connect()] and the
    registration of one polled device. *)
Definition gateway_with_pump1 : t :=
  (registerDevice (connect (new all_adapters) fair).1 pump1 fair).1.

(** C1, at the input where the code departs from it.  The registry has its
    three adapters and routes [pump-1]; every library call succeeds.
    [disconnect()] rejects with the TypeError raised by calling [catch] on
    the [undefined] that the REST adapter's [disconnect] returns, and the
    routing table still routes [pump-1]. *)
Theorem disconnect_leaves_routes :
  deviceAdapterMap gateway_with_pump1 !! "pump-1" = Some "REST" /\
  (disconnect gateway_with_pump1 fair).2 = Rejected "TypeError" /\
  deviceAdapterMap (disconnect gateway_with_pump1 fair).1 !! "pump-1"
    = Some "REST".
Proof. vm_compute. repeat split. Qed.

End ManagerProps.

(** ** RestAdapter: polling and disconnection *)

Module RestProps.
Import Js RestAdapter Samples.

(** Every live interval is the one recorded for its device, and interval
    ids are never reused. *)
Record wf (a : t) : Prop := mk_wf {
  wf_recorded : forall intervalId deviceId url,
    timers a !! intervalId = Some (deviceId, url) ->
    pollingIntervals a !! deviceId = Some intervalId;
  wf_fresh : forall intervalId,
    timers_created a <= intervalId -> timers a !! intervalId = None
}.

(** A device the adapter has let go of: it is neither known nor polled. *)
Record quiet (deviceId : string) (a : t) : Prop := mk_quiet {
  quiet_wf : wf a;
  quiet_unknown : deviceMap a !! deviceId = None;
  quiet_unpolled : pollingIntervals a !! deviceId = None
}.

Lemma quiet_not_polled deviceId a : quiet deviceId a -> ~ polled deviceId a.
Proof.
  intros [Hwf _ Hnone] (i & url & Ht).
  apply (wf_recorded _ Hwf) in Ht. congruence.
Qed.

Lemma wf_new : wf new.
Proof. split; intros; simpl in *; [done | apply lookup_empty]. Qed.

Lemma stopPolling_lookup a x d :
  pollingIntervals (stopPolling a x) !! d
  = if decide (x = d) then None else pollingIntervals a !! d.
Proof.
  unfold stopPolling.
  destruct (pollingIntervals a !! x) as [i|] eqn:E; simpl.
  - case_decide as Hx.
    + subst. apply lookup_delete_eq.
    + now apply lookup_delete_ne.
  - case_decide as Hx; [now subst | reflexivity].
Qed.

Lemma stopPolling_frame a x :
  deviceMap (stopPolling a x) = deviceMap a /\
  trace (stopPolling a x) = trace a /\
  polls_in_flight (stopPolling a x) = polls_in_flight a /\
  health_checks (stopPolling a x) = health_checks a /\
  timers_created (stopPolling a x) = timers_created a.
Proof. unfold stopPolling. now destruct (pollingIntervals a !! x). Qed.

Lemma stopPolling_wf a x : wf a -> wf (stopPolling a x).
Proof.
  intros [Hrec Hfresh]. unfold stopPolling.
  destruct (pollingIntervals a !! x) as [i|] eqn:E; [|now split].
  split; simpl.
  - intros j d url Hj.
    destruct (decide (i = j)) as [->|Hij];
      [now rewrite lookup_delete_eq in Hj|].
    rewrite lookup_delete_ne in Hj by assumption.
    pose proof (Hrec _ _ _ Hj) as Hd.
    destruct (decide (x = d)) as [->|Hxd]; [congruence|].
    now rewrite lookup_delete_ne.
  - intros j Hj. destruct (decide (i = j)) as [->|Hij].
    + apply lookup_delete_eq.
    + rewrite lookup_delete_ne by assumption. now apply Hfresh.
Qed.

Lemma startPolling_frame a x n :
  deviceMap (startPolling a x n).1 = deviceMap a /\
  trace (startPolling a x n).1 = trace a /\
  polls_in_flight (startPolling a x n).1 = polls_in_flight a /\
  health_checks (startPolling a x n).1 = health_checks a.
Proof.
  unfold startPolling.
  destruct (stopPolling_frame a x) as (Hd & Ht & Hp & Hh & _).
  destruct (deviceMap (stopPolling a x) !! x) as [device|]; [|done].
  destruct (connection_details device); done.
Qed.

Lemma startPolling_wf a x n : wf a -> wf (startPolling a x n).1.
Proof.
  intros Hwf. apply (stopPolling_wf a x) in Hwf as Hwf1.
  unfold startPolling.
  destruct (deviceMap (stopPolling a x) !! x) as [device|]; [|done].
  destruct (connection_details device) as [details|]; [|done].
  destruct Hwf1 as [Hrec Hfresh]. split; simpl.
  - intros j d url Hj.
    destruct (decide (timers_created (stopPolling a x) = j)) as [<-|Hne].
    + rewrite lookup_insert_eq in Hj. injection Hj as <- _.
      apply lookup_insert_eq.
    + rewrite lookup_insert_ne in Hj by assumption.
      pose proof (Hrec _ _ _ Hj) as Hd.
      destruct (decide (x = d)) as [->|Hxd].
      * rewrite stopPolling_lookup in Hd. now rewrite decide_True in Hd.
      * now rewrite lookup_insert_ne.
  - intros j Hj. rewrite lookup_insert_ne by lia. apply Hfresh. lia.
Qed.

Lemma startPolling_lookup_other a x n d :
  x <> d ->
  pollingIntervals (startPolling a x n).1 !! d = pollingIntervals a !! d.
Proof.
  intros Hne. unfold startPolling.
  pose proof (stopPolling_lookup a x d) as Hs.
  rewrite decide_False in Hs by assumption.
  destruct (deviceMap (stopPolling a x) !! x) as [device|]; [|done].
  destruct (connection_details device); [|done].
  simpl. now rewrite lookup_insert_ne.
Qed.

Lemma startPolling_unknown a x n :
  deviceMap a !! x = None ->
  pollingIntervals (startPolling a x n).1 !! x = None.
Proof.
  intros Hnone. unfold startPolling.
  destruct (stopPolling_frame a x) as (Hd & _). rewrite Hd, Hnone.
  simpl. rewrite stopPolling_lookup. now rewrite decide_True.
Qed.

Lemma on_health_frame a i ok :
  deviceMap (on_health a i ok).1 = deviceMap a /\
  polls_in_flight (on_health a i ok).1 = polls_in_flight a /\
  forall d, callbacks_for d (on_health a i ok).1 = callbacks_for d a.
Proof.
  assert (Hlog : forall h status d,
             callbacks_for d
               (log (ConnectionCallback status) (set_health_checks h a))
             = callbacks_for d a).
  { intros h status d. unfold callbacks_for, log. simpl.
    rewrite filter_app. simpl. rewrite length_app. simpl. lia. }
  unfold on_health. destruct (health_checks a !! i) as [device|]; [|done].
  destruct ok; [|split; [done|split; [done|intros d; apply Hlog]]].
  destruct (connection_details device) as [details|];
    [|split; [done|split; [done|intros d; apply Hlog]]].
  destruct (truthy_interval (polling_interval details));
    [|split; [done|split; [done|intros d; apply Hlog]]].
  match goal with
  | |- context [startPolling ?s ?x ?n] =>
      destruct (startPolling_frame s x n) as (Hd & Ht & Hp & _);
      destruct (startPolling s x n) as [a3 [|e]]
  end; simpl in *;
    (split; [done|split; [done|]]);
    intros d; unfold callbacks_for at 1; rewrite Ht;
    exact (Hlog [] "connected" d).
Qed.

Lemma on_health_wf a i ok : wf a -> wf (on_health a i ok).1.
Proof.
  intros Hwf.
  assert (Hset : forall h, wf (set_health_checks h a)) by (now destruct Hwf).
  assert (Hlog : forall e b, wf b -> wf (log e b)) by (now intros e b []).
  unfold on_health. destruct (health_checks a !! i) as [device|]; [|done].
  destruct ok; [|now apply Hlog].
  destruct (connection_details device) as [details|]; [|now apply Hlog].
  destruct (truthy_interval (polling_interval details)); [|now apply Hlog].
  match goal with
  | |- context [startPolling ?s ?x ?n] =>
      pose proof (startPolling_wf s x n (Hlog _ _ (Hset _))) as H;
      destruct (startPolling s x n) as [a3 [|e]]
  end; exact H.
Qed.

Lemma on_health_quiet d a i ok : quiet d a -> quiet d (on_health a i ok).1.
Proof.
  intros [Hwf Hunknown Hunpolled].
  destruct (on_health_frame a i ok) as (Hd & _).
  split; [now apply on_health_wf | now rewrite Hd |].
  unfold on_health. destruct (health_checks a !! i) as [device|]; [|done].
  destruct ok; [|done].
  destruct (connection_details device) as [details|]; [|done].
  destruct (truthy_interval (polling_interval details)); [|done].
  match goal with
  | |- context [startPolling ?s ?x ?n] =>
      pose proof (startPolling_lookup_other s x n d) as Hother;
      pose proof (startPolling_unknown s x n) as Hsame;
      destruct (startPolling s x n) as [a3 [|e]]
  end; simpl in *;
    (destruct (decide (device_id device = d)) as [<-|Hne];
     [now apply Hsame | now rewrite Hother]).
Qed.

(** Callbacks received and polls unanswered, for one device. *)
Definition potential (d : string) (a : t) : nat :=
  callbacks_for d a + in_flight_for d a.

Lemma length_filter_delete {A} (P : A -> Prop) `{!forall x, Decision (P x)}
    (l : list A) (i : nat) (x : A) :
  l !! i = Some x ->
  length (filter P l)
  = length (filter P (delete i l)) + (if decide (P x) then 1 else 0).
Proof.
  revert i. induction l as [|y l IH]; intros [|i] Hi; try discriminate.
  - injection Hi as ->. clear IH. simpl. rewrite filter_cons.
    destruct (decide (P x)); simpl; lia.
  - simpl in Hi. change (delete (S i) (y :: l)) with (y :: delete i l).
    rewrite !filter_cons. specialize (IH i Hi).
    destruct (decide (P y)); destruct (decide (P x)); simpl in *; lia.
Qed.

Lemma on_tick_quiet d a i : quiet d a -> quiet d (on_tick a i).
Proof.
  intros [[Hrec Hfresh] Hu Hp]. unfold on_tick.
  destruct (timers a !! i) as [[d' url]|]; [|done]. done.
Qed.

Lemma on_tick_potential d a i :
  quiet d a -> potential d (on_tick a i) = potential d a.
Proof.
  intros [[Hrec _] _ Hp]. unfold on_tick.
  destruct (timers a !! i) as [[d' url]|] eqn:E; [|done].
  assert (d' <> d) as Hne.
  { intros ->. apply Hrec in E. congruence. }
  unfold potential, callbacks_for, in_flight_for. simpl.
  rewrite filter_app, length_app, filter_cons, decide_False by assumption.
  simpl. lia.
Qed.

Lemma on_tick_callbacks d a i : callbacks_for d (on_tick a i) = callbacks_for d a.
Proof. unfold on_tick. now destruct (timers a !! i) as [[d' url]|]. Qed.

Lemma on_poll_response_quiet d a i response now now_created :
  quiet d a -> quiet d (on_poll_response a i response now now_created).
Proof.
  intros [[Hrec Hfresh] Hu Hp]. unfold on_poll_response.
  destruct (polls_in_flight a !! i); [|done]. now destruct response.
Qed.

Lemma in_flight_delete d a i d' :
  polls_in_flight a !! i = Some d' ->
  exists k,
    in_flight_for d a
    = in_flight_for d (set_polls_in_flight (delete i (polls_in_flight a)) a) + k
    /\ (d' = d -> k = 1) /\ (d' <> d -> k = 0).
Proof.
  intros E. unfold in_flight_for. simpl. eexists. split.
  - apply (length_filter_delete _ _ _ _ E).
  - split; intros Hd; [rewrite decide_True | rewrite decide_False]; done.
Qed.

Lemma callbacks_log d a p :
  callbacks_for d (log (DataCallback p) a)
  = callbacks_for d a + (if is_callback_for d (DataCallback p) then 1 else 0).
Proof.
  unfold callbacks_for.
  change (trace (log (DataCallback p) a)) with (trace a ++ [DataCallback p])%list.
  rewrite filter_app, length_app, filter_cons.
  case_decide as H; rewrite filter_nil.
  - now rewrite H.
  - now destruct (is_callback_for d (DataCallback p)).
Qed.

Lemma on_poll_response_count d a i response now now_created :
  callbacks_for d a
    <= callbacks_for d (on_poll_response a i response now now_created) /\
  potential d (on_poll_response a i response now now_created) <= potential d a.
Proof.
  unfold on_poll_response.
  destruct (polls_in_flight a !! i) as [d'|] eqn:E; [|done].
  destruct (in_flight_delete d a i d' E) as (k & Hk & Hsame & Hother).
  unfold potential. rewrite Hk.
  set (a1 := set_polls_in_flight (delete i (polls_in_flight a)) a).
  assert (callbacks_for d a1 = callbacks_for d a) as Hc by reflexivity.
  destruct response as [data|]; [|lia].
  rewrite callbacks_log, Hc.
  change (in_flight_for d (log ?e a1)) with (in_flight_for d a1).
  cbn [is_callback_for DataPoint.new DataPoint.deviceId DataPoint.o_deviceId].
  destruct (String.eqb_spec d' d) as [Heq|Hne].
  + rewrite (Hsame Heq). lia.
  + lia.
Qed.

Lemma step_quiet d a e : quiet d a -> quiet d (step a e).
Proof.
  destruct e; simpl.
  - apply on_tick_quiet.
  - apply on_poll_response_quiet.
  - apply on_health_quiet.
Qed.

Lemma step_count d a e :
  callbacks_for d a <= callbacks_for d (step a e) /\
  (quiet d a -> potential d (step a e) <= potential d a).
Proof.
  destruct e as [i | i response now now_created | i ok]; simpl.
  - rewrite on_tick_callbacks. split; [lia|].
    intros Hq. now rewrite on_tick_potential.
  - destruct (on_poll_response_count d a i response now now_created). auto.
  - destruct (on_health_frame a i ok) as (_ & Hp & Hc).
    unfold potential, in_flight_for. rewrite Hc, Hp. split; [lia|]. lia.
Qed.

(** After any sequence of events of the outside world, a quiet device is
    still quiet, and has received at most as many further callbacks as it
    had polls unanswered. *)
Lemma run_quiet d evs a :
  quiet d a ->
  quiet d (foldl step a evs) /\
  callbacks_for d a <= callbacks_for d (foldl step a evs) /\
  potential d (foldl step a evs) <= potential d a.
Proof.
  revert a. induction evs as [|e evs IH]; intros a Hq; simpl.
  - split; [done|]. lia.
  - destruct (step_count d a e) as [Hmono Hpot].
    destruct (IH _ (step_quiet d a e Hq)) as (Hq' & Hmono' & Hpot').
    split; [done|]. specialize (Hpot Hq). lia.
Qed.

Lemma foldl_stopPolling a l :
  (wf a -> wf (foldl stopPolling a l)) /\
  trace (foldl stopPolling a l) = trace a /\
  polls_in_flight (foldl stopPolling a l) = polls_in_flight a /\
  forall d, pollingIntervals (foldl stopPolling a l) !! d
            = if decide (d ∈ l) then None else pollingIntervals a !! d.
Proof.
  revert a. induction l as [|x l IH]; intros a; cbn [foldl].
  - split; [done|]. split; [done|]. split; [done|].
    intros d. rewrite decide_False; [done|]. apply not_elem_of_nil.
  - destruct (IH (stopPolling a x)) as (Hwf & Ht & Hp & Hl).
    destruct (stopPolling_frame a x) as (_ & Ht' & Hp' & _).
    split; [intros H; now apply Hwf, stopPolling_wf|].
    split; [congruence|]. split; [congruence|].
    intros d. rewrite Hl, stopPolling_lookup.
    destruct (decide (x = d)) as [->|Hne].
    + rewrite (decide_True (P := d ∈ d :: l)) by (apply elem_of_cons; auto).
      now case_decide.
    + destruct (decide (d ∈ l)) as [Hin|Hin].
      * now rewrite decide_True by (apply elem_of_cons; auto).
      * rewrite decide_False; [done|].
        rewrite elem_of_cons. intros [->|]; done.
Qed.

Lemma disconnect_wf a target : wf a -> wf (disconnect a target).
Proof.
  intros Hwf. unfold disconnect. destruct (truthy_str target).
  - now destruct (stopPolling_wf a (default "" target) Hwf).
  - destruct (foldl_stopPolling a (elements (dom (pollingIntervals a))))
      as (H & _). now destruct (H Hwf).
Qed.

Lemma disconnect_frame a target :
  trace (disconnect a target) = trace a /\
  polls_in_flight (disconnect a target) = polls_in_flight a.
Proof.
  unfold disconnect. destruct (truthy_str target); simpl.
  - now destruct (stopPolling_frame a (default "" target)) as (_ & -> & -> & _).
  - now destruct (foldl_stopPolling a (elements (dom (pollingIntervals a))))
      as (_ & -> & -> & _).
Qed.

(** [disconnect(deviceId)] lets go of the device; [disconnect()] of every
    device. *)
Lemma disconnect_quiet a target d :
  wf a ->
  target = Some d \/ truthy_str target = false ->
  quiet d (disconnect a target).
Proof.
  intros Hwf Htarget.
  split; [now apply disconnect_wf| |]; unfold disconnect;
    destruct (truthy_str target) eqn:Et.
  - destruct Htarget as [->|]; [|discriminate]. simpl. apply lookup_delete_eq.
  - apply lookup_empty.
  - destruct Htarget as [->|]; [|discriminate]. simpl.
    rewrite stopPolling_lookup. now rewrite decide_True.
  - simpl.
    destruct (foldl_stopPolling a (elements (dom (pollingIntervals a))))
      as (_ & _ & _ & ->).
    case_decide as Hin; [done|].
    rewrite elem_of_elements, elem_of_dom in Hin.
    now apply eq_None_not_Some.
Qed.

Lemma registerDevice_wf a device : wf a -> wf (registerDevice a device).1.
Proof.
  intros Hwf. unfold registerDevice.
  destruct (connection_details device) as [details|]; [|done].
  destruct (truthy_str (base_url details)); [|done]. now destruct Hwf.
Qed.

Lemma act_wf a x : wf a -> wf (act a x).
Proof.
  destruct x as [device | target | d n | d | [i | i r n n' | i ok]]; simpl.
  - apply registerDevice_wf.
  - apply disconnect_wf.
  - apply startPolling_wf.
  - apply stopPolling_wf.
  - unfold on_tick. destruct (timers a !! i) as [[d url]|]; [|done].
    now intros [].
  - unfold on_poll_response. destruct (polls_in_flight a !! i); [|done].
    destruct r; now intros [].
  - apply on_health_wf.
Qed.

(** The invariant holds in every state the adapter can reach. *)
Lemma after_wf history : wf (after history).
Proof.
  unfold after. generalize wf_new. generalize new.
  induction history as [|x history IH]; intros a Hwf; simpl; [done|].
  apply IH. now apply act_wf.
Qed.

(** What a disconnection achieves for device [d], whatever events of the
    outside world follow it: the device has no interval recorded, no live
    interval polls it, and the callbacks it receives from then on are at most
    the polls that were unanswered when the adapter was disconnected. *)
Definition silenced (d : string) (before disconnected : t)
    (evs : list Event) : Prop :=
  let final := foldl step disconnected evs in
  pollingIntervals disconnected !! d = None /\
  ~ polled d disconnected /\
  ~ polled d final /\
  callbacks_for d disconnected = callbacks_for d before /\
  callbacks_for d before <= callbacks_for d final /\
  callbacks_for d final <= callbacks_for d before + in_flight_for d before /\
  (in_flight_for d before = 0 -> callbacks_for d final = callbacks_for d before).

Lemma disconnect_silences a target d evs :
  wf a ->
  target = Some d \/ truthy_str target = false ->
  silenced d a (disconnect a target) evs.
Proof.
  intros Hwf Htarget.
  pose proof (disconnect_quiet a target d Hwf Htarget) as Hq.
  destruct (run_quiet d evs _ Hq) as (Hq' & Hmono & Hpot).
  destruct (disconnect_frame a target) as [Ht Hp].
  assert (callbacks_for d (disconnect a target) = callbacks_for d a) as Hc
    by (unfold callbacks_for; now rewrite Ht).
  assert (in_flight_for d (disconnect a target) = in_flight_for d a) as Hi
    by (unfold in_flight_for; now rewrite Hp).
  unfold potential in Hpot. rewrite Hc, Hi in Hpot. rewrite Hc in Hmono.
  unfold silenced. cbv zeta.
  split; [apply (quiet_unpolled _ _ Hq)|].
  split; [now apply quiet_not_polled|].
  split; [now apply quiet_not_polled|].
  split; [exact Hc|]. split; [exact Hmono|]. split; lia.
Qed.

(** The adapter of the scenario: [pump-1] registered with a polling interval
    of one second, its health request answered, and one tick of its interval
    whose request is still unanswered. *)
Definition polled_once : t :=
  after [CallRegisterDevice pump1;
         World (HealthResponse 0 true);
         World (Tick 0)].

(** C7 as the specification words it fails: [pump-1] is disconnected while
    one of its polls is unanswered; the interval is cleared, and the answer
    that arrives afterwards is still handed to the inbound-data callback. *)
Lemma callback_after_disconnect :
  timers polled_once !! 0 = Some ("pump-1", "http://x/api/data") /\
  timers (disconnect polled_once (Some "pump-1")) !! 0 = None /\
  deviceMap (disconnect polled_once (Some "pump-1")) !! "pump-1" = None /\
  callbacks_for "pump-1" (disconnect polled_once (Some "pump-1")) = 0 /\
  callbacks_for "pump-1"
    (step (disconnect polled_once (Some "pump-1"))
       (PollResponse 0 (Some temperature_reading) 5 6)) = 1.
Proof. vm_compute. repeat split. Qed.

(** C7, as the code has it.  In any state the polling adapter can reach,
    [disconnect(d)] and [disconnect()] cancel the repeating poll of device
    [d]: no interval is recorded for it and no live interval polls it, then
    or after any later ticks and responses.  The inbound-data callback can
    still be invoked for [d] afterwards, but only for polls already issued
    and unanswered at the time of the call, at most once each; with no poll
    outstanding it is never invoked again. *)
Theorem disconnect_stops_polling
    (history : list Action) (d : string) (evs : list Event) :
  silenced d (after history) (disconnect (after history) (Some d)) evs /\
  silenced d (after history) (disconnect (after history) None) evs.
Proof.
  split; apply disconnect_silences; auto using after_wf.
Qed.

End RestProps.

(** * Further properties of the code *)

(** ** AdapterManager: routing *)

Module RoutingProps.
Import Js AdapterManager Samples.

(** The name of the class of an adapter, as [initializeAdapters] keys it. *)
Definition kind (adapter : Adapter) : string :=
  match adapter with
  | Mqtt _ => "MQTT"
  | WebSocket _ => "WebSocket"
  | Rest _ => "REST"
  end.

(** Every adapter is stored under the name of its class. *)
Definition well_keyed (m : t) : Prop :=
  Forall (fun e : string * Adapter => e.1 = kind e.2) (adapters m).

(** The registries that the constructor and the methods can produce. *)
Inductive reachable (JSON_stringify : value -> string) : t -> Prop :=
| reach_new options : reachable JSON_stringify (new options)
| reach_connect m w :
    reachable JSON_stringify m -> reachable JSON_stringify (connect m w).1
| reach_registerDevice m device w :
    reachable JSON_stringify m ->
    reachable JSON_stringify (registerDevice m device w).1
| reach_sendCommand m command w :
    reachable JSON_stringify m ->
    reachable JSON_stringify (sendCommand JSON_stringify m command w).1
| reach_disconnect m w :
    reachable JSON_stringify m -> reachable JSON_stringify (disconnect m w).1.

Lemma get_In {V} (l : list (string * V)) p v :
  JsMap.get p l = Some v -> (p, v) ∈ l.
Proof.
  induction l as [|[k v'] l IH]; simpl; [discriminate|].
  destruct (String.eqb_spec k p) as [->|Hne].
  - intros [= ->]. apply elem_of_cons. auto.
  - intros H. apply elem_of_cons. right. auto.
Qed.

Lemma set_Forall {V} (P : string * V -> Prop) (l : list (string * V)) p v :
  Forall P l -> P (p, v) -> Forall P (JsMap.set p v l).
Proof.
  intros Hl Hp. induction Hl as [|[k v'] l Hk Hl IH]; simpl.
  - repeat constructor. exact Hp.
  - destruct (String.eqb k p); constructor; auto.
Qed.

Lemma kind_registerDevice adapter device w :
  kind (adapter_registerDevice adapter device w).1 = kind adapter.
Proof.
  destruct adapter as [a|a|a]; simpl; try reflexivity.
  destruct (RestAdapter.registerDevice a device) as [a1 [|e|]]; try reflexivity.
  now destruct (rest_health w).
Qed.

Lemma kind_sendCommand JSON_stringify adapter command w :
  kind (adapter_sendCommand JSON_stringify adapter command w).1 = kind adapter.
Proof. now destruct adapter. Qed.

Lemma kind_disconnect adapter w : kind (adapter_disconnect adapter w).1 = kind adapter.
Proof. now destruct adapter. Qed.

Lemma kind_connect adapter w adapter1 o :
  adapter_connect adapter w = Some (adapter1, o) -> kind adapter1 = kind adapter.
Proof.
  destruct adapter as [a|a|a]; simpl; try discriminate.
  destruct (MqttAdapter.connect a (mqtt_connect w)) as [a1 [|e|]].
  - now intros [= <- _].
  - now intros [= <- _].
  - destruct (mqtt_broker w) as [[|]|]; now intros [= <- _].
Qed.

Lemma connect_loop_keyed entries w :
  Forall (fun e : string * Adapter => e.1 = kind e.2) entries ->
  Forall (fun e : string * Adapter => e.1 = kind e.2) (connect_loop entries w).1.
Proof.
  induction 1 as [|[p adapter] l Hp Hl IH]; simpl; [constructor|].
  destruct (adapter_connect adapter w) as [[adapter1 o]|] eqn:E.
  - apply kind_connect in E.
    destruct o; simpl; constructor; simpl in *; congruence || assumption.
  - simpl. constructor; assumption.
Qed.

Lemma disconnect_loop_keyed entries w :
  Forall (fun e : string * Adapter => e.1 = kind e.2) entries ->
  Forall (fun e : string * Adapter => e.1 = kind e.2) (disconnect_loop entries w).1.
Proof.
  induction 1 as [|[p adapter] l Hp Hl IH]; simpl; [constructor|].
  pose proof (kind_disconnect adapter w) as Hk.
  destruct (catch (adapter_disconnect adapter w).2); simpl;
    constructor; simpl in *; congruence || assumption.
Qed.

Lemma new_keyed options : well_keyed (new options).
Proof.
  destruct options as [[url|] [|] [|]]; unfold well_keyed; simpl;
    repeat constructor.
Qed.

Lemma reachable_keyed JSON_stringify m :
  reachable JSON_stringify m -> well_keyed m.
Proof.
  induction 1 as [options | m w _ IH | m device w _ IH | m command w _ IH
                 | m w _ IH]; unfold well_keyed in *.
  - apply new_keyed.
  - now apply connect_loop_keyed.
  - rewrite ManagerProps.registerDevice_result.
    unfold ManagerProps.adapter_level.
    destruct (truthy_str (protocol device)); [|assumption].
    destruct (JsMap.get _ (adapters m)) as [adapter|] eqn:E; [|assumption].
    apply get_In in E. rewrite Forall_forall in IH. apply IH in E.
    simpl in *.
    assert (Forall (fun e : string * Adapter => e.1 = kind e.2)
              (JsMap.set (default "" (protocol device))
                 (adapter_registerDevice adapter device w).1 (adapters m))).
    { apply set_Forall; [now apply Forall_forall|].
      simpl. now rewrite kind_registerDevice. }
    now destruct (adapter_registerDevice adapter device w).2.
  - unfold sendCommand.
    destruct (truthy_str _); [|assumption].
    destruct (JsMap.get _ (adapters m)) as [adapter|] eqn:E; [|assumption].
    apply get_In in E. pose proof IH as IH'.
    rewrite Forall_forall in IH'. apply IH' in E. simpl in *.
    apply set_Forall; [assumption|]. simpl. now rewrite kind_sendCommand.
  - unfold disconnect.
    pose proof (disconnect_loop_keyed _ w IH) as H.
    destruct (disconnect_loop (adapters m) w).2 as [promises|e]; [|exact H].
    now destruct (all_resolved promises).
Qed.

Lemma keyed_get m p adapter :
  well_keyed m -> JsMap.get p (adapters m) = Some adapter -> p = kind adapter.
Proof.
  intros Hk E. apply get_In in E. unfold well_keyed in Hk.
  rewrite Forall_forall in Hk. exact (Hk _ E).
Qed.

Definition bus_and_stream : Options :=
  mkOptions (Some "mqtt://localhost:1883") true false.

Definition quiet_commands : CommandWorld :=
  mkCommandWorld (MqttAdapter.PublishCallsBack false) false (Some (Some VNull)).

(** X1.  After a registration that succeeded, a command for that device is
    handed to the adapter stored under the protocol of the registration,
    which binds the device; the promise of the registry settles as that
    adapter's does, the routing table is not touched, and no adapter stored
    under another protocol is touched either. *)
Theorem command_reaches_registered_adapter
    (JSON_stringify : value -> string) (m : t) (device : Device) (w : World)
    (command : Command) (cw : CommandWorld) (p : string) :
  (registerDevice m device w).2 = Resolved ->
  protocol device = Some p ->
  c_device_id command = device_id device ->
  exists adapter,
    JsMap.get p (adapters (registerDevice m device w).1) = Some adapter /\
    binds adapter (device_id device) = true /\
    (sendCommand JSON_stringify (registerDevice m device w).1 command cw).2
      = (adapter_sendCommand JSON_stringify adapter command cw).2 /\
    deviceAdapterMap
      (sendCommand JSON_stringify (registerDevice m device w).1 command cw).1
      = deviceAdapterMap (registerDevice m device w).1 /\
    forall q, q <> p ->
      JsMap.get q
        (adapters
           (sendCommand JSON_stringify (registerDevice m device w).1 command cw).1)
      = JsMap.get q (adapters (registerDevice m device w).1).
Proof.
  intros Hres Hp Hid. revert Hres. rewrite ManagerProps.registerDevice_result.
  unfold ManagerProps.adapter_level. rewrite Hp.
  change (default "" (Some p)) with p.
  destruct (truthy_str (Some p)) eqn:Htruthy; [|discriminate].
  destruct (JsMap.get p (adapters m)) as [adapter|] eqn:Hget;
    simpl; [|discriminate].
  destruct (adapter_registerDevice adapter device w).2 eqn:Hout;
    simpl; try discriminate.
  intros _. exists (adapter_registerDevice adapter device w).1.
  split; [apply JsMapFacts.get_set_eq|].
  split; [now apply ManagerProps.adapter_registerDevice_binds|].
  unfold sendCommand. simpl. rewrite Hid, lookup_insert_eq.
  change (default "" (Some p)) with p. rewrite Htruthy.
  rewrite JsMapFacts.get_set_eq. simpl.
  split; [reflexivity|]. split; [reflexivity|].
  intros q Hq. now rewrite JsMapFacts.get_set_ne.
Qed.

Lemma command_reaches_registered_adapter_witness :
  exists adapter,
    JsMap.get "MQTT"
      (adapters
         (registerDevice (connect (new ManagerProps.all_adapters) ManagerProps.fair).1
            tc100 ManagerProps.fair).1) = Some adapter /\
    binds adapter "tc-100" = true.
Proof.
  destruct (command_reaches_registered_adapter stringify_sample
              (connect (new ManagerProps.all_adapters) ManagerProps.fair).1
              tc100 ManagerProps.fair set_temperature quiet_commands "MQTT")
    as (adapter & H1 & H2 & _).
  - vm_compute. reflexivity.
  - reflexivity.
  - reflexivity.
  - exists adapter. split; assumption.
Defined.

(** X2.  Once [disconnect()] of the registry has resolved, every device is
    unknown to it: [sendCommand] rejects with the not-registered error
    without touching any adapter, and [fetchData] fails the same way. *)
Theorem nothing_routed_after_disconnect
    (JSON_stringify : value -> string) (m : t) (w : World)
    (command : Command) (cw : CommandWorld) (deviceId : string)
    (reply : option (option value)) (now now_created : Z) :
  (disconnect m w).2 = Resolved ->
  sendCommand JSON_stringify (disconnect m w).1 command cw
    = ((disconnect m w).1, Rejected "Device not registered") /\
  fetchData (disconnect m w).1 deviceId reply now now_created
    = RestAdapter.Fails "Device not registered".
Proof.
  unfold disconnect.
  destruct (disconnect_loop (adapters m) w).2 as [promises|e]; [|discriminate].
  destruct (all_resolved promises); [|discriminate].
  intros _. unfold sendCommand, fetchData. simpl.
  now rewrite !lookup_empty.
Qed.

Lemma nothing_routed_after_disconnect_witness :
  sendCommand stringify_sample
    (disconnect
       (registerDevice (connect (new bus_and_stream) ManagerProps.fair).1 tc100
          ManagerProps.fair).1 ManagerProps.fair).1
    set_temperature quiet_commands
  = ((disconnect
        (registerDevice (connect (new bus_and_stream) ManagerProps.fair).1 tc100
           ManagerProps.fair).1 ManagerProps.fair).1,
     Rejected "Device not registered").
Proof.
  apply (nothing_routed_after_disconnect stringify_sample
           (registerDevice (connect (new bus_and_stream) ManagerProps.fair).1
              tc100 ManagerProps.fair).1
           ManagerProps.fair set_temperature quiet_commands "tc-100" None 0 0).
  vm_compute. reflexivity.
Defined.

(** X3.  In a registry produced by the constructor and its methods, a device
    routed to a protocol other than REST cannot be read on demand:
    [fetchData] fails at once, with the not-supported error (or with the
    not-registered error when the routed protocol is the empty string),
    whatever the device would answer. *)
Theorem fetchData_unsupported_on_push_transports
    (JSON_stringify : value -> string) (m : t) (deviceId p : string)
    (reply : option (option value)) (now now_created : Z) :
  reachable JSON_stringify m ->
  deviceAdapterMap m !! deviceId = Some p ->
  p <> "REST" ->
  fetchData m deviceId reply now now_created
  = RestAdapter.Fails (if String.eqb p "" then "Device not registered"
                       else "Fetch not supported for protocol").
Proof.
  intros Hr Hp Hne. apply reachable_keyed in Hr.
  unfold fetchData. rewrite Hp. simpl.
  destruct (String.eqb p ""); simpl; [reflexivity|].
  destruct (JsMap.get p (adapters m)) as [adapter|] eqn:E; [|reflexivity].
  apply (keyed_get m p adapter Hr) in E.
  destruct adapter; simpl in E; congruence.
Qed.

Lemma fetchData_unsupported_on_push_transports_witness :
  fetchData
    (registerDevice (connect (new ManagerProps.all_adapters) ManagerProps.fair).1
       tc100 ManagerProps.fair).1 "tc-100" (Some (Some VNull)) 0 0
  = RestAdapter.Fails "Fetch not supported for protocol".
Proof.
  apply (fetchData_unsupported_on_push_transports stringify_sample
           (registerDevice
              (connect (new ManagerProps.all_adapters) ManagerProps.fair).1
              tc100 ManagerProps.fair).1 "tc-100" "MQTT").
  - apply reach_registerDevice, reach_connect, reach_new.
  - vm_compute. reflexivity.
  - discriminate.
Defined.

(** X4.  In a registry produced by the constructor and its methods, a
    registration under a protocol that is not MQTT, WebSocket or REST (gRPC,
    which the registration schema admits, is one) is always rejected and
    leaves the registry exactly as it was. *)
Theorem unknown_protocol_rejected
    (JSON_stringify : value -> string) (m : t) (device : Device) (w : World)
    (p : string) :
  reachable JSON_stringify m ->
  protocol device = Some p ->
  p <> "MQTT" -> p <> "WebSocket" -> p <> "REST" ->
  registerDevice m device w
  = (m, Rejected (if String.eqb p "" then "Protocol not specified for device"
                  else "No adapter available for protocol")).
Proof.
  intros Hr Hp H1 H2 H3. apply reachable_keyed in Hr.
  unfold registerDevice. rewrite Hp. simpl.
  destruct (String.eqb p ""); simpl; [reflexivity|].
  destruct (JsMap.get p (adapters m)) as [adapter|] eqn:E; [|reflexivity].
  apply (keyed_get m p adapter Hr) in E.
  destruct adapter; simpl in E; congruence.
Qed.

Lemma unknown_protocol_rejected_witness :
  registerDevice (new ManagerProps.all_adapters)
    (mkDevice "d" (Some "gRPC") None) ManagerProps.fair
  = (new ManagerProps.all_adapters,
     Rejected "No adapter available for protocol").
Proof.
  apply (unknown_protocol_rejected stringify_sample
           (new ManagerProps.all_adapters)
           (mkDevice "d" (Some "gRPC") None) ManagerProps.fair "gRPC");
    [apply reach_new | reflexivity | discriminate..].
Defined.

Lemma connect_loop_get entries w p :
  JsMap.get p (connect_loop entries w).1
  = (fun adapter =>
       match adapter_connect adapter w with
       | Some (adapter1, _) => adapter1
       | None => adapter
       end) <$> JsMap.get p entries.
Proof.
  induction entries as [|[k adapter] l IH]; simpl; [reflexivity|].
  destruct (adapter_connect adapter w) as [[adapter1 [|e|]]|] eqn:E; simpl;
    destruct (String.eqb k p); simpl; rewrite ?E; auto.
Qed.

Lemma connect_loop_settles entries w :
  is_Some (mqtt_broker w) -> all_resolved (connect_loop entries w).2 = true.
Proof.
  intros [b Hb]. induction entries as [|[k adapter] l IH]; simpl; [reflexivity|].
  destruct (adapter_connect adapter w) as [[adapter1 o]|] eqn:E; [|exact IH].
  assert (o <> Pending) as Ho.
  { destruct adapter as [a|a|a]; simpl in E; try discriminate.
    destruct (MqttAdapter.connect a (mqtt_connect w)) as [a1 [|e|]] eqn:Ec.
    - injection E as _ <-. discriminate.
    - injection E as _ <-. discriminate.
    - rewrite Hb in E. destruct b; injection E as _ <-; discriminate. }
  destruct o; simpl; try exact IH. contradiction.
Qed.

(** X5.  [connect()] of the registry does not fail when the bus adapter
    does: as soon as the broker answers, be it with a refusal, or
    [mqtt.connect] throws, [connect()] resolves; the routing table is left
    alone, and the adapters without a [connect] method are not touched. *)
Theorem connect_tolerates_adapter_failure (m : t) (w : World) :
  is_Some (mqtt_broker w) ->
  (connect m w).2 = Resolved /\
  deviceAdapterMap (connect m w).1 = deviceAdapterMap m /\
  forall p adapter,
    has_connect adapter = false ->
    JsMap.get p (adapters m) = Some adapter ->
    JsMap.get p (adapters (connect m w).1) = Some adapter.
Proof.
  intros Hb. unfold connect. simpl.
  rewrite (connect_loop_settles _ w Hb). repeat split.
  intros p adapter Hc Hget. rewrite connect_loop_get, Hget. simpl.
  now destruct adapter.
Qed.

Definition refusing_broker : World :=
  mkWorld MqttAdapter.ConnectReturns (Some false)
    (MqttAdapter.SubscribeCallsBack false) MqttAdapter.EndCallsBack
    false (fun _ => false) (Some true).

Lemma connect_tolerates_adapter_failure_witness :
  (connect (new ManagerProps.all_adapters) refusing_broker).2 = Resolved.
Proof.
  apply (connect_tolerates_adapter_failure (new ManagerProps.all_adapters)
           refusing_broker).
  simpl. eauto.
Defined.

End RoutingProps.

(** ** MqttAdapter: life cycle *)

Module BusProps.
Import Js MqttAdapter Samples.

Definition known (a : t) (deviceId : string) : Prop :=
  is_Some (deviceMap a !! deviceId).

(** The methods other than [registerDevice] and the handlers leave the
    device map alone, and the subscriptions too unless they clear them. *)
Lemma connect_frame a lib :
  deviceMap (connect a lib).1 = deviceMap a /\
  subscriptions (connect a lib).1 = subscriptions a.
Proof. now destruct lib. Qed.

Lemma on_message_frame JSON_parse callback_throws a topic payload now now_created :
  deviceMap (on_message JSON_parse callback_throws a topic payload now
               now_created).1 = deviceMap a /\
  subscriptions (on_message JSON_parse callback_throws a topic payload now
                   now_created).1 = subscriptions a /\
  client (on_message JSON_parse callback_throws a topic payload now
            now_created).1 = client a.
Proof.
  unfold on_message, try_catch, message_body.
  destruct (subscriptions a !! topic) as [d|]; [|done].
  destruct (String.eqb d ""); [done|].
  destruct (deviceMap a !! d); [|done].
  now destruct (JSON_parse payload).
Qed.

Lemma sendCommand_frame JSON_stringify a command lib :
  deviceMap (sendCommand JSON_stringify a command lib).1 = deviceMap a /\
  subscriptions (sendCommand JSON_stringify a command lib).1 = subscriptions a /\
  client (sendCommand JSON_stringify a command lib).1 = client a.
Proof.
  unfold sendCommand.
  destruct (deviceMap a !! c_device_id command) as [device|]; [|done].
  destruct (connection_details device) as [details|]; [|done].
  destruct (mqtt_topics details) as [topics|]; [|done].
  destruct (control topics) as [topic|]; [|done].
  destruct (String.eqb topic ""); [done|].
  destruct (client a) eqn:Hc; [|done]. now destruct lib as [|[|]|].
Qed.

Lemma bus_disconnect_frame a lib :
  deviceMap (disconnect a lib).1 = deviceMap a /\
  (subscriptions (disconnect a lib).1 = subscriptions a \/
   subscriptions (disconnect a lib).1 = ∅).
Proof.
  unfold disconnect. destruct (client a); [|auto]. destruct lib; simpl; auto.
Qed.

Lemma registerDevice_effect a device lib :
  (forall d, known a d -> known (registerDevice a device lib).1 d) /\
  (forall topic d,
     subscriptions (registerDevice a device lib).1 !! topic = Some d ->
     subscriptions a !! topic = Some d \/
     known (registerDevice a device lib).1 d) /\
  (forall topic,
     lib = SubscribeDefers ->
     MqttHistory.subscribed_topic a (registerDevice a device lib).1 = Some topic ->
     known (registerDevice a device lib).1 (device_id device)).
Proof.
  assert (Hstore : forall (m : gmap string Device) d,
             is_Some (m !! d) -> is_Some (<[device_id device := device]> m !! d)).
  { intros m d H. destruct (decide (device_id device = d)) as [->|Hne].
    - rewrite lookup_insert_eq. eauto.
    - now rewrite lookup_insert_ne. }
  assert (Hquiet : forall a0 : t, trace a0 = trace a ->
             MqttHistory.subscribed_topic a a0 = None).
  { intros a0 H. unfold MqttHistory.subscribed_topic. now rewrite H, drop_all. }
  unfold registerDevice, known.
  destruct (connection_details device) as [details|];
    [|split; [auto|split; [auto|intros topic _ H; now rewrite Hquiet in H]]].
  destruct (mqtt_topics details) as [topics|];
    [|split; [auto|split; [auto|intros topic _ H; now rewrite Hquiet in H]]].
  assert (Hplain :
    (forall d, is_Some (deviceMap a !! d) ->
               is_Some (deviceMap
                          (set_deviceMap (<[device_id device:=device]> (deviceMap a)) a)
                        !! d)) /\
    (forall topic d,
       subscriptions
         (set_deviceMap (<[device_id device:=device]> (deviceMap a)) a) !! topic
       = Some d ->
       subscriptions a !! topic = Some d \/
       is_Some (deviceMap
                  (set_deviceMap (<[device_id device:=device]> (deviceMap a)) a)
                !! d)) /\
    (forall topic,
       lib = SubscribeDefers ->
       MqttHistory.subscribed_topic a
         (set_deviceMap (<[device_id device:=device]> (deviceMap a)) a)
       = Some topic ->
       is_Some (deviceMap
                  (set_deviceMap (<[device_id device:=device]> (deviceMap a)) a)
                !! device_id device))).
  { split; [intros d; apply Hstore|]. split; [auto|].
    intros topic _ H. now rewrite Hquiet in H. }
  destruct (data topics) as [dataTopic|]; [|exact Hplain].
  destruct (String.eqb dataTopic ""); [exact Hplain|].
  destruct (client a) as [c|];
    [|split; [auto|split; [auto|intros topic _ H; now rewrite Hquiet in H]]].
  destruct lib as [|[|]|]; simpl.
  - split; [auto|]. split; [auto|]. intros topic H. discriminate H.
  - split; [intros d; apply Hstore|]. split; [auto|].
    intros topic H. discriminate H.
  - split; [intros d; apply Hstore|]. split.
    + intros topic d. destruct (decide (dataTopic = topic)) as [->|Hne].
      * rewrite lookup_insert_eq. intros [= <-]. right.
        rewrite lookup_insert_eq. eauto.
      * rewrite lookup_insert_ne by assumption. auto.
    + intros topic H. discriminate H.
  - split; [intros d; apply Hstore|]. split; [auto|].
    intros topic _ _. rewrite lookup_insert_eq. eauto.
Qed.

(** Every subscription, and every subscribe callback still to come, is for
    a device of the device map. *)
Record consistent (s : MqttHistory.t) : Prop := mk_consistent {
  subscribed_known : forall topic d,
    subscriptions (MqttHistory.adapter s) !! topic = Some d ->
    known (MqttHistory.adapter s) d;
  deferred_known : forall topic d,
    (topic, d) ∈ MqttHistory.deferred s -> known (MqttHistory.adapter s) d
}.

Section History.
Variable JSON_parse : string -> option value.
Variable JSON_stringify : value -> string.
Variable callback_throws : DataPoint.t -> bool.

Abbreviation act := (MqttHistory.act JSON_parse JSON_stringify callback_throws).
Abbreviation after := (MqttHistory.after JSON_parse JSON_stringify callback_throws).

Lemma act_known s x d :
  known (MqttHistory.adapter s) d -> known (MqttHistory.adapter (act s x)) d.
Proof.
  unfold known. destruct x as [lib | | msg | topic payload n n' | device lib
                              | i err | command lib | lib];
    cbn [MqttHistory.act MqttHistory.adapter MqttHistory.deferred].
  - now destruct (connect_frame (MqttHistory.adapter s) lib) as [-> _].
  - done.
  - done.
  - now destruct (on_message_frame JSON_parse callback_throws
                    (MqttHistory.adapter s) topic payload n n') as [-> _].
  - apply registerDevice_effect.
  - destruct (MqttHistory.deferred s !! i) as [[topic d']|]; [|done].
    simpl. unfold subscribe_callback. now destruct err.
  - now destruct (sendCommand_frame JSON_stringify (MqttHistory.adapter s)
                    command lib) as [-> _].
  - now destruct (bus_disconnect_frame (MqttHistory.adapter s) lib) as [-> _].
Qed.

Lemma act_consistent s x : consistent s -> consistent (act s x).
Proof.
  intros [Hs Hd].
  assert (Hframe : forall a1 : t,
             deviceMap a1 = deviceMap (MqttHistory.adapter s) ->
             subscriptions a1 = subscriptions (MqttHistory.adapter s) \/
             subscriptions a1 = ∅ ->
             consistent {| MqttHistory.adapter := a1;
                           MqttHistory.deferred := MqttHistory.deferred s |}).
  { intros a1 Hm Hsub. split; simpl; unfold known; rewrite Hm.
    - intros topic d. destruct Hsub as [-> | ->]; [apply Hs|].
      now rewrite lookup_empty.
    - apply Hd. }
  destruct x as [lib | | msg | topic payload n n' | device lib
                | i err | command lib | lib];
    cbn [MqttHistory.act MqttHistory.adapter MqttHistory.deferred].
  - destruct (connect_frame (MqttHistory.adapter s) lib). apply Hframe; auto.
  - apply Hframe; auto.
  - apply Hframe; auto.
  - destruct (on_message_frame JSON_parse callback_throws
                (MqttHistory.adapter s) topic payload n n') as (? & ? & _).
    apply Hframe; auto.
  - destruct (registerDevice_effect (MqttHistory.adapter s) device lib)
      as (Hk & Hsub & Hdef).
    split; simpl.
    + intros topic d H. destruct (Hsub _ _ H) as [H'|H']; [|exact H'].
      apply Hk, (Hs _ _ H').
    + intros topic d Hin.
      assert (Hold : (topic, d) ∈ MqttHistory.deferred s ->
                     known (registerDevice (MqttHistory.adapter s) device lib).1 d)
        by (intros H; apply Hk, (Hd _ _ H)).
      destruct lib as [|b|]; try (now apply Hold).
      destruct (MqttHistory.subscribed_topic (MqttHistory.adapter s) _)
        as [topic'|] eqn:E; [|now apply Hold].
      apply elem_of_app in Hin as [Hin|Hin]; [now apply Hold|].
      apply list_elem_of_singleton in Hin. injection Hin as -> ->.
      now apply (Hdef topic').
  - destruct (MqttHistory.deferred s !! i) as [[topic d]|] eqn:E;
      [|now split].
    assert ((topic, d) ∈ MqttHistory.deferred s) as Hin
      by (apply list_elem_of_lookup; eauto).
    split; simpl; unfold known, subscribe_callback.
    + intros topic' d'. destruct err; simpl; [apply Hs|].
      destruct (decide (topic = topic')) as [->|Hne].
      * rewrite lookup_insert_eq. intros [= <-]. apply (Hd _ _ Hin).
      * rewrite lookup_insert_ne by assumption. apply Hs.
    + intros topic' d' Hin'. apply list_elem_of_delete_inv in Hin'.
      destruct err; simpl; apply (Hd _ _ Hin').
  - destruct (sendCommand_frame JSON_stringify (MqttHistory.adapter s)
                command lib) as (? & ? & _).
    apply Hframe; auto.
  - destruct (bus_disconnect_frame (MqttHistory.adapter s) lib).
    apply Hframe; auto.
Qed.

Lemma foldl_consistent history s :
  consistent s -> consistent (foldl act s history).
Proof.
  revert s. induction history as [|x history IH]; intros s Hs; simpl; [done|].
  apply IH, act_consistent, Hs.
Qed.

Lemma foldl_known history s d :
  known (MqttHistory.adapter s) d ->
  known (MqttHistory.adapter (foldl act s history)) d.
Proof.
  revert s. induction history as [|x history IH]; intros s Hs; simpl; [done|].
  apply IH, act_known, Hs.
Qed.

(** X6.  In every state the bus adapter can reach, a topic of the
    subscription map belongs to a device of the device map: the handler's
    branch for a subscribed topic of an unknown device is never taken. *)
Theorem subscriptions_are_for_known_devices
    (brokerUrl : string) (history : list MqttHistory.Action)
    (topic deviceId : string) :
  subscriptions (MqttHistory.adapter (after brokerUrl history)) !! topic
    = Some deviceId ->
  is_Some (deviceMap (MqttHistory.adapter (after brokerUrl history)) !! deviceId).
Proof.
  apply (subscribed_known (after brokerUrl history)).
  apply foldl_consistent. split; simpl.
  - intros t0 d. now rewrite lookup_empty.
  - intros t0 d H. now apply elem_of_nil in H.
Qed.

(** X7.  The bus adapter never forgets a device: once a device id is in the
    device map it stays there through every later call and event,
    [disconnect()] included. *)
Theorem devices_are_never_removed
    (brokerUrl : string) (history later : list MqttHistory.Action)
    (deviceId : string) :
  is_Some (deviceMap (MqttHistory.adapter (after brokerUrl history)) !! deviceId) ->
  is_Some (deviceMap (MqttHistory.adapter (after brokerUrl (history ++ later)))
           !! deviceId).
Proof.
  unfold MqttHistory.after. rewrite foldl_app. apply foldl_known.
Qed.

End History.

(** A history in which the subscription of [dev-1] is acknowledged late. *)
Definition late_acknowledgement : list MqttHistory.Action :=
  [MqttHistory.CallConnect ConnectReturns;
   MqttHistory.ClientConnect;
   MqttHistory.CallRegisterDevice dev1 SubscribeDefers;
   MqttHistory.CallDisconnect EndCallsBack;
   MqttHistory.SubscribeCallback 0 false].

Lemma subscriptions_are_for_known_devices_witness :
  is_Some
    (deviceMap
       (MqttHistory.adapter
          (MqttHistory.after parse_sample stringify_sample (fun _ => false)
             "mqtt://localhost:1883" late_acknowledgement)) !! "dev-1").
Proof.
  apply (subscriptions_are_for_known_devices parse_sample stringify_sample
           (fun _ => false) "mqtt://localhost:1883" late_acknowledgement
           "lab/dev-1/data" "dev-1").
  vm_compute. reflexivity.
Defined.

Lemma devices_are_never_removed_witness :
  is_Some
    (deviceMap
       (MqttHistory.adapter
          (MqttHistory.after parse_sample stringify_sample (fun _ => false)
             "mqtt://localhost:1883"
             (late_acknowledgement
                ++ [MqttHistory.CallDisconnect EndCallsBack])%list))
     !! "dev-1").
Proof.
  apply (devices_are_never_removed parse_sample stringify_sample
           (fun _ => false) "mqtt://localhost:1883" late_acknowledgement
           [MqttHistory.CallDisconnect EndCallsBack] "dev-1").
  vm_compute. eauto.
Defined.





(** X9.  Registration on the bus adapter is all or nothing, except when the
    library runs the subscribe callback with an error before
    [client.subscribe] returns: in every other case a registration that
    does not resolve leaves the device map, the subscriptions and the client
    as they were.  In particular a device with a data topic cannot be
    registered before [connect()]. *)
Theorem failed_bus_registration_stores_nothing
    (a : t) (device : Device) (lib : SubscribeBehaviour) :
  lib <> SubscribeCallsBack true ->
  (registerDevice a device lib).2 <> Resolved ->
  deviceMap (registerDevice a device lib).1 = deviceMap a /\
  subscriptions (registerDevice a device lib).1 = subscriptions a /\
  client (registerDevice a device lib).1 = client a.
Proof.
  intros Hlib. unfold registerDevice.
  destruct (connection_details device) as [details|]; [|done].
  destruct (mqtt_topics details) as [topics|]; [|done].
  destruct (data topics) as [dataTopic|]; [|done].
  destruct (String.eqb dataTopic ""); [done|].
  destruct (client a) eqn:Hc; [|done].
  destruct lib as [|[|]|]; simpl; done.
Qed.

Lemma failed_bus_registration_stores_nothing_witness :
  deviceMap (registerDevice (new "mqtt://localhost:1883") dev1 SubscribeDefers).1
    = deviceMap (new "mqtt://localhost:1883").
Proof.
  apply (failed_bus_registration_stores_nothing (new "mqtt://localhost:1883")
           dev1 SubscribeDefers); discriminate.
Defined.

End BusProps.

(** ** WebSocketAdapter: shared endpoints and connections *)

Module StreamProps.
Import Js WebSocketAdapter Samples.

(** The frames handed to [connection.sendUTF], oldest first. *)
Definition sent (tr : list Effect) : list (nat * string) :=
  omap (fun e => match e with
                 | LibSendUTF connection message => Some (connection, message)
                 | _ => None
                 end) tr.

(** A device that [registerDevice] accepts: it names a non-empty endpoint. *)
Definition registrable (device : Device) : Prop :=
  exists url, WebSocketProps.endpoint_of device = Some url.

(** What holds of an adapter whose connection objects have no [url]
    property: every connection is stored under [undefined], every device of
    the device map names an endpoint, and so far no data point has been
    handed to the data callback and no frame has been sent. *)
Record unkeyed (a : t) : Prop := mk_unkeyed {
  devices_registrable : Forall (fun kv => registrable kv.2) (deviceMap a);
  connections_unkeyed : Forall (fun kv => kv.1 = None) (connections a);
  nothing_delivered : delivered (trace a) = [];
  nothing_sent : sent (trace a) = []
}.

Lemma registrable_details device :
  registrable device ->
  exists details url,
    connection_details device = Some details /\
    websocket_url details = Some url /\ String.eqb url "" = false.
Proof.
  intros [url He]. unfold WebSocketProps.endpoint_of in He.
  destruct (connection_details device) as [details|]; simpl in He;
    [|discriminate].
  exists details.
  destruct (websocket_url details) as [u|]; simpl in He; [|discriminate].
  exists u. destruct (String.eqb u "") eqn:E; [discriminate|]. done.
Qed.

Lemma find_unkeyed (entries : list (string * Device)) :
  Forall (fun kv => registrable kv.2) entries ->
  find_in entries None = Some None.
Proof.
  induction 1 as [|[k device] entries Hd _ IH]; [reflexivity|].
  destruct (registrable_details device Hd) as (details & url & Hc & Hu & _).
  cbn [find_in]. unfold url_matches. rewrite Hc, Hu. exact IH.
Qed.

Lemma get_unkeyed {V} (m : list (option string * V)) url :
  Forall (fun kv => kv.1 = None) m -> UrlMap.get (Some url) m = None.
Proof.
  induction 1 as [|[k v] m Hk _ IH]; simpl; [reflexivity|].
  simpl in Hk. subst k. simpl. exact IH.
Qed.

Lemma set_Forall_value {V} (P : string * V -> Prop) k v (m : list (string * V)) :
  Forall P m -> P (k, v) -> Forall P (JsMap.set k v m).
Proof.
  intros Hm Hkv. induction Hm as [|[k' v'] m Hx Hm IH]; simpl.
  - now constructor.
  - destruct (String.eqb k' k); constructor; auto.
Qed.

Lemma delete_Forall_value {V} (P : string * V -> Prop) k (m : list (string * V)) :
  Forall P m -> Forall P (JsMap.delete k m).
Proof.
  intros Hm. induction Hm as [|[k' v'] m Hx Hm IH]; simpl; [constructor|].
  destruct (String.eqb k' k); [assumption | now constructor].
Qed.

Lemma delete_absent {V} k (m : list (string * V)) :
  JsMap.get k m = None -> JsMap.delete k m = m.
Proof.
  induction m as [|[k' v'] m IH]; simpl; [reflexivity|].
  destruct (String.eqb k' k); [discriminate|]. intros H. now rewrite IH.
Qed.

Lemma set_Forall_unkeyed {V} v (m : list (option string * V)) :
  Forall (fun kv => kv.1 = None) m ->
  Forall (fun kv => kv.1 = None) (UrlMap.set None v m).
Proof.
  intros Hm. induction Hm as [|[k' v'] m Hx Hm IH]; simpl.
  - now constructor.
  - destruct (UrlMap.same k' None); constructor; auto.
Qed.

Lemma unkeyed_log e a :
  unkeyed a -> delivered [e] = [] -> sent [e] = [] -> unkeyed (log e a).
Proof.
  intros [Hd Hc Hn Hs] He He'. split; simpl; try assumption.
  - unfold delivered in *. now rewrite omap_app, Hn, He.
  - unfold sent in *. now rewrite omap_app, Hs, He'.
Qed.

Lemma unkeyed_set_deviceMap d a :
  unkeyed a -> Forall (fun kv => registrable kv.2) d ->
  unkeyed (set_deviceMap d a).
Proof. intros [Hd Hc Hn Hs] H. now split. Qed.

Lemma registerDevice_unkeyed a device connect_throws :
  unkeyed a -> unkeyed (registerDevice a device connect_throws).1.
Proof.
  intros Ha. unfold registerDevice.
  destruct (connection_details device) as [details|] eqn:Hc; [|exact Ha].
  destruct (websocket_url details) as [url|] eqn:Hu; [|exact Ha].
  destruct (String.eqb url "") eqn:Hne; [exact Ha|].
  assert (Hstored : unkeyed
            (set_deviceMap (JsMap.set (device_id device) device (deviceMap a)) a)).
  { apply unkeyed_set_deviceMap; [exact Ha|].
    apply set_Forall_value; [now destruct Ha|].
    exists url. unfold WebSocketProps.endpoint_of. cbn [snd].
    rewrite Hc. simpl. rewrite Hu. simpl. now rewrite Hne. }
  destruct (UrlMap.has (Some url) _); [exact Hstored|].
  destruct connect_throws; now apply unkeyed_log.
Qed.

Lemma on_connect_unkeyed a : unkeyed a -> unkeyed (on_connect a None).
Proof.
  intros [Hd Hc Hn Hs]. unfold on_connect. apply unkeyed_log; [|done|done].
  split; simpl; try assumption. now apply set_Forall_unkeyed.
Qed.

Lemma on_message_unkeyed JSON_parse callback_throws a message now now_created :
  unkeyed a ->
  on_message JSON_parse callback_throws a None message now now_created
  = (a, Normal).
Proof.
  intros [Hd _ _ _]. destruct message as [utf8Data|]; [|reflexivity].
  apply WebSocketProps.stream_message_dropped. right.
  unfold WebSocketProps.resolves, findDeviceIdByUrl.
  now rewrite (find_unkeyed _ Hd).
Qed.

Lemma sendCommand_unkeyed JSON_stringify a command send_throws :
  unkeyed a ->
  (exists e,
     sendCommand JSON_stringify a command send_throws = (a, Rejected e)) /\
  (is_Some (JsMap.get (c_device_id command) (deviceMap a)) ->
   sendCommand JSON_stringify a command send_throws
   = (a, Rejected "No active WebSocket connection for device")).
Proof.
  intros [Hd Hc _ _]. unfold sendCommand.
  destruct (JsMap.get (c_device_id command) (deviceMap a)) as [device|] eqn:E.
  - assert (Hr : registrable device).
    { clear -Hd E. induction Hd as [|[k v] m Hx Hm IH]; simpl in E;
        [discriminate|].
      destruct (String.eqb k (c_device_id command)); [|auto].
      now injection E as <-. }
    destruct (registrable_details device Hr) as (details & url & -> & -> & ->).
    rewrite (get_unkeyed _ url Hc). split; [eauto|reflexivity].
  - split; [eauto|]. intros [x Hx]. discriminate.
Qed.

Lemma disconnect_one_unkeyed a deviceId close_throws :
  unkeyed a -> deviceId <> "" ->
  disconnect a (Some deviceId) close_throws
  = (set_deviceMap (JsMap.delete deviceId (deviceMap a)) a, Resolved).
Proof.
  intros [Hd Hc _ _] Hne. unfold disconnect. simpl.
  destruct (String.eqb_spec deviceId ""); [contradiction|]. simpl.
  destruct (JsMap.get deviceId (deviceMap a)) as [device|] eqn:E.
  - assert (Hr : registrable device).
    { clear -Hd E. induction Hd as [|[k v] m Hx Hm IH]; simpl in E;
        [discriminate|].
      destruct (String.eqb k deviceId); [|auto].
      now injection E as <-. }
    destruct (registrable_details device Hr) as (details & url & -> & -> & Hu).
    simpl. rewrite Hu. simpl. now rewrite (get_unkeyed _ url Hc).
  - rewrite (delete_absent _ _ E). now destruct a.
Qed.

Lemma close_all_unkeyed values close_throws a :
  unkeyed a -> unkeyed (close_all values close_throws a).1.
Proof.
  revert a. induction values as [|c values IH]; intros a Ha; simpl; [exact Ha|].
  assert (Hl : unkeyed (log (LibClose c) a)) by now apply unkeyed_log.
  destruct (close_throws c); simpl; [exact Hl|]. now apply IH.
Qed.

Lemma disconnect_unkeyed a deviceId close_throws :
  unkeyed a -> unkeyed (disconnect a deviceId close_throws).1.
Proof.
  intros Ha. destruct (truthy_str deviceId) eqn:Ht.
  - destruct deviceId as [d|]; [|discriminate].
    rewrite disconnect_one_unkeyed; [|exact Ha|].
    + apply unkeyed_set_deviceMap; [exact Ha|].
      apply delete_Forall_value. now destruct Ha.
    + intros ->. discriminate.
  - unfold disconnect. rewrite Ht.
    pose proof (close_all_unkeyed (map snd (connections a)) close_throws a Ha)
      as Hc.
    destruct (close_all (map snd (connections a)) close_throws a)
      as [a1 [|e]]; simpl in *; [|exact Hc].
    destruct Hc as [_ _ Hn Hs]. split; simpl; auto.
Qed.

Section History.
Variable JSON_parse : string -> option value.
Variable JSON_stringify : value -> string.
Variable callback_throws : DataPoint.t -> bool.
Variable url_of : nat -> option string.
(** The connection objects of the library have no [url] property. *)
Hypothesis no_url : forall connection, url_of connection = None.

Abbreviation act :=
  (WebSocketHistory.act JSON_parse JSON_stringify callback_throws url_of).
Abbreviation after :=
  (WebSocketHistory.after JSON_parse JSON_stringify callback_throws url_of).

Lemma act_unkeyed a x : unkeyed a -> unkeyed (act a x).
Proof.
  intros Ha.
  destruct x as [device ct | | c message now now_created | command st | d ct];
    cbn [WebSocketHistory.act].
  - now apply registerDevice_unkeyed.
  - rewrite no_url. now apply on_connect_unkeyed.
  - rewrite no_url, on_message_unkeyed by assumption. exact Ha.
  - destruct (sendCommand_unkeyed JSON_stringify a command st Ha)
      as [[e ->] _]. exact Ha.
  - now apply disconnect_unkeyed.
Qed.

Lemma after_unkeyed history : unkeyed (after history).
Proof.
  unfold WebSocketHistory.after.
  assert (Hnew : unkeyed new) by (split; simpl; auto).
  revert Hnew. generalize new.
  induction history as [|x history IH]; intros a Ha; simpl; [exact Ha|].
  apply IH, act_unkeyed, Ha.
Qed.

(** X10.  With connection objects that have no [url] property, as the
    websocket library delivers them, the stream adapter never hands a data
    point to the inbound-data callback: whatever registrations, ['connect']
    events, messages, commands and disconnects it has gone through, nothing
    has been delivered, and the next message on any connection, well-formed
    or not, is dropped without an exception and leaves the adapter as it
    is. *)
Theorem stream_data_is_never_delivered
    (history : list WebSocketHistory.Action) :
  delivered (trace (after history)) = [] /\
  forall connection message now now_created,
    on_message JSON_parse callback_throws (after history) (url_of connection)
      message now now_created
    = (after history, Normal).
Proof.
  pose proof (after_unkeyed history) as Ha.
  split; [now destruct Ha|].
  intros connection message now now_created. rewrite no_url.
  now apply on_message_unkeyed.
Qed.

(** X11.  With connection objects that have no [url] property, the stream
    adapter never sends a command: in every state it can reach no frame has
    been sent, and [sendCommand] is rejected and changes nothing, for a
    device of the device map with the no-active-connection error, also
    after the ['connect'] event of its endpoint. *)
Theorem stream_commands_are_never_sent
    (history : list WebSocketHistory.Action) (command : Command)
    (send_throws : bool) :
  sent (trace (after history)) = [] /\
  (exists e,
     sendCommand JSON_stringify (after history) command send_throws
     = (after history, Rejected e)) /\
  (is_Some (JsMap.get (c_device_id command) (deviceMap (after history))) ->
   sendCommand JSON_stringify (after history) command send_throws
   = (after history, Rejected "No active WebSocket connection for device")).
Proof.
  pose proof (after_unkeyed history) as Ha.
  split; [now destruct Ha|].
  now apply sendCommand_unkeyed.
Qed.


End History.

(** Two devices are registered for one endpoint, each registration being
    followed by the ['connect'] event of its dial, and a message arrives on
    the first connection. *)
Definition two_scopes : list WebSocketHistory.Action :=
  [WebSocketHistory.CallRegisterDevice WebSocketProps.stream1 false;
   WebSocketHistory.ClientConnect;
   WebSocketHistory.CallRegisterDevice WebSocketProps.stream2 false;
   WebSocketHistory.ClientConnect;
   WebSocketHistory.ConnectionMessage 0 (Utf8 "temperature=20.5") 1 2].

Definition two_scopes_connected : t :=
  WebSocketHistory.after parse_sample stringify_sample (fun _ => false)
    (fun _ => None) two_scopes.

Lemma stream_data_is_never_delivered_witness :
  delivered (trace two_scopes_connected) = [] /\
  on_message parse_sample (fun _ => false) two_scopes_connected None
    (Utf8 "temperature=20.5") 3 4
  = (two_scopes_connected, Normal).
Proof.
  destruct (stream_data_is_never_delivered parse_sample stringify_sample
              (fun _ => false) (fun _ => None) (fun _ => eq_refl) two_scopes)
    as [H1 H2].
  split; [exact H1|]. exact (H2 0 (Utf8 "temperature=20.5") 3%Z 4%Z).
Defined.

Lemma stream_commands_are_never_sent_witness :
  sendCommand stringify_sample two_scopes_connected
    (mkCommand "scope-1" (VStr "start") VUndefined) false
  = (two_scopes_connected,
     Rejected "No active WebSocket connection for device").
Proof.
  destruct (stream_commands_are_never_sent parse_sample stringify_sample
              (fun _ => false) (fun _ => None) (fun _ => eq_refl) two_scopes
              (mkCommand "scope-1" (VStr "start") VUndefined) false)
    as (_ & _ & H).
  apply H. vm_compute. eauto.
Defined.


Lemma close_all_run values close_throws a :
  close_all values close_throws a
  = if forallb (fun c => negb (close_throws c)) values
    then (foldl (fun a0 c => log (LibClose c) a0) a values, Normal)
    else ((close_all values close_throws a).1, Throw "close").
Proof.
  revert a. induction values as [|c values IH]; intros a; simpl; [reflexivity|].
  destruct (close_throws c); simpl; [reflexivity|].
  rewrite IH. now destruct (forallb _ values).
Qed.

Lemma close_all_frame values close_throws a :
  connections (close_all values close_throws a).1 = connections a /\
  deviceMap (close_all values close_throws a).1 = deviceMap a.
Proof.
  revert a. induction values as [|c values IH]; intros a; simpl; [done|].
  destruct (close_throws c); simpl; [done|]. apply (IH (log (LibClose c) a)).
Qed.

Lemma foldl_close_trace values a :
  trace (foldl (fun a0 c => log (LibClose c) a0) a values)
  = (trace a ++ map LibClose values)%list.
Proof.
  revert a. induction values as [|c values IH]; intros a; simpl.
  - now rewrite app_nil_r.
  - rewrite IH. simpl. now rewrite <- app_assoc.
Qed.

(** X13.  [disconnect()] without a device id closes the connections in the
    order in which they were stored.  If no [close] throws it resolves and
    both maps are empty, each connection having been closed exactly once;
    if one throws, the promise rejects and both maps keep all their entries,
    those of the connections already closed included. *)
Theorem disconnect_all_is_all_or_nothing
    (a : t) (close_throws : nat -> bool) :
  if forallb (fun c => negb (close_throws c)) (map snd (connections a))
  then
    (disconnect a None close_throws).2 = Resolved /\
    connections (disconnect a None close_throws).1 = [] /\
    deviceMap (disconnect a None close_throws).1 = [] /\
    trace (disconnect a None close_throws).1
      = (trace a ++ map LibClose (map snd (connections a)))%list
  else
    (disconnect a None close_throws).2 = Rejected "close" /\
    connections (disconnect a None close_throws).1 = connections a /\
    deviceMap (disconnect a None close_throws).1 = deviceMap a.
Proof.
  unfold disconnect. simpl.
  destruct (close_all_frame (map snd (connections a)) close_throws a)
    as [Hc Hm].
  rewrite close_all_run.
  destruct (forallb _ (map snd (connections a))); simpl.
  - repeat split. apply foldl_close_trace.
  - repeat split; assumption.
Qed.

End StreamProps.

(** ** RestAdapter: registration, polling timers and requests *)

Module PollingProps.
Import Js RestAdapter Samples.

Definition data_url (details : ConnectionDetails) : string :=
  default "undefined" (base_url details) ++ default "/data" (data_endpoint details).

(** The response to the health request of the registration just made. *)
Definition registered (a : t) (device : Device) (ok : bool) : t * Outcome :=
  on_health (registerDevice a device).1 (length (health_checks a)) ok.

Lemma registered_run a device details ok :
  connection_details device = Some details ->
  truthy_str (base_url details) = true ->
  registered a device ok
  = let a1 := set_deviceMap (<[device_id device := device]> (deviceMap a)) a in
    if ok then
      let a2 := log (ConnectionCallback "connected") a1 in
      if truthy_interval (polling_interval details) then
        match startPolling a2 (device_id device)
                (default 0%Z (polling_interval details)) with
        | (a3, Normal) => (a3, Resolved)
        | (a3, Throw e) => (a3, Rejected e)
        end
      else (a2, Resolved)
    else (log (ConnectionCallback "error") a1, Rejected "health").
Proof.
  intros Hd Hb. unfold registered, registerDevice. rewrite Hd, Hb.
  unfold on_health. cbn [fst].
  change (health_checks (set_health_checks ?h ?b)) with h.
  change (health_checks (set_deviceMap ?d ?b)) with (health_checks b).
  rewrite (list_lookup_middle (health_checks a) [] device) by reflexivity.
  assert (Hdel : delete (length (health_checks a))
                   (health_checks a ++ [device])%list
                 = health_checks a).
  { induction (health_checks a) as [|x l IH]; simpl; [reflexivity|].
    now f_equal. }
  rewrite Hdel, Hd.
  assert (Hsame : set_health_checks (health_checks a)
            (set_health_checks (health_checks a ++ [device])%list
               (set_deviceMap (<[device_id device:=device]> (deviceMap a)) a))
          = set_deviceMap (<[device_id device:=device]> (deviceMap a)) a).
  { now destruct a. }
  rewrite Hsame. reflexivity.
Qed.

(** X14.  Whatever calls and events an adapter has gone through, at most
    one live timer polls a given device, and it is the one recorded for the
    device in [pollingIntervals]: registering a polled device again never
    leaves two timers running for it. *)
Theorem one_live_timer_per_device
    (history : list Action) (i j : nat) (deviceId url url' : string) :
  timers (after history) !! i = Some (deviceId, url) ->
  timers (after history) !! j = Some (deviceId, url') ->
  i = j /\ pollingIntervals (after history) !! deviceId = Some i.
Proof.
  intros Hi Hj.
  pose proof (RestProps.after_wf history) as Hwf.
  apply (RestProps.wf_recorded _ Hwf) in Hi, Hj. split; congruence.
Qed.

Definition registered_twice : list Action :=
  [CallRegisterDevice pump1; World (HealthResponse 0 true);
   CallRegisterDevice pump1; World (HealthResponse 0 true)].

Lemma one_live_timer_per_device_witness :
  1 = 1 /\ pollingIntervals (after registered_twice) !! "pump-1" = Some 1.
Proof.
  apply (one_live_timer_per_device registered_twice 1 1 "pump-1"
           "http://x/api/data" "http://x/api/data");
    vm_compute; reflexivity.
Defined.

(** X15.  A REST registration whose health request fails is rejected and
    adds no route, but it is not rolled back in the adapter: the device
    stays in the adapter's device map (no timer is started for it), so the
    registry and the adapter disagree about the device. *)
Theorem failed_health_check_is_not_rolled_back
    (m : AdapterManager.t) (device : Device) (w : AdapterManager.World)
    (r : t) (details : ConnectionDetails) :
  protocol device = Some "REST" ->
  JsMap.get "REST" (AdapterManager.adapters m) = Some (AdapterManager.Rest r) ->
  connection_details device = Some details ->
  truthy_str (base_url details) = true ->
  AdapterManager.rest_health w = Some false ->
  (AdapterManager.registerDevice m device w).2 = Rejected "health" /\
  AdapterManager.deviceAdapterMap (AdapterManager.registerDevice m device w).1
    = AdapterManager.deviceAdapterMap m /\
  exists r',
    JsMap.get "REST"
      (AdapterManager.adapters (AdapterManager.registerDevice m device w).1)
      = Some (AdapterManager.Rest r') /\
    deviceMap r' !! device_id device = Some device /\
    timers r' = timers r /\
    pollingIntervals r' = pollingIntervals r.
Proof.
  intros Hp Hget Hd Hb Hw.
  pose proof (registered_run r device details false Hd Hb) as Hrun.
  unfold registered in Hrun. simpl in Hrun.
  unfold AdapterManager.registerDevice. rewrite Hp. simpl. rewrite Hget.
  unfold AdapterManager.adapter_registerDevice.
  assert (Hreg : registerDevice r device
            = ((registerDevice r device).1, Pending)).
  { unfold registerDevice. now rewrite Hd, Hb. }
  rewrite Hreg, Hw, Hrun. simpl. repeat split.
  eexists. split; [apply JsMapFacts.get_set_eq|]. simpl.
  split; [apply lookup_insert_eq|done].
Qed.

Definition unhealthy : AdapterManager.World :=
  AdapterManager.mkWorld MqttAdapter.ConnectReturns (Some true)
    (MqttAdapter.SubscribeCallsBack false) MqttAdapter.EndCallsBack
    false (fun _ => false) (Some false).

Lemma failed_health_check_is_not_rolled_back_witness :
  (AdapterManager.registerDevice
     (AdapterManager.new ManagerProps.all_adapters) pump1 unhealthy).2
  = Rejected "health".
Proof.
  apply (failed_health_check_is_not_rolled_back
           (AdapterManager.new ManagerProps.all_adapters) pump1 unhealthy
           RestAdapter.new (rest_details "http://x/api" (Some 1000%Z)));
    reflexivity.
Defined.

(** X16.  In every reachable state, a registration with a usable polling
    interval whose health request succeeds resolves and leaves exactly one
    live timer for the device, created by this registration, which polls
    the data URL of the connection details just registered. *)
Theorem registration_with_interval_polls_new_url
    (history : list Action) (device : Device) (details : ConnectionDetails) :
  connection_details device = Some details ->
  truthy_str (base_url details) = true ->
  truthy_interval (polling_interval details) = true ->
  (registered (after history) device true).2 = Resolved /\
  timers (registered (after history) device true).1
    !! timers_created (after history)
    = Some (device_id device, data_url details) /\
  forall i url,
    timers (registered (after history) device true).1 !! i
      = Some (device_id device, url) ->
    i = timers_created (after history) /\ url = data_url details.
Proof.
  intros Hd Hb Hi.
  pose proof (RestProps.after_wf history) as Hwf.
  set (a := after history) in *.
  rewrite (registered_run a device details true Hd Hb). simpl. rewrite Hi.
  set (a2 := log _ _).
  assert (Hwf2 : RestProps.wf a2) by (now destruct Hwf).
  pose proof (RestProps.startPolling_wf a2 (device_id device)
                (default 0%Z (polling_interval details)) Hwf2) as Hwf3.
  assert (Hrun : startPolling a2 (device_id device)
                   (default 0%Z (polling_interval details))
            = ({| deviceMap := deviceMap a2;
                  pollingIntervals :=
                    <[device_id device := timers_created a]>
                      (pollingIntervals (stopPolling a2 (device_id device)));
                  timers :=
                    <[timers_created a := (device_id device, data_url details)]>
                      (timers (stopPolling a2 (device_id device)));
                  timers_created := S (timers_created a);
                  health_checks := health_checks a2;
                  polls_in_flight := polls_in_flight a2;
                  trace := trace a2 |}, Normal)).
  { unfold startPolling.
    destruct (RestProps.stopPolling_frame a2 (device_id device))
      as (Hm & Ht & Hp & Hh & Hc).
    rewrite Hm, Ht, Hp, Hh, Hc.
    change (deviceMap a2) with (<[device_id device := device]> (deviceMap a)).
    rewrite lookup_insert_eq, Hd. reflexivity. }
  rewrite Hrun in Hwf3 |- *. simpl in *.
  split; [reflexivity|]. split; [apply lookup_insert_eq|].
  intros i url Hlook.
  pose proof (RestProps.wf_recorded _ Hwf3 i (device_id device) url Hlook)
    as Hrec.
  simpl in Hrec. rewrite lookup_insert_eq in Hrec. injection Hrec as <-.
  rewrite lookup_insert_eq in Hlook. injection Hlook as <-. done.
Qed.

Lemma registration_with_interval_polls_new_url_witness :
  timers (registered (after registered_twice) pump1 true).1 !! 2
  = Some ("pump-1", "http://x/api/data").
Proof.
  apply (registration_with_interval_polls_new_url registered_twice pump1
           (rest_details "http://x/api" (Some 1000%Z))); reflexivity.
Defined.

(** X17.  A registration without a usable polling interval (absent or 0)
    whose health request succeeds resolves and replaces the stored device,
    but it touches no timer: a timer started by an earlier registration of
    the device keeps polling, at the URL of the earlier registration. *)
Theorem registration_without_interval_keeps_old_timer
    (a : t) (device : Device) (details : ConnectionDetails) :
  connection_details device = Some details ->
  truthy_str (base_url details) = true ->
  truthy_interval (polling_interval details) = false ->
  (registered a device true).2 = Resolved /\
  deviceMap (registered a device true).1 !! device_id device = Some device /\
  timers (registered a device true).1 = timers a /\
  pollingIntervals (registered a device true).1 = pollingIntervals a.
Proof.
  intros Hd Hb Hi.
  rewrite (registered_run a device details true Hd Hb). simpl. rewrite Hi.
  simpl. repeat split. apply lookup_insert_eq.
Qed.

Definition pump1_moved : Device :=
  mkDevice "pump-1" (Some "REST") (Some (rest_details "http://y/api" None)).

Lemma registration_without_interval_keeps_old_timer_witness :
  timers (registered (after registered_twice) pump1_moved true).1 !! 1
  = Some ("pump-1", "http://x/api/data").
Proof.
  destruct (registration_without_interval_keeps_old_timer
              (after registered_twice) pump1_moved
              (rest_details "http://y/api" None))
    as (_ & _ & Ht & _); [reflexivity | reflexivity | reflexivity |].
  rewrite Ht. reflexivity.
Defined.

(** X18.  After [disconnect] of a device (or of all devices, which is also
    what an empty device id does) the adapter no longer knows the device:
    [sendCommand] and [fetchData] for it fail with the not-found error and
    issue no request. *)
Theorem no_request_after_rest_disconnect
    (a : t) (target : option string) (deviceId : string) (command : Command)
    (reply : option (option value)) (now now_created : Z) :
  target = Some deviceId \/ truthy_str target = false ->
  c_device_id command = deviceId ->
  sendCommand (disconnect a target) command reply
    = (None, Fails "Device not found") /\
  fetchData (disconnect a target) deviceId reply now now_created
    = (None, Fails "Device not found").
Proof.
  intros Htarget Hid.
  assert (Hgone : deviceMap (disconnect a target) !! deviceId = None).
  { unfold disconnect. destruct (truthy_str target) eqn:Et; simpl.
    - destruct Htarget as [->|Hf]; [|discriminate]. simpl.
      apply lookup_delete_eq.
    - apply lookup_empty. }
  unfold sendCommand, fetchData. now rewrite Hid, Hgone.
Qed.

Lemma no_request_after_rest_disconnect_witness :
  sendCommand (disconnect (after registered_twice) (Some "pump-1"))
    (mkCommand "pump-1" (VStr "start") VUndefined) (Some (Some VNull))
  = (None, Fails "Device not found").
Proof.
  apply (no_request_after_rest_disconnect (after registered_twice)
           (Some "pump-1") "pump-1"
           (mkCommand "pump-1" (VStr "start") VUndefined)
           (Some (Some VNull)) 0 0); [now left | reflexivity].
Defined.

End PollingProps.

(** ** Data points read on demand and rendered *)

Module ReadingProps.
Import Js Samples.

(** What consumers get for a reading [data] of [deviceId] taken at [now]
    over REST. *)
Definition rest_reading (deviceId : string) (data : value) (now : Z)
    : DataPoint.StandardFormat :=
  {| DataPoint.sf_device_id := VStr deviceId;
     DataPoint.sf_timestamp := now;
     DataPoint.sf_protocol := VStr "REST";
     DataPoint.sf_parameters := or_else data (VObj []);
     DataPoint.sf_experiment_id := VNull |}.

(** X19.  [fetchData] of the registry for a device routed to the REST
    adapter and known to it settles as the request does: on a response it
    resolves with a data point that renders to the standard format with the
    device id, protocol REST, the instant of reception, no experiment, and
    the response body as parameters (an empty object when the body is
    falsy); on a failed request it rejects, and without an answer it never
    settles. *)
Theorem fetched_data_standard_format
    (m : AdapterManager.t) (deviceId : string) (r : RestAdapter.t)
    (device : Device) (details : ConnectionDetails) (data : value)
    (now now_created : Z) :
  AdapterManager.deviceAdapterMap m !! deviceId = Some "REST" ->
  JsMap.get "REST" (AdapterManager.adapters m) = Some (AdapterManager.Rest r) ->
  RestAdapter.deviceMap r !! deviceId = Some device ->
  connection_details device = Some details ->
  (exists p,
     AdapterManager.fetchData m deviceId (Some (Some data)) now now_created
       = RestAdapter.Returns p /\
     DataPoint.toStandardFormat p = Some (rest_reading deviceId data now)) /\
  AdapterManager.fetchData m deviceId (Some None) now now_created
    = RestAdapter.Fails "request" /\
  AdapterManager.fetchData m deviceId None now now_created
    = RestAdapter.NeverSettles.
Proof.
  intros Hroute Hadapter Hdevice Hdetails.
  unfold AdapterManager.fetchData. rewrite Hroute. simpl. rewrite Hadapter.
  unfold RestAdapter.fetchData. rewrite Hdevice, Hdetails. simpl.
  repeat split. eexists. split; reflexivity.
Qed.

Definition gateway : AdapterManager.t :=
  (AdapterManager.registerDevice
     (AdapterManager.new ManagerProps.all_adapters) pump1 ManagerProps.fair).1.

Lemma fetched_data_standard_format_witness :
  AdapterManager.fetchData gateway "pump-1" (Some None) 0 0
  = RestAdapter.Fails "request".
Proof.
  destruct (fetched_data_standard_format gateway "pump-1"
              (RestAdapter.after
                 [RestAdapter.CallRegisterDevice pump1;
                  RestAdapter.World (RestAdapter.HealthResponse 0 true)])
              pump1 (rest_details "http://x/api" (Some 1000%Z))
              temperature_reading 0 0) as (_ & H & _);
    [reflexivity | reflexivity | reflexivity | reflexivity | exact H].
Defined.

(** X20.  A data point read back from its database form renders to the
    standard format exactly when the stored timestamp is a valid [Date] or
    is falsy (the constructor then takes the clock); with any other stored
    timestamp, an ISO string or an invalid [Date] for instance,
    [toStandardFormat] throws. *)
Theorem standard_format_needs_date
    (now now_created : Z) (dbObject : DataPoint.DbObject) :
  is_Some (DataPoint.toStandardFormat
             (DataPoint.fromDatabase now now_created dbObject))
  <-> truthy (DataPoint.db_timestamp dbObject) = false \/
      exists ms, DataPoint.db_timestamp dbObject = VDate ms.
Proof.
  unfold DataPoint.toStandardFormat, DataPoint.fromDatabase, DataPoint.new.
  cbn [DataPoint.timestamp DataPoint.o_timestamp].
  unfold or_else.
  destruct (truthy (DataPoint.db_timestamp dbObject)) eqn:Ht.
  - destruct (DataPoint.db_timestamp dbObject)
      as [| |b|q| |s|ms| |items|fields];
      try (split; [intros _; right; eexists; reflexivity
                  | intros _; eexists; reflexivity]);
      (split; [intros [x Hx]; discriminate
              | intros [H | [ms' H]]; discriminate]).
  - split; [now left | intros _; eexists; reflexivity].
Qed.

End ReadingProps.

(** ** The device models *)

Module DeviceModelProps.
Import Js.

(** X21.  For a device built by the constructor of [models/device.js] and
    given a status by [updateStatus], writing it in database format and
    reading it back gives the same device when the status is truthy; a falsy
    status (the empty string, [null], ...) comes back as ['offline'].  The
    three dates are kept whatever the clock reads at the second
    construction. *)
Theorem device_round_trip_after_status_update
    (options : DeviceModel.Options) (newStatus : value)
    (n1 n2 n3 u1 u2 m1 m2 m3 : Z) :
  DeviceModel.fromDatabase m1 m2 m3
    (DeviceModel.toDatabase
       (DeviceModel.updateStatus (DeviceModel.new n1 n2 n3 options)
          newStatus u1 u2))
  = DeviceModel.updateStatus (DeviceModel.new n1 n2 n3 options)
      (or_else newStatus (VStr "offline")) u1 u2.
Proof.
  unfold DeviceModel.fromDatabase, DeviceModel.toDatabase,
    DeviceModel.updateStatus, DeviceModel.new.
  cbn -[or_else].
  rewrite !JsFacts.or_else_idem by reflexivity. reflexivity.
Qed.

(** X22.  The device model with capabilities does not survive its own
    database format: whatever status [updateStatus] has recorded, reading
    the device back from [toDatabase()] gives the device as first
    constructed, with status ['disconnected'] and no [last_seen]. *)
Theorem status_lost_in_database_round_trip
    (options : LabDevice.Options) (newStatus : value) (now_iso : string) :
  LabDevice.fromDatabase
    (LabDevice.toDatabase
       (LabDevice.updateStatus (LabDevice.new options) newStatus now_iso))
  = LabDevice.new options.
Proof.
  unfold LabDevice.fromDatabase, LabDevice.toDatabase, LabDevice.updateStatus,
    LabDevice.new.
  cbn -[or_else].
  rewrite !JsFacts.or_else_idem by reflexivity. reflexivity.
Qed.

End DeviceModelProps.

(** ** AuthService *)

Module AuthProps.
Import Js AuthService.

(** Was [apiKey] ever given to [registerApiKey]? *)
Definition key_registered (apiKey : string) (calls : list Call) : bool :=
  existsb (fun c => match c with
                    | RegisterApiKey k _ _ => String.eqb k apiKey
                    | RegisterDevicePermissions _ _ _ => false
                    end) calls.

(** The list given by the latest [registerDevicePermissions] of
    [deviceId], if there was one. *)
Definition latest_grant (deviceId : string) (calls : list Call)
    : option (list string) :=
  foldl (fun acc c => match c with
                      | RegisterDevicePermissions d allowed _ =>
                          if String.eqb d deviceId then Some (default [] allowed)
                          else acc
                      | RegisterApiKey _ _ _ => acc
                      end) None calls.

Lemma apiKeys_after calls apiKey :
  bool_decide (is_Some (apiKeys (foldl call new calls) !! apiKey))
  = key_registered apiKey calls.
Proof.
  induction calls as [|c calls IH] using rev_ind.
  - simpl. rewrite lookup_empty. apply bool_decide_eq_false. now intros [x Hx].
  - unfold key_registered in *. rewrite foldl_app, existsb_app. simpl.
    rewrite <- IH. destruct c as [k perms now | d allowed now]; simpl.
    + destruct (String.eqb_spec k apiKey) as [->|Hne].
      * rewrite lookup_insert_eq, orb_true_r.
        apply bool_decide_eq_true. eauto.
      * rewrite lookup_insert_ne by assumption. now rewrite orb_false_r.
    + now rewrite orb_false_r.
Qed.

Lemma devicePermissions_after calls deviceId :
  allowedApiKeys <$> (devicePermissions (foldl call new calls) !! deviceId)
  = latest_grant deviceId calls.
Proof.
  induction calls as [|c calls IH] using rev_ind.
  - simpl. now rewrite lookup_empty.
  - unfold latest_grant in *. rewrite !foldl_app. simpl.
    rewrite <- IH. destruct c as [k perms now | d allowed now]; simpl.
    + reflexivity.
    + destruct (String.eqb_spec d deviceId) as [->|Hne].
      * now rewrite lookup_insert_eq.
      * now rewrite lookup_insert_ne.
Qed.

(** X23.  After any sequence of registrations, an API key may access a
    device exactly when the key was registered with [registerApiKey] at
    some point and the latest [registerDevicePermissions] of the device
    lists it: a later list replaces the earlier ones, keys are never
    revoked, and listing a key for a device does not register it. *)
Theorem access_is_key_and_latest_grant
    (calls : list Call) (apiKey deviceId : string) :
  canAccessDevice (foldl call new calls) (Some apiKey) deviceId
  = key_registered apiKey calls
    && match latest_grant deviceId calls with
       | Some allowed => bool_decide (apiKey ∈ allowed)
       | None => false
       end.
Proof.
  unfold canAccessDevice, validateApiKey.
  rewrite apiKeys_after, <- devicePermissions_after.
  destruct (key_registered apiKey calls); simpl; [|reflexivity].
  now destruct (devicePermissions (foldl call new calls) !! deviceId).
Qed.

(** X24.  The device middleware never lets through a request that names a
    device with a key the service does not know, an absent key included:
    the request is passed to the error handler with the not-authorized
    error, whatever permissions the device has. *)
Theorem unknown_key_is_refused (s : t) (req : Request) (deviceId : string) :
  validateApiKey s (req_apiKey req) = false ->
  deviceId <> "" ->
  params_deviceId req = Some deviceId \/
    (truthy_str (params_deviceId req) = false /\
     body req = Some (Some deviceId)) ->
  deviceAuthMiddleware s req
  = NextError ("Not authorized to access device: " ++ deviceId).
Proof.
  intros Hkey Hne Hnamed.
  assert (Ht : String.eqb deviceId "" = false)
    by (now destruct (String.eqb_spec deviceId "")).
  unfold deviceAuthMiddleware, authorizeDeviceAccess, canAccessDevice.
  rewrite Hkey.
  destruct Hnamed as [Hp | [Hp Hb]].
  - rewrite Hp. simpl. rewrite Ht. simpl. now rewrite Ht.
  - rewrite Hp, Hb. simpl. now rewrite Ht.
Qed.

Lemma unknown_key_is_refused_witness :
  deviceAuthMiddleware
    (registerDevicePermissions new "tc-100" (Some ["guest"]) 0)
    (mkRequest (Some "guest") (Some "tc-100") None)
  = NextError "Not authorized to access device: tc-100".
Proof.
  apply (unknown_key_is_refused
           (registerDevicePermissions new "tc-100" (Some ["guest"]) 0)
           (mkRequest (Some "guest") (Some "tc-100") None) "tc-100");
    [reflexivity | discriminate | now left].
Defined.

End AuthProps.

(** ** DeviceService *)

Module ServiceProps.
Import Js DeviceService.

Lemma push_bounded_ends points point :
  exists kept, push_bounded points point = (kept ++ [point])%list.
Proof.
  unfold push_bounded.
  destruct (Nat.ltb_spec 1000 (length (points ++ [point])%list)) as [Hgt|Hle].
  - destruct points as [|x points].
    + change (length ([] ++ [point])%list) with 1 in Hgt. lia.
    + exists points. reflexivity.
  - now exists points.
Qed.

Lemma push_bounded_length points point :
  length points <= 1000 -> length (push_bounded points point) <= 1000.
Proof.
  intros Hlen. unfold push_bounded.
  destruct (Nat.ltb_spec 1000 (length (points ++ [point])%list)) as [Hgt|Hle].
  - rewrite length_drop, length_app. change (length [point]) with 1. lia.
  - exact Hle.
Qed.

(** Every list of stored points belongs to a registered device and holds
    at most 1000 points. *)
Definition bounded (s : t) : Prop :=
  forall deviceId points,
    deviceData s !! deviceId = Some points ->
    is_Some (devices s !! deviceId) /\ length points <= 1000.

Lemma updateDeviceStatus_effect s deviceId status now :
  deviceData (updateDeviceStatus s deviceId status now).1 = deviceData s /\
  (forall k, is_Some (devices s !! k) ->
             is_Some (devices (updateDeviceStatus s deviceId status now).1 !! k)) /\
  ((updateDeviceStatus s deviceId status now).2 = Throws "DeviceNotFoundError"
   \/ is_Some (devices (updateDeviceStatus s deviceId status now).1 !! deviceId)).
Proof.
  unfold updateDeviceStatus, getDevice.
  destruct (devices s !! deviceId) as [device|] eqn:E; cbn [fst snd devices deviceData].
  - split; [reflexivity|]. split.
    + intros k Hk. destruct (decide (deviceId = k)) as [->|Hne].
      * rewrite lookup_insert_eq. eauto.
      * now rewrite lookup_insert_ne.
    + right. rewrite lookup_insert_eq. eauto.
  - split; [reflexivity|]. split; [auto|now left].
Qed.

Section Invariant.
Variable Date_of : value -> value.

Lemma call_bounded s c : bounded s -> bounded (call Date_of s c).
Proof.
  intros Hs. destruct c as [info now | id status now | dp now | dp];
    cbn [call].
  - unfold registerDevice.
    destruct (devices s !! tag_device_id info) eqn:E; cbn [fst]; [exact Hs|].
    intros k points Hk. cbn [deviceData devices] in *.
    destruct (Hs k points Hk) as [Hd Hl]. split; [|exact Hl].
    destruct (decide (tag_device_id info = k)) as [->|Hne].
    + rewrite lookup_insert_eq. eauto.
    + now rewrite lookup_insert_ne.
  - destruct (updateDeviceStatus_effect s id status now) as (Hdata & Hdev & _).
    intros k points Hk. rewrite Hdata in Hk.
    destruct (Hs k points Hk) as [Hd Hl]. auto.
  - unfold processData.
    destruct (updateDeviceStatus_effect s (tag_device_id dp) (VStr "online") now)
      as (Hdata & Hdev & Hres).
    destruct (updateDeviceStatus s (tag_device_id dp) (VStr "online") now)
      as [s1 [device|e]] eqn:E; cbn [fst snd] in *.
    + destruct Hres as [Hres|Hres]; [discriminate|].
      intros k points Hk. cbn [deviceData devices] in *.
      destruct (decide (tag_device_id dp = k)) as [<-|Hne].
      * rewrite lookup_insert_eq in Hk. injection Hk as <-.
        split; [exact Hres|]. apply push_bounded_length.
        rewrite Hdata.
        destruct (deviceData s !! tag_device_id dp) as [old|] eqn:Eo.
        -- now destruct (Hs _ _ Eo).
        -- cbn. lia.
      * rewrite lookup_insert_ne in Hk by assumption. rewrite Hdata in Hk.
        destruct (Hs k points Hk) as [Hd Hl]. auto.
    + intros k points Hk. rewrite Hdata in Hk.
      destruct (Hs k points Hk) as [Hd Hl]. auto.
  - unfold handleDeviceData.
    destruct (key_of (DataPoint.deviceId dp)) as [key|]; cbn [mbind option_bind];
      [|exact Hs].
    destruct (deviceData s !! key) as [old|] eqn:Eo; [|exact Hs].
    assert (Hgoal : bounded
              {| devices := devices s;
                 deviceData :=
                   <[key := push_bounded old
                              (stamped Date_of (instance_properties dp))]>
                     (deviceData s) |}).
    { intros k points Hk. cbn [deviceData devices] in *.
      destruct (decide (key = k)) as [<-|Hne].
      - rewrite lookup_insert_eq in Hk. injection Hk as <-.
        destruct (Hs _ _ Eo) as [Hd Hl].
        split; [exact Hd | now apply push_bounded_length].
      - rewrite lookup_insert_ne in Hk by assumption. now apply Hs. }
    cbn [default devices].
    now destruct (devices s !! key).
Qed.

Lemma foldl_bounded history s :
  bounded s -> bounded (foldl (call Date_of) s history).
Proof.
  revert s. induction history as [|c history IH]; intros s Hs; [exact Hs|].
  apply IH, call_bounded, Hs.
Qed.

Lemma after_bounded history : bounded (after Date_of history).
Proof.
  apply foldl_bounded. intros k points Hk. simpl in Hk.
  rewrite lookup_empty in Hk. discriminate.
Qed.

(** X25.  Device descriptions being plain data, the inbound-data callback
    [handleDeviceData] of the service never completes: in every state the
    service can reach it throws a TypeError, on [push] when no list is
    stored for the device, and otherwise on [device.updateStatus], which
    the stored device objects do not have. *)
Theorem handleDeviceData_always_throws
    (history : list Call) (dataPoint : DataPoint.t) :
  (handleDeviceData Date_of (after Date_of history) dataPoint).2
  = Throws "TypeError".
Proof.
  pose proof (after_bounded history) as Hs.
  unfold handleDeviceData.
  destruct (key_of (DataPoint.deviceId dataPoint)) as [key|];
    cbn [mbind option_bind]; [|reflexivity].
  destruct (deviceData (after Date_of history) !! key) as [old|] eqn:Eo;
    [|reflexivity].
  destruct (Hs _ _ Eo) as [[device Hd] _].
  cbn [default devices]. now rewrite Hd.
Qed.

(** X26.  In every state the service can reach, each list of stored data
    points holds at most 1000 points and belongs to a registered device. *)
Theorem stored_points_are_bounded
    (history : list Call) (deviceId : string) (points : list value) :
  deviceData (after Date_of history) !! deviceId = Some points ->
  length points <= 1000 /\
  is_Some (devices (after Date_of history) !! deviceId).
Proof.
  intros Hk. destruct (after_bounded history _ _ Hk). auto.
Qed.

(** X29.  Devices are never removed and never replaced by a registration:
    once a device id is registered, in every later state [getDevice] finds
    it and [registerDevice] with that id throws the validation error and
    changes nothing. *)
Theorem registered_devices_stay
    (s : t) (later : list Call) (deviceInfo : Tagged) (now : Z) :
  is_Some (devices s !! tag_device_id deviceInfo) ->
  is_Some (devices (foldl (call Date_of) s later) !! tag_device_id deviceInfo) /\
  registerDevice (foldl (call Date_of) s later) deviceInfo now
  = (foldl (call Date_of) s later, Throws "ValidationError").
Proof.
  intros Hs.
  assert (Hstay : is_Some (devices (foldl (call Date_of) s later)
                             !! tag_device_id deviceInfo)).
  { revert s Hs. induction later as [|c later IH]; intros s Hs; [exact Hs|].
    apply IH. destruct c as [info n | id status n | dp n | dp]; cbn [call].
    - unfold registerDevice.
      destruct (devices s !! tag_device_id info) eqn:E; cbn [fst devices];
        [exact Hs|].
      destruct (decide (tag_device_id info = tag_device_id deviceInfo))
        as [->|Hne].
      + rewrite lookup_insert_eq. eauto.
      + now rewrite lookup_insert_ne.
    - now apply updateDeviceStatus_effect.
    - unfold processData.
      pose proof (updateDeviceStatus_effect s (tag_device_id dp)
                    (VStr "online") n) as (_ & Hdev & _).
      specialize (Hdev _ Hs).
      now destruct (updateDeviceStatus s (tag_device_id dp) (VStr "online") n)
        as [s1 [device|e]].
    - unfold handleDeviceData.
      destruct (key_of (DataPoint.deviceId dp)) as [key|];
        cbn [mbind option_bind]; [|exact Hs].
      destruct (deviceData s !! key) as [old|]; [|exact Hs].
      cbn [default devices]. now destruct (devices s !! key). }
  split; [exact Hstay|].
  unfold registerDevice. destruct Hstay as [device ->]. reflexivity.
Qed.

End Invariant.

Definition thermostat : Tagged :=
  mkTagged "tc-100" [("protocol", VStr "MQTT")].

Definition thermostat_point : Tagged :=
  mkTagged "tc-100" [("timestamp", VNum (Q2Qc (5 # 1)))].

Definition date_sample (v : value) : value :=
  match v with
  | VNum q => VDate (Qnum (this q) / Z.pos (Qden (this q)))
  | other => other
  end.

Lemma stored_points_are_bounded_witness :
  1 <= 1000 /\
  is_Some (devices (after date_sample
                      [RegisterDevice thermostat 0;
                       ProcessData thermostat_point 1]) !! "tc-100").
Proof.
  apply (stored_points_are_bounded date_sample
           [RegisterDevice thermostat 0; ProcessData thermostat_point 1]
           "tc-100"
           [VObj [("device_id", VStr "tc-100"); ("timestamp", VDate 5)]]).
  vm_compute. reflexivity.
Defined.

Lemma registered_devices_stay_witness :
  registerDevice
    (foldl (call date_sample) (registerDevice new thermostat 0).1
       [ProcessData thermostat_point 1]) thermostat 2
  = (foldl (call date_sample) (registerDevice new thermostat 0).1
       [ProcessData thermostat_point 1], Throws "ValidationError").
Proof.
  apply (registered_devices_stay date_sample (registerDevice new thermostat 0).1
           [ProcessData thermostat_point 1] thermostat 2).
  vm_compute. eauto.
Defined.

Lemma slice_last_spec limit data :
  (0 <= limit)%Z ->
  slice_last limit data
  = if (limit =? 0)%Z then data
    else drop (length data - Z.to_nat limit) data.
Proof.
  intros Hpos. unfold slice_last.
  destruct (Z.eqb_spec limit 0) as [->|Hne].
  - cbn [Z.opp Z.ltb Z.compare]. rewrite Z.min_l by lia. reflexivity.
  - destruct (Z.ltb_spec (- limit) 0) as [Hlt|Hge]; [|lia].
    f_equal. lia.
Qed.

(** X27.  For a registered device, [getDeviceData] with a positive limit
    returns the latest [limit] stored points, oldest first (all of them when
    fewer are stored), and 100 is the limit when none is given; with limit 0
    it returns every stored point, not none. *)
Theorem getDeviceData_window
    (s : t) (deviceId : string) (device : list (string * value)) (limit : Z) :
  devices s !! deviceId = Some device ->
  (0 <= limit)%Z ->
  getDeviceData s deviceId (Some limit)
  = Ok (if (limit =? 0)%Z then default [] (deviceData s !! deviceId)
        else drop (length (default [] (deviceData s !! deviceId))
                     - Z.to_nat limit)
               (default [] (deviceData s !! deviceId))) /\
  getDeviceData s deviceId None = getDeviceData s deviceId (Some 100%Z).
Proof.
  intros Hd Hpos. unfold getDeviceData, getDevice. rewrite Hd.
  split; [|reflexivity].
  cbn [default]. now rewrite slice_last_spec.
Qed.

Lemma getDeviceData_window_witness :
  getDeviceData
    (after date_sample
       [RegisterDevice thermostat 0; ProcessData thermostat_point 1;
        ProcessData thermostat_point 2]) "tc-100" (Some 0%Z)
  = Ok [VObj [("device_id", VStr "tc-100"); ("timestamp", VDate 5)];
        VObj [("device_id", VStr "tc-100"); ("timestamp", VDate 5)]].
Proof.
  destruct (getDeviceData_window
              (after date_sample
                 [RegisterDevice thermostat 0; ProcessData thermostat_point 1;
                  ProcessData thermostat_point 2]) "tc-100"
              (JsMap.set "lastSeen" (VDate 2)
                 (JsMap.set "status" (VStr "online")
                    (JsMap.set "lastSeen" (VDate 1)
                       (JsMap.set "status" (VStr "online")
                          (spread
                             [("deviceId", VStr "tc-100");
                              ("protocol", VStr "MQTT");
                              ("status", VStr "registered");
                              ("lastSeen", VDate 0)]
                             (own_properties thermostat))))))
              0%Z) as [H _]; [vm_compute; reflexivity | lia |].
  rewrite H. vm_compute. reflexivity.
Defined.

(** X28.  A data point accepted by [processData] for a registered device
    is the newest stored point: [getDeviceData] with limit 1 returns exactly
    it, with its timestamp turned into a [Date], and the device is marked
    online. *)
Theorem latest_point_is_returned
    (Date_of : value -> value) (s : t) (dataPoint : Tagged) (now : Z)
    (device : list (string * value)) :
  devices s !! tag_device_id dataPoint = Some device ->
  (processData Date_of s dataPoint now).2 = Ok dataPoint /\
  getDeviceData (processData Date_of s dataPoint now).1
    (tag_device_id dataPoint) (Some 1%Z)
  = Ok [stamped Date_of (own_properties dataPoint)] /\
  getDevice (processData Date_of s dataPoint now).1 (tag_device_id dataPoint)
  = Ok (JsMap.set "lastSeen" (VDate now)
          (JsMap.set "status" (VStr "online") device)).
Proof.
  intros Hd. unfold processData, updateDeviceStatus, getDevice. rewrite Hd.
  cbn [fst snd devices deviceData]. split; [reflexivity|].
  unfold getDeviceData, getDevice. cbn [devices deviceData].
  rewrite !lookup_insert_eq. split; [|reflexivity].
  change (default 100%Z (Some 1%Z)) with 1%Z.
  rewrite (slice_last_spec 1) by lia.
  destruct (push_bounded_ends (default [] (deviceData s !! tag_device_id dataPoint))
              (stamped Date_of (own_properties dataPoint))) as [kept ->].
  cbn [Z.eqb]. f_equal.
  change (default [] (Some ?l)) with l.
  rewrite length_app. change (length [_]) with 1.
  change (Z.to_nat 1) with 1.
  replace (length kept + 1 - 1) with (length kept) by lia.
  now rewrite drop_app_length.
Qed.

Lemma latest_point_is_returned_witness :
  getDeviceData
    (processData date_sample (registerDevice new thermostat 0).1
       thermostat_point 1).1 "tc-100" (Some 1%Z)
  = Ok [VObj [("device_id", VStr "tc-100"); ("timestamp", VDate 5)]].
Proof.
  destruct (latest_point_is_returned date_sample
              (registerDevice new thermostat 0).1 thermostat_point 1
              (spread
                 [("deviceId", VStr "tc-100"); ("protocol", VStr "MQTT");
                  ("status", VStr "registered"); ("lastSeen", VDate 0)]
                 (own_properties thermostat))) as (_ & H & _);
    [vm_compute; reflexivity | exact H].
Defined.

End ServiceProps.
